(** * sumo-redrive: the search-job lifecycle and its batch orchestration

    A shallow embedding of [sumoredrive/charge_request.py] and
    [sumoredrive/run_concurrent.py], and the properties of the design
    document that the code decides.

    Conventions of the embedding.
    - A Python [str] is the list of its code points.  The text predicates
      and functions ([isspace], [isdecimal], [isdigit], [lower]) are those
      of the interpreter on every code point, from the tables of its
      Unicode database.
    - A Python exception is a value of [exn]; a computation that may raise
      returns a [res].
    - The search backend and the sink are scripts: the list of the answers
      they give, one per call, in the order of the calls.  A call made after
      the script has run out fails as a call to an unreachable host does.
      Every loop of the program makes one backend call per iteration, so
      the loops are recursions on the script.
    - What the program does to the outside (requests, sleeps, lines on the
      two output streams, sink deliveries) is returned as a list of events,
      oldest first.
    - The limits of the interpreter on the decoder (the depth of the
      recursion, the length of the digit strings of its integers, the
      memory) are left out: integers are unbounded and the decoder goes as
      deep as the text does.  The limit of [int] on the digits of a relative
      start is kept.  The fuel of the recursive definitions is shown to be
      enough. *)

From Stdlib Require Import ZArith NArith Ascii String List Lia Sorted.
From Stdlib Require Import Floats.SpecFloat.
From stdpp Require Import base option list gmap.
Import ListNotations.

Local Open Scope Z_scope.
Set Warnings "-register-all".

(** ** Text *)

Module Text.

Abbreviation str := (list N).

(** A literal: the code points of an ASCII string. *)
Definition lit (s : string) : str :=
  map N_of_ascii (list_ascii_of_string s).

(** A literal in which every apostrophe stands for a double quote. *)
Definition q (s : string) : str :=
  map (fun c : N => if (c =? 39)%N then 34%N else c) (lit s).

Definition str_eqb (a b : str) : bool := bool_decide (a = b).

(** *** The character tables

    The classes of characters are those of the Unicode database of the
    interpreter (version 14.0 for CPython 3.11), as runs of code points,
    first and last. *)

Definition within (c : N) (r : N * N) : bool :=
  ((fst r <=? c) && (c <=? snd r))%N.

Definition in_ranges (c : N) (l : list (N * N)) : bool := existsb (within c) l.

(** No run of [l1] meets a run of [l2]. *)
Definition apart (l1 l2 : list (N * N)) : bool :=
  forallb (fun r1 =>
             forallb (fun r2 => (snd r1 <? fst r2) || (snd r2 <? fst r1))%N l2)
          l1.

(** The white space: the characters [str.isspace] holds of, which
    [str.strip] removes. *)
Definition space_ranges : list (N * N) :=
  [(9, 0xD); (0x1C, 0x20); (0x85, 0x85); (0xA0, 0xA0); (0x1680, 0x1680);
   (0x2000, 0x200A); (0x2028, 0x2029); (0x202F, 0x202F); (0x205F, 0x205F);
   (0x3000, 0x3000)]%N.

(** The decimal digits (category Nd): in every run the digits of a script
    follow one another from its zero; the run of the fifty mathematical
    digits holds five scripts. *)
Definition decimal_ranges : list (N * N) :=
  [(0x30, 0x39); (0x660, 0x669); (0x6F0, 0x6F9); (0x7C0, 0x7C9);
   (0x966, 0x96F); (0x9E6, 0x9EF); (0xA66, 0xA6F); (0xAE6, 0xAEF);
   (0xB66, 0xB6F); (0xBE6, 0xBEF); (0xC66, 0xC6F); (0xCE6, 0xCEF);
   (0xD66, 0xD6F); (0xDE6, 0xDEF); (0xE50, 0xE59); (0xED0, 0xED9);
   (0xF20, 0xF29); (0x1040, 0x1049); (0x1090, 0x1099); (0x17E0, 0x17E9);
   (0x1810, 0x1819); (0x1946, 0x194F); (0x19D0, 0x19D9); (0x1A80, 0x1A89);
   (0x1A90, 0x1A99); (0x1B50, 0x1B59); (0x1BB0, 0x1BB9); (0x1C40, 0x1C49);
   (0x1C50, 0x1C59); (0xA620, 0xA629); (0xA8D0, 0xA8D9); (0xA900, 0xA909);
   (0xA9D0, 0xA9D9); (0xA9F0, 0xA9F9); (0xAA50, 0xAA59); (0xABF0, 0xABF9);
   (0xFF10, 0xFF19); (0x104A0, 0x104A9); (0x10D30, 0x10D39);
   (0x11066, 0x1106F); (0x110F0, 0x110F9); (0x11136, 0x1113F);
   (0x111D0, 0x111D9); (0x112F0, 0x112F9); (0x11450, 0x11459);
   (0x114D0, 0x114D9); (0x11650, 0x11659); (0x116C0, 0x116C9);
   (0x11730, 0x11739); (0x118E0, 0x118E9); (0x11950, 0x11959);
   (0x11C50, 0x11C59); (0x11D50, 0x11D59); (0x11DA0, 0x11DA9);
   (0x16A60, 0x16A69); (0x16AC0, 0x16AC9); (0x16B50, 0x16B59);
   (0x1D7CE, 0x1D7FF); (0x1E140, 0x1E149); (0x1E2F0, 0x1E2F9);
   (0x1E950, 0x1E959); (0x1FBF0, 0x1FBF9)]%N.

(** The digits that are not decimal: superscripts, subscripts, digits in
    circles and the like. *)
Definition other_digit_ranges : list (N * N) :=
  [(0xB2, 0xB3); (0xB9, 0xB9); (0x1369, 0x1371); (0x19DA, 0x19DA);
   (0x2070, 0x2070); (0x2074, 0x2079); (0x2080, 0x2089); (0x2460, 0x2468);
   (0x2474, 0x247C); (0x2488, 0x2490); (0x24EA, 0x24EA); (0x24F5, 0x24FD);
   (0x24FF, 0x24FF); (0x2776, 0x277E); (0x2780, 0x2788); (0x278A, 0x2792);
   (0x10A40, 0x10A43); (0x10E60, 0x10E68); (0x11052, 0x1105A);
   (0x1F100, 0x1F10A)]%N.

(** The lower-case mapping of one character to one character: from [first]
    to [last], every [step]-th character has a lower case, and that of
    [first] is [target]; the others follow at the same distance. *)
Definition lower_table : list (N * N * N * N) :=
  [(0x41, 0x5A, 1, 0x61); (0xC0, 0xD6, 1, 0xE0); (0xD8, 0xDE, 1, 0xF8);
   (0x100, 0x12E, 2, 0x101); (0x132, 0x136, 2, 0x133);
   (0x139, 0x147, 2, 0x13A); (0x14A, 0x176, 2, 0x14B);
   (0x178, 0x178, 1, 0xFF); (0x179, 0x17D, 2, 0x17A);
   (0x181, 0x181, 1, 0x253); (0x182, 0x184, 2, 0x183);
   (0x186, 0x186, 1, 0x254); (0x187, 0x187, 1, 0x188);
   (0x189, 0x18A, 1, 0x256); (0x18B, 0x18B, 1, 0x18C);
   (0x18E, 0x18E, 1, 0x1DD); (0x18F, 0x18F, 1, 0x259);
   (0x190, 0x190, 1, 0x25B); (0x191, 0x191, 1, 0x192);
   (0x193, 0x193, 1, 0x260); (0x194, 0x194, 1, 0x263);
   (0x196, 0x196, 1, 0x269); (0x197, 0x197, 1, 0x268);
   (0x198, 0x198, 1, 0x199); (0x19C, 0x19C, 1, 0x26F);
   (0x19D, 0x19D, 1, 0x272); (0x19F, 0x19F, 1, 0x275);
   (0x1A0, 0x1A4, 2, 0x1A1); (0x1A6, 0x1A6, 1, 0x280);
   (0x1A7, 0x1A7, 1, 0x1A8); (0x1A9, 0x1A9, 1, 0x283);
   (0x1AC, 0x1AC, 1, 0x1AD); (0x1AE, 0x1AE, 1, 0x288);
   (0x1AF, 0x1AF, 1, 0x1B0); (0x1B1, 0x1B2, 1, 0x28A);
   (0x1B3, 0x1B5, 2, 0x1B4); (0x1B7, 0x1B7, 1, 0x292);
   (0x1B8, 0x1B8, 1, 0x1B9); (0x1BC, 0x1BC, 1, 0x1BD);
   (0x1C4, 0x1C4, 1, 0x1C6); (0x1C5, 0x1C5, 1, 0x1C6);
   (0x1C7, 0x1C7, 1, 0x1C9); (0x1C8, 0x1C8, 1, 0x1C9);
   (0x1CA, 0x1CA, 1, 0x1CC); (0x1CB, 0x1DB, 2, 0x1CC);
   (0x1DE, 0x1EE, 2, 0x1DF); (0x1F1, 0x1F1, 1, 0x1F3);
   (0x1F2, 0x1F4, 2, 0x1F3); (0x1F6, 0x1F6, 1, 0x195);
   (0x1F7, 0x1F7, 1, 0x1BF); (0x1F8, 0x21E, 2, 0x1F9);
   (0x220, 0x220, 1, 0x19E); (0x222, 0x232, 2, 0x223);
   (0x23A, 0x23A, 1, 0x2C65); (0x23B, 0x23B, 1, 0x23C);
   (0x23D, 0x23D, 1, 0x19A); (0x23E, 0x23E, 1, 0x2C66);
   (0x241, 0x241, 1, 0x242); (0x243, 0x243, 1, 0x180);
   (0x244, 0x244, 1, 0x289); (0x245, 0x245, 1, 0x28C);
   (0x246, 0x24E, 2, 0x247); (0x370, 0x372, 2, 0x371);
   (0x376, 0x376, 1, 0x377); (0x37F, 0x37F, 1, 0x3F3);
   (0x386, 0x386, 1, 0x3AC); (0x388, 0x38A, 1, 0x3AD);
   (0x38C, 0x38C, 1, 0x3CC); (0x38E, 0x38F, 1, 0x3CD);
   (0x391, 0x3A1, 1, 0x3B1); (0x3A3, 0x3AB, 1, 0x3C3);
   (0x3CF, 0x3CF, 1, 0x3D7); (0x3D8, 0x3EE, 2, 0x3D9);
   (0x3F4, 0x3F4, 1, 0x3B8); (0x3F7, 0x3F7, 1, 0x3F8);
   (0x3F9, 0x3F9, 1, 0x3F2); (0x3FA, 0x3FA, 1, 0x3FB);
   (0x3FD, 0x3FF, 1, 0x37B); (0x400, 0x40F, 1, 0x450);
   (0x410, 0x42F, 1, 0x430); (0x460, 0x480, 2, 0x461);
   (0x48A, 0x4BE, 2, 0x48B); (0x4C0, 0x4C0, 1, 0x4CF);
   (0x4C1, 0x4CD, 2, 0x4C2); (0x4D0, 0x52E, 2, 0x4D1);
   (0x531, 0x556, 1, 0x561); (0x10A0, 0x10C5, 1, 0x2D00);
   (0x10C7, 0x10C7, 1, 0x2D27); (0x10CD, 0x10CD, 1, 0x2D2D);
   (0x13A0, 0x13EF, 1, 0xAB70); (0x13F0, 0x13F5, 1, 0x13F8);
   (0x1C90, 0x1CBA, 1, 0x10D0); (0x1CBD, 0x1CBF, 1, 0x10FD);
   (0x1E00, 0x1E94, 2, 0x1E01); (0x1E9E, 0x1E9E, 1, 0xDF);
   (0x1EA0, 0x1EFE, 2, 0x1EA1); (0x1F08, 0x1F0F, 1, 0x1F00);
   (0x1F18, 0x1F1D, 1, 0x1F10); (0x1F28, 0x1F2F, 1, 0x1F20);
   (0x1F38, 0x1F3F, 1, 0x1F30); (0x1F48, 0x1F4D, 1, 0x1F40);
   (0x1F59, 0x1F5F, 2, 0x1F51); (0x1F68, 0x1F6F, 1, 0x1F60);
   (0x1F88, 0x1F8F, 1, 0x1F80); (0x1F98, 0x1F9F, 1, 0x1F90);
   (0x1FA8, 0x1FAF, 1, 0x1FA0); (0x1FB8, 0x1FB9, 1, 0x1FB0);
   (0x1FBA, 0x1FBB, 1, 0x1F70); (0x1FBC, 0x1FBC, 1, 0x1FB3);
   (0x1FC8, 0x1FCB, 1, 0x1F72); (0x1FCC, 0x1FCC, 1, 0x1FC3);
   (0x1FD8, 0x1FD9, 1, 0x1FD0); (0x1FDA, 0x1FDB, 1, 0x1F76);
   (0x1FE8, 0x1FE9, 1, 0x1FE0); (0x1FEA, 0x1FEB, 1, 0x1F7A);
   (0x1FEC, 0x1FEC, 1, 0x1FE5); (0x1FF8, 0x1FF9, 1, 0x1F78);
   (0x1FFA, 0x1FFB, 1, 0x1F7C); (0x1FFC, 0x1FFC, 1, 0x1FF3);
   (0x2126, 0x2126, 1, 0x3C9); (0x212A, 0x212A, 1, 0x6B);
   (0x212B, 0x212B, 1, 0xE5); (0x2132, 0x2132, 1, 0x214E);
   (0x2160, 0x216F, 1, 0x2170); (0x2183, 0x2183, 1, 0x2184);
   (0x24B6, 0x24CF, 1, 0x24D0); (0x2C00, 0x2C2F, 1, 0x2C30);
   (0x2C60, 0x2C60, 1, 0x2C61); (0x2C62, 0x2C62, 1, 0x26B);
   (0x2C63, 0x2C63, 1, 0x1D7D); (0x2C64, 0x2C64, 1, 0x27D);
   (0x2C67, 0x2C6B, 2, 0x2C68); (0x2C6D, 0x2C6D, 1, 0x251);
   (0x2C6E, 0x2C6E, 1, 0x271); (0x2C6F, 0x2C6F, 1, 0x250);
   (0x2C70, 0x2C70, 1, 0x252); (0x2C72, 0x2C72, 1, 0x2C73);
   (0x2C75, 0x2C75, 1, 0x2C76); (0x2C7E, 0x2C7F, 1, 0x23F);
   (0x2C80, 0x2CE2, 2, 0x2C81); (0x2CEB, 0x2CED, 2, 0x2CEC);
   (0x2CF2, 0x2CF2, 1, 0x2CF3); (0xA640, 0xA66C, 2, 0xA641);
   (0xA680, 0xA69A, 2, 0xA681); (0xA722, 0xA72E, 2, 0xA723);
   (0xA732, 0xA76E, 2, 0xA733); (0xA779, 0xA77B, 2, 0xA77A);
   (0xA77D, 0xA77D, 1, 0x1D79); (0xA77E, 0xA786, 2, 0xA77F);
   (0xA78B, 0xA78B, 1, 0xA78C); (0xA78D, 0xA78D, 1, 0x265);
   (0xA790, 0xA792, 2, 0xA791); (0xA796, 0xA7A8, 2, 0xA797);
   (0xA7AA, 0xA7AA, 1, 0x266); (0xA7AB, 0xA7AB, 1, 0x25C);
   (0xA7AC, 0xA7AC, 1, 0x261); (0xA7AD, 0xA7AD, 1, 0x26C);
   (0xA7AE, 0xA7AE, 1, 0x26A); (0xA7B0, 0xA7B0, 1, 0x29E);
   (0xA7B1, 0xA7B1, 1, 0x287); (0xA7B2, 0xA7B2, 1, 0x29D);
   (0xA7B3, 0xA7B3, 1, 0xAB53); (0xA7B4, 0xA7C2, 2, 0xA7B5);
   (0xA7C4, 0xA7C4, 1, 0xA794); (0xA7C5, 0xA7C5, 1, 0x282);
   (0xA7C6, 0xA7C6, 1, 0x1D8E); (0xA7C7, 0xA7C9, 2, 0xA7C8);
   (0xA7D0, 0xA7D0, 1, 0xA7D1); (0xA7D6, 0xA7D8, 2, 0xA7D7);
   (0xA7F5, 0xA7F5, 1, 0xA7F6); (0xFF21, 0xFF3A, 1, 0xFF41);
   (0x10400, 0x10427, 1, 0x10428); (0x104B0, 0x104D3, 1, 0x104D8);
   (0x10570, 0x1057A, 1, 0x10597); (0x1057C, 0x1058A, 1, 0x105A3);
   (0x1058C, 0x10592, 1, 0x105B3); (0x10594, 0x10595, 1, 0x105BB);
   (0x10C80, 0x10CB2, 1, 0x10CC0); (0x118A0, 0x118BF, 1, 0x118C0);
   (0x16E40, 0x16E5F, 1, 0x16E60); (0x1E900, 0x1E921, 1, 0x1E922)]%N.

(** The characters with a case (the property Cased). *)
Definition cased_ranges : list (N * N) :=
  [(0x41, 0x5A); (0x61, 0x7A); (0xAA, 0xAA); (0xB5, 0xB5); (0xBA, 0xBA);
   (0xC0, 0xD6); (0xD8, 0xF6); (0xF8, 0x1BA); (0x1BC, 0x1BF);
   (0x1C4, 0x293); (0x295, 0x2B8); (0x2C0, 0x2C1); (0x2E0, 0x2E4);
   (0x345, 0x345); (0x370, 0x373); (0x376, 0x377); (0x37A, 0x37D);
   (0x37F, 0x37F); (0x386, 0x386); (0x388, 0x38A); (0x38C, 0x38C);
   (0x38E, 0x3A1); (0x3A3, 0x3F5); (0x3F7, 0x481); (0x48A, 0x52F);
   (0x531, 0x556); (0x560, 0x588); (0x10A0, 0x10C5); (0x10C7, 0x10C7);
   (0x10CD, 0x10CD); (0x10D0, 0x10FA); (0x10FD, 0x10FF); (0x13A0, 0x13F5);
   (0x13F8, 0x13FD); (0x1C80, 0x1C88); (0x1C90, 0x1CBA); (0x1CBD, 0x1CBF);
   (0x1D00, 0x1DBF); (0x1E00, 0x1F15); (0x1F18, 0x1F1D); (0x1F20, 0x1F45);
   (0x1F48, 0x1F4D); (0x1F50, 0x1F57); (0x1F59, 0x1F59); (0x1F5B, 0x1F5B);
   (0x1F5D, 0x1F5D); (0x1F5F, 0x1F7D); (0x1F80, 0x1FB4); (0x1FB6, 0x1FBC);
   (0x1FBE, 0x1FBE); (0x1FC2, 0x1FC4); (0x1FC6, 0x1FCC); (0x1FD0, 0x1FD3);
   (0x1FD6, 0x1FDB); (0x1FE0, 0x1FEC); (0x1FF2, 0x1FF4); (0x1FF6, 0x1FFC);
   (0x2071, 0x2071); (0x207F, 0x207F); (0x2090, 0x209C); (0x2102, 0x2102);
   (0x2107, 0x2107); (0x210A, 0x2113); (0x2115, 0x2115); (0x2119, 0x211D);
   (0x2124, 0x2124); (0x2126, 0x2126); (0x2128, 0x2128); (0x212A, 0x212D);
   (0x212F, 0x2134); (0x2139, 0x2139); (0x213C, 0x213F); (0x2145, 0x2149);
   (0x214E, 0x214E); (0x2160, 0x217F); (0x2183, 0x2184); (0x24B6, 0x24E9);
   (0x2C00, 0x2CE4); (0x2CEB, 0x2CEE); (0x2CF2, 0x2CF3); (0x2D00, 0x2D25);
   (0x2D27, 0x2D27); (0x2D2D, 0x2D2D); (0xA640, 0xA66D); (0xA680, 0xA69D);
   (0xA722, 0xA787); (0xA78B, 0xA78E); (0xA790, 0xA7CA); (0xA7D0, 0xA7D1);
   (0xA7D3, 0xA7D3); (0xA7D5, 0xA7D9); (0xA7F5, 0xA7F6); (0xA7F8, 0xA7FA);
   (0xAB30, 0xAB5A); (0xAB5C, 0xAB68); (0xAB70, 0xABBF); (0xFB00, 0xFB06);
   (0xFB13, 0xFB17); (0xFF21, 0xFF3A); (0xFF41, 0xFF5A);
   (0x10400, 0x1044F); (0x104B0, 0x104D3); (0x104D8, 0x104FB);
   (0x10570, 0x1057A); (0x1057C, 0x1058A); (0x1058C, 0x10592);
   (0x10594, 0x10595); (0x10597, 0x105A1); (0x105A3, 0x105B1);
   (0x105B3, 0x105B9); (0x105BB, 0x105BC); (0x10780, 0x10780);
   (0x10783, 0x10785); (0x10787, 0x107B0); (0x107B2, 0x107BA);
   (0x10C80, 0x10CB2); (0x10CC0, 0x10CF2); (0x118A0, 0x118DF);
   (0x16E40, 0x16E7F); (0x1D400, 0x1D454); (0x1D456, 0x1D49C);
   (0x1D49E, 0x1D49F); (0x1D4A2, 0x1D4A2); (0x1D4A5, 0x1D4A6);
   (0x1D4A9, 0x1D4AC); (0x1D4AE, 0x1D4B9); (0x1D4BB, 0x1D4BB);
   (0x1D4BD, 0x1D4C3); (0x1D4C5, 0x1D505); (0x1D507, 0x1D50A);
   (0x1D50D, 0x1D514); (0x1D516, 0x1D51C); (0x1D51E, 0x1D539);
   (0x1D53B, 0x1D53E); (0x1D540, 0x1D544); (0x1D546, 0x1D546);
   (0x1D54A, 0x1D550); (0x1D552, 0x1D6A5); (0x1D6A8, 0x1D6C0);
   (0x1D6C2, 0x1D6DA); (0x1D6DC, 0x1D6FA); (0x1D6FC, 0x1D714);
   (0x1D716, 0x1D734); (0x1D736, 0x1D74E); (0x1D750, 0x1D76E);
   (0x1D770, 0x1D788); (0x1D78A, 0x1D7A8); (0x1D7AA, 0x1D7C2);
   (0x1D7C4, 0x1D7CB); (0x1DF00, 0x1DF09); (0x1DF0B, 0x1DF1E);
   (0x1E900, 0x1E943); (0x1F130, 0x1F149); (0x1F150, 0x1F169);
   (0x1F170, 0x1F189)]%N.

(** The characters that the rule of the final sigma passes over (the
    property Case_Ignorable). *)
Definition case_ignorable_ranges : list (N * N) :=
  [(0x27, 0x27); (0x2E, 0x2E); (0x3A, 0x3A); (0x5E, 0x5E); (0x60, 0x60);
   (0xA8, 0xA8); (0xAD, 0xAD); (0xAF, 0xAF); (0xB4, 0xB4); (0xB7, 0xB8);
   (0x2B0, 0x36F); (0x374, 0x375); (0x37A, 0x37A); (0x384, 0x385);
   (0x387, 0x387); (0x483, 0x489); (0x559, 0x559); (0x55F, 0x55F);
   (0x591, 0x5BD); (0x5BF, 0x5BF); (0x5C1, 0x5C2); (0x5C4, 0x5C5);
   (0x5C7, 0x5C7); (0x5F4, 0x5F4); (0x600, 0x605); (0x610, 0x61A);
   (0x61C, 0x61C); (0x640, 0x640); (0x64B, 0x65F); (0x670, 0x670);
   (0x6D6, 0x6DD); (0x6DF, 0x6E8); (0x6EA, 0x6ED); (0x70F, 0x70F);
   (0x711, 0x711); (0x730, 0x74A); (0x7A6, 0x7B0); (0x7EB, 0x7F5);
   (0x7FA, 0x7FA); (0x7FD, 0x7FD); (0x816, 0x82D); (0x859, 0x85B);
   (0x888, 0x888); (0x890, 0x891); (0x898, 0x89F); (0x8C9, 0x902);
   (0x93A, 0x93A); (0x93C, 0x93C); (0x941, 0x948); (0x94D, 0x94D);
   (0x951, 0x957); (0x962, 0x963); (0x971, 0x971); (0x981, 0x981);
   (0x9BC, 0x9BC); (0x9C1, 0x9C4); (0x9CD, 0x9CD); (0x9E2, 0x9E3);
   (0x9FE, 0x9FE); (0xA01, 0xA02); (0xA3C, 0xA3C); (0xA41, 0xA42);
   (0xA47, 0xA48); (0xA4B, 0xA4D); (0xA51, 0xA51); (0xA70, 0xA71);
   (0xA75, 0xA75); (0xA81, 0xA82); (0xABC, 0xABC); (0xAC1, 0xAC5);
   (0xAC7, 0xAC8); (0xACD, 0xACD); (0xAE2, 0xAE3); (0xAFA, 0xAFF);
   (0xB01, 0xB01); (0xB3C, 0xB3C); (0xB3F, 0xB3F); (0xB41, 0xB44);
   (0xB4D, 0xB4D); (0xB55, 0xB56); (0xB62, 0xB63); (0xB82, 0xB82);
   (0xBC0, 0xBC0); (0xBCD, 0xBCD); (0xC00, 0xC00); (0xC04, 0xC04);
   (0xC3C, 0xC3C); (0xC3E, 0xC40); (0xC46, 0xC48); (0xC4A, 0xC4D);
   (0xC55, 0xC56); (0xC62, 0xC63); (0xC81, 0xC81); (0xCBC, 0xCBC);
   (0xCBF, 0xCBF); (0xCC6, 0xCC6); (0xCCC, 0xCCD); (0xCE2, 0xCE3);
   (0xD00, 0xD01); (0xD3B, 0xD3C); (0xD41, 0xD44); (0xD4D, 0xD4D);
   (0xD62, 0xD63); (0xD81, 0xD81); (0xDCA, 0xDCA); (0xDD2, 0xDD4);
   (0xDD6, 0xDD6); (0xE31, 0xE31); (0xE34, 0xE3A); (0xE46, 0xE4E);
   (0xEB1, 0xEB1); (0xEB4, 0xEBC); (0xEC6, 0xEC6); (0xEC8, 0xECD);
   (0xF18, 0xF19); (0xF35, 0xF35); (0xF37, 0xF37); (0xF39, 0xF39);
   (0xF71, 0xF7E); (0xF80, 0xF84); (0xF86, 0xF87); (0xF8D, 0xF97);
   (0xF99, 0xFBC); (0xFC6, 0xFC6); (0x102D, 0x1030); (0x1032, 0x1037);
   (0x1039, 0x103A); (0x103D, 0x103E); (0x1058, 0x1059); (0x105E, 0x1060);
   (0x1071, 0x1074); (0x1082, 0x1082); (0x1085, 0x1086); (0x108D, 0x108D);
   (0x109D, 0x109D); (0x10FC, 0x10FC); (0x135D, 0x135F); (0x1712, 0x1714);
   (0x1732, 0x1733); (0x1752, 0x1753); (0x1772, 0x1773); (0x17B4, 0x17B5);
   (0x17B7, 0x17BD); (0x17C6, 0x17C6); (0x17C9, 0x17D3); (0x17D7, 0x17D7);
   (0x17DD, 0x17DD); (0x180B, 0x180F); (0x1843, 0x1843); (0x1885, 0x1886);
   (0x18A9, 0x18A9); (0x1920, 0x1922); (0x1927, 0x1928); (0x1932, 0x1932);
   (0x1939, 0x193B); (0x1A17, 0x1A18); (0x1A1B, 0x1A1B); (0x1A56, 0x1A56);
   (0x1A58, 0x1A5E); (0x1A60, 0x1A60); (0x1A62, 0x1A62); (0x1A65, 0x1A6C);
   (0x1A73, 0x1A7C); (0x1A7F, 0x1A7F); (0x1AA7, 0x1AA7); (0x1AB0, 0x1ACE);
   (0x1B00, 0x1B03); (0x1B34, 0x1B34); (0x1B36, 0x1B3A); (0x1B3C, 0x1B3C);
   (0x1B42, 0x1B42); (0x1B6B, 0x1B73); (0x1B80, 0x1B81); (0x1BA2, 0x1BA5);
   (0x1BA8, 0x1BA9); (0x1BAB, 0x1BAD); (0x1BE6, 0x1BE6); (0x1BE8, 0x1BE9);
   (0x1BED, 0x1BED); (0x1BEF, 0x1BF1); (0x1C2C, 0x1C33); (0x1C36, 0x1C37);
   (0x1C78, 0x1C7D); (0x1CD0, 0x1CD2); (0x1CD4, 0x1CE0); (0x1CE2, 0x1CE8);
   (0x1CED, 0x1CED); (0x1CF4, 0x1CF4); (0x1CF8, 0x1CF9); (0x1D2C, 0x1D6A);
   (0x1D78, 0x1D78); (0x1D9B, 0x1DFF); (0x1FBD, 0x1FBD); (0x1FBF, 0x1FC1);
   (0x1FCD, 0x1FCF); (0x1FDD, 0x1FDF); (0x1FED, 0x1FEF); (0x1FFD, 0x1FFE);
   (0x200B, 0x200F); (0x2018, 0x2019); (0x2024, 0x2024); (0x2027, 0x2027);
   (0x202A, 0x202E); (0x2060, 0x2064); (0x2066, 0x206F); (0x2071, 0x2071);
   (0x207F, 0x207F); (0x2090, 0x209C); (0x20D0, 0x20F0); (0x2C7C, 0x2C7D);
   (0x2CEF, 0x2CF1); (0x2D6F, 0x2D6F); (0x2D7F, 0x2D7F); (0x2DE0, 0x2DFF);
   (0x2E2F, 0x2E2F); (0x3005, 0x3005); (0x302A, 0x302D); (0x3031, 0x3035);
   (0x303B, 0x303B); (0x3099, 0x309E); (0x30FC, 0x30FE); (0xA015, 0xA015);
   (0xA4F8, 0xA4FD); (0xA60C, 0xA60C); (0xA66F, 0xA672); (0xA674, 0xA67D);
   (0xA67F, 0xA67F); (0xA69C, 0xA69F); (0xA6F0, 0xA6F1); (0xA700, 0xA721);
   (0xA770, 0xA770); (0xA788, 0xA78A); (0xA7F2, 0xA7F4); (0xA7F8, 0xA7F9);
   (0xA802, 0xA802); (0xA806, 0xA806); (0xA80B, 0xA80B); (0xA825, 0xA826);
   (0xA82C, 0xA82C); (0xA8C4, 0xA8C5); (0xA8E0, 0xA8F1); (0xA8FF, 0xA8FF);
   (0xA926, 0xA92D); (0xA947, 0xA951); (0xA980, 0xA982); (0xA9B3, 0xA9B3);
   (0xA9B6, 0xA9B9); (0xA9BC, 0xA9BD); (0xA9CF, 0xA9CF); (0xA9E5, 0xA9E6);
   (0xAA29, 0xAA2E); (0xAA31, 0xAA32); (0xAA35, 0xAA36); (0xAA43, 0xAA43);
   (0xAA4C, 0xAA4C); (0xAA70, 0xAA70); (0xAA7C, 0xAA7C); (0xAAB0, 0xAAB0);
   (0xAAB2, 0xAAB4); (0xAAB7, 0xAAB8); (0xAABE, 0xAABF); (0xAAC1, 0xAAC1);
   (0xAADD, 0xAADD); (0xAAEC, 0xAAED); (0xAAF3, 0xAAF4); (0xAAF6, 0xAAF6);
   (0xAB5B, 0xAB5F); (0xAB69, 0xAB6B); (0xABE5, 0xABE5); (0xABE8, 0xABE8);
   (0xABED, 0xABED); (0xFB1E, 0xFB1E); (0xFBB2, 0xFBC2); (0xFE00, 0xFE0F);
   (0xFE13, 0xFE13); (0xFE20, 0xFE2F); (0xFE52, 0xFE52); (0xFE55, 0xFE55);
   (0xFEFF, 0xFEFF); (0xFF07, 0xFF07); (0xFF0E, 0xFF0E); (0xFF1A, 0xFF1A);
   (0xFF3E, 0xFF3E); (0xFF40, 0xFF40); (0xFF70, 0xFF70); (0xFF9E, 0xFF9F);
   (0xFFE3, 0xFFE3); (0xFFF9, 0xFFFB); (0x101FD, 0x101FD);
   (0x102E0, 0x102E0); (0x10376, 0x1037A); (0x10780, 0x10785);
   (0x10787, 0x107B0); (0x107B2, 0x107BA); (0x10A01, 0x10A03);
   (0x10A05, 0x10A06); (0x10A0C, 0x10A0F); (0x10A38, 0x10A3A);
   (0x10A3F, 0x10A3F); (0x10AE5, 0x10AE6); (0x10D24, 0x10D27);
   (0x10EAB, 0x10EAC); (0x10F46, 0x10F50); (0x10F82, 0x10F85);
   (0x11001, 0x11001); (0x11038, 0x11046); (0x11070, 0x11070);
   (0x11073, 0x11074); (0x1107F, 0x11081); (0x110B3, 0x110B6);
   (0x110B9, 0x110BA); (0x110BD, 0x110BD); (0x110C2, 0x110C2);
   (0x110CD, 0x110CD); (0x11100, 0x11102); (0x11127, 0x1112B);
   (0x1112D, 0x11134); (0x11173, 0x11173); (0x11180, 0x11181);
   (0x111B6, 0x111BE); (0x111C9, 0x111CC); (0x111CF, 0x111CF);
   (0x1122F, 0x11231); (0x11234, 0x11234); (0x11236, 0x11237);
   (0x1123E, 0x1123E); (0x112DF, 0x112DF); (0x112E3, 0x112EA);
   (0x11300, 0x11301); (0x1133B, 0x1133C); (0x11340, 0x11340);
   (0x11366, 0x1136C); (0x11370, 0x11374); (0x11438, 0x1143F);
   (0x11442, 0x11444); (0x11446, 0x11446); (0x1145E, 0x1145E);
   (0x114B3, 0x114B8); (0x114BA, 0x114BA); (0x114BF, 0x114C0);
   (0x114C2, 0x114C3); (0x115B2, 0x115B5); (0x115BC, 0x115BD);
   (0x115BF, 0x115C0); (0x115DC, 0x115DD); (0x11633, 0x1163A);
   (0x1163D, 0x1163D); (0x1163F, 0x11640); (0x116AB, 0x116AB);
   (0x116AD, 0x116AD); (0x116B0, 0x116B5); (0x116B7, 0x116B7);
   (0x1171D, 0x1171F); (0x11722, 0x11725); (0x11727, 0x1172B);
   (0x1182F, 0x11837); (0x11839, 0x1183A); (0x1193B, 0x1193C);
   (0x1193E, 0x1193E); (0x11943, 0x11943); (0x119D4, 0x119D7);
   (0x119DA, 0x119DB); (0x119E0, 0x119E0); (0x11A01, 0x11A0A);
   (0x11A33, 0x11A38); (0x11A3B, 0x11A3E); (0x11A47, 0x11A47);
   (0x11A51, 0x11A56); (0x11A59, 0x11A5B); (0x11A8A, 0x11A96);
   (0x11A98, 0x11A99); (0x11C30, 0x11C36); (0x11C38, 0x11C3D);
   (0x11C3F, 0x11C3F); (0x11C92, 0x11CA7); (0x11CAA, 0x11CB0);
   (0x11CB2, 0x11CB3); (0x11CB5, 0x11CB6); (0x11D31, 0x11D36);
   (0x11D3A, 0x11D3A); (0x11D3C, 0x11D3D); (0x11D3F, 0x11D45);
   (0x11D47, 0x11D47); (0x11D90, 0x11D91); (0x11D95, 0x11D95);
   (0x11D97, 0x11D97); (0x11EF3, 0x11EF4); (0x13430, 0x13438);
   (0x16AF0, 0x16AF4); (0x16B30, 0x16B36); (0x16B40, 0x16B43);
   (0x16F4F, 0x16F4F); (0x16F8F, 0x16F9F); (0x16FE0, 0x16FE1);
   (0x16FE3, 0x16FE4); (0x1AFF0, 0x1AFF3); (0x1AFF5, 0x1AFFB);
   (0x1AFFD, 0x1AFFE); (0x1BC9D, 0x1BC9E); (0x1BCA0, 0x1BCA3);
   (0x1CF00, 0x1CF2D); (0x1CF30, 0x1CF46); (0x1D167, 0x1D169);
   (0x1D173, 0x1D182); (0x1D185, 0x1D18B); (0x1D1AA, 0x1D1AD);
   (0x1D242, 0x1D244); (0x1DA00, 0x1DA36); (0x1DA3B, 0x1DA6C);
   (0x1DA75, 0x1DA75); (0x1DA84, 0x1DA84); (0x1DA9B, 0x1DA9F);
   (0x1DAA1, 0x1DAAF); (0x1E000, 0x1E006); (0x1E008, 0x1E018);
   (0x1E01B, 0x1E021); (0x1E023, 0x1E024); (0x1E026, 0x1E02A);
   (0x1E130, 0x1E13D); (0x1E2AE, 0x1E2AE); (0x1E2EC, 0x1E2EF);
   (0x1E8D0, 0x1E8D6); (0x1E944, 0x1E94B); (0x1F3FB, 0x1F3FF);
   (0xE0001, 0xE0001); (0xE0020, 0xE007F); (0xE0100, 0xE01EF)]%N.

(** *** The predicates and functions of [str] *)

(** [str.isspace] of one character. *)
Definition isspace (c : N) : bool := in_ranges c space_ranges.

(** [str.isdecimal] of one character, which is also the [\d] of [re] on a
    [str]. *)
Definition isdecimal (c : N) : bool := in_ranges c decimal_ranges.

(** The digits [0-9]. *)
Definition ascii_digit (c : N) : bool := ((48 <=? c) && (c <=? 57))%N.

(** The value of a decimal digit: its distance from the zero of its
    script. *)
Definition decimal_value (c : N) : Z :=
  match find (within c) decimal_ranges with
  | Some (zero, _) => Z.of_N ((c - zero) mod 10)
  | None => 0
  end.

(** [str.isdigit] of one character. *)
Definition isdigit_char (c : N) : bool :=
  isdecimal c || in_ranges c other_digit_ranges.

(** [s.isdigit()]: every character is a digit and there is at least one. *)
Definition isdigit (s : str) : bool :=
  match s with [] => false | _ => forallb isdigit_char s end.

(** The lower case of one character: one character, but for the capital I
    with a dot, which gives an i and a combining dot. *)
Definition lower_char (c : N) : str :=
  if (c =? 0x130)%N then [0x69; 0x307]%N
  else
    match
      find (fun g : N * N * N * N =>
              let '(first, last, step, _) := g in
              within c (first, last) && ((c - first) mod step =? 0)%N)
           lower_table
    with
    | Some (first, _, _, target) => [(target + (c - first))%N]
    | None => [c]
    end.

(** The runs in which [lower] changes a character. *)
Definition lower_ranges : list (N * N) :=
  (0x130, 0x130)%N
  :: map (fun g : N * N * N * N => let '(first, last, _, _) := g in (first, last))
         lower_table.

Definition cased (c : N) : bool := in_ranges c cased_ranges.

Definition case_ignorable (c : N) : bool := in_ranges c case_ignorable_ranges.

Fixpoint skip_ignorable (s : str) : str :=
  match s with
  | c :: r => if case_ignorable c then skip_ignorable r else s
  | [] => []
  end.

(** Whether a capital sigma stands at the end of a word: a cased character
    comes before it and none after it, the characters passed over apart.
    [before] is what precedes the sigma, nearest first. *)
Definition final_sigma (before following : str) : bool :=
  match skip_ignorable before with
  | c :: _ =>
      cased c
      && match skip_ignorable following with
         | c' :: _ => negb (cased c')
         | [] => true
         end
  | [] => false
  end.

(** The lower case of [s], which stands after the characters [before],
    nearest first. *)
Fixpoint lower_from (before s : str) : str :=
  match s with
  | c :: r =>
      (if (c =? 0x3A3)%N
       then [if final_sigma before r then 0x3C2 else 0x3C3]%N
       else lower_char c)
      ++ lower_from (c :: before) r
  | [] => []
  end.

(** [s.lower()]. *)
Definition lower (s : str) : str := lower_from [] s.

Fixpoint lstrip (s : str) : str :=
  match s with
  | c :: r => if isspace c then lstrip r else s
  | [] => []
  end.

(** [s.strip()]. *)
Definition strip (s : str) : str := rev (lstrip (rev (lstrip s))).

(** [s.startswith(p)], returning what follows the prefix. *)
Fixpoint after_prefix (p s : str) : option str :=
  match p, s with
  | [], _ => Some s
  | a :: p', b :: s' => if (a =? b)%N then after_prefix p' s' else None
  | _ :: _, [] => None
  end.

(** [s.replace(old, new)] for a non-empty [old]: the occurrences are taken
    from the left and do not overlap. *)
Fixpoint replace_fuel (fuel : nat) (old new s : str) : str :=
  match fuel with
  | O => s
  | S fuel' =>
      match after_prefix old s with
      | Some r => new ++ replace_fuel fuel' old new r
      | None =>
          match s with
          | [] => []
          | c :: r => c :: replace_fuel fuel' old new r
          end
      end
  end.

Definition replace (old new s : str) : str :=
  replace_fuel (S (length s)) old new s.

(** The value of a run of decimal digits, of whatever scripts. *)
Definition int_of_digits (s : str) : Z :=
  fold_left (fun acc c => 10 * acc + decimal_value c) s 0.

(** The maximal run of the digits [0-9] at the head of [s], and the rest. *)
Fixpoint span_digits (s : str) : str * str :=
  match s with
  | c :: r =>
      if ascii_digit c then let '(d, r') := span_digits r in (c :: d, r')
      else ([], s)
  | [] => ([], [])
  end.

(** The maximal run of decimal digits at the head of [s], [\d*], and the
    rest. *)
Fixpoint span_decimals (s : str) : str * str :=
  match s with
  | c :: r =>
      if isdecimal c then let '(d, r') := span_decimals r in (c :: d, r')
      else ([], s)
  | [] => ([], [])
  end.

(** [str(n)] of a natural number, padded with zeros to [width] digits
    ([%04d], [%02d]). *)
Fixpoint digits_of_fuel (fuel : nat) (n : Z) (acc : str) : str :=
  match fuel with
  | O => acc
  | S fuel' =>
      let acc' := Z.to_N (48 + n mod 10) :: acc in
      if n / 10 =? 0 then acc' else digits_of_fuel fuel' (n / 10) acc'
  end.

Definition digits_of (n : Z) : str :=
  digits_of_fuel (S (Z.to_nat (Z.log2 n))) n [].

Definition zero_pad (width : nat) (n : Z) : str :=
  let d := digits_of n in
  repeat 48%N (width - length d) ++ d.

End Text.
Export Text.

#[global] Arguments isspace : simpl never.
#[global] Arguments isdecimal : simpl never.
#[global] Arguments isdigit_char : simpl never.
#[global] Arguments decimal_value : simpl never.
#[global] Arguments lower_char : simpl never.
#[global] Arguments cased : simpl never.
#[global] Arguments case_ignorable : simpl never.

(** ** Exceptions *)

(** The exception classes the program can meet.  [HTTPError] is a subclass
    of [OSError]; [JSONDecodeError] of [ValueError]; [SystemExit] is the only
    one here that is not a subclass of [Exception]. *)
Inductive exn :=
| HTTPError (code : Z) (body : str)
| OSError
| JSONDecodeError
| ValueError
| KeyError
| TypeError
| AttributeError
| OverflowError
| ClientError (code : str)
| OtherError
| SystemExit (code : Z).

(** [except urllib.error.HTTPError]. *)
Definition is_HTTPError (e : exn) : bool :=
  match e with HTTPError _ _ => true | _ => false end.

(** [except (urllib.error.HTTPError, OSError)]. *)
Definition is_OSError (e : exn) : bool :=
  match e with HTTPError _ _ | OSError => true | _ => false end.

(** [except Exception]. *)
Definition is_Exception (e : exn) : bool :=
  match e with SystemExit _ => false | _ => true end.

(** The result of a computation that may raise. *)
Inductive res (A : Type) :=
| Ret (a : A)
| Raise (e : exn).
Arguments Ret {A} a.
Arguments Raise {A} e.

(** ** JSON values and [json.loads] *)

Module Json.

(** Python floats are IEEE 754 binary64 numbers. *)
Definition prec : Z := 53.
Definition emax : Z := 1024.

(** What [json.loads] returns: [None], [bool], [int], [float], [str], [list]
    and [dict] (in insertion order). *)
Inductive json :=
| JNull
| JBool (b : bool)
| JInt (n : Z)
| JFloat (f : spec_float)
| JStr (s : str)
| JList (items : list json)
| JDict (pairs : list (str * json)).

(** [d[k] = v]: a key that is present keeps its place. *)
Fixpoint dict_set (k : str) (v : json) (d : list (str * json)) :
  list (str * json) :=
  match d with
  | [] => [(k, v)]
  | (k', v') :: d' =>
      if str_eqb k k' then (k, v) :: d' else (k', v') :: dict_set k v d'
  end.

(** [dict(pairs)]. *)
Definition dict_of_pairs (pairs : list (str * json)) : list (str * json) :=
  fold_left (fun d kv => dict_set (fst kv) (snd kv) d) pairs [].

(** [float(text)] of the decimal [(-1)^neg * m * 10^e10], rounded to the
    nearest binary64 number, ties to even. *)
Definition float_of_decimal (neg : bool) (m e10 : Z) : spec_float :=
  match m with
  | Zpos p =>
      match e10 with
      | Zneg _ =>
          SFdiv prec emax (S754_finite neg p 0)
                (S754_finite false (Z.to_pos (10 ^ (- e10))) 0)
      | _ =>
          SFdiv prec emax (S754_finite neg (Z.to_pos (m * 10 ^ e10)) 0)
                (S754_finite false 1 0)
      end
  | _ => S754_zero neg
  end.

(** The whitespace of the decoder, [[ \t\n\r]]. *)
Definition is_ws (c : N) : bool :=
  ((c =? 32) || (c =? 9) || (c =? 10) || (c =? 13))%N.

Fixpoint skip_ws (s : str) : str :=
  match s with
  | c :: r => if is_ws c then skip_ws r else s
  | [] => []
  end.

Definition hex_value (c : N) : option N :=
  (if (48 <=? c) && (c <=? 57) then Some (c - 48)
   else if (65 <=? c) && (c <=? 70) then Some (c - 55)
   else if (97 <=? c) && (c <=? 102) then Some (c - 87)
   else None)%N.

(** [_decode_uXXXX]: four hexadecimal digits. *)
Definition decode_uXXXX (a b c d : N) : option N :=
  a' ← hex_value a; b' ← hex_value b; c' ← hex_value c; d' ← hex_value d;
  Some (((a' * 16 + b') * 16 + c') * 16 + d')%N.

(** The table [BACKSLASH] of the one-letter escapes. *)
Definition backslash (esc : N) : option N :=
  (if esc =? 34 then Some 34        (* quote *)
   else if esc =? 92 then Some 92   (* backslash *)
   else if esc =? 47 then Some 47   (* slash *)
   else if esc =? 98 then Some 8    (* b *)
   else if esc =? 102 then Some 12  (* f *)
   else if esc =? 110 then Some 10  (* n *)
   else if esc =? 114 then Some 13  (* r *)
   else if esc =? 116 then Some 9   (* t *)
   else None)%N.

Definition push (c : N) (r : option (str * str)) : option (str * str) :=
  match r with
  | Some (t, rest) => Some (c :: t, rest)
  | None => None
  end.

(** [scanstring] in strict mode, from the character after the opening
    quote: the decoded string and what follows the closing quote. *)
Fixpoint scanstring (s : str) : option (str * str) :=
  match s with
  | [] => None
  | c :: r =>
      if (c =? 34)%N then Some ([], r)
      else if (c <? 32)%N then None
      else if negb (c =? 92)%N then push c (scanstring r)
      else
        match r with
        | [] => None
        | esc :: r1 =>
            if negb (esc =? 117)%N then
              match backslash esc with
              | Some ch => push ch (scanstring r1)
              | None => None
              end
            else
              match r1 with
              | h1 :: h2 :: h3 :: h4 :: r2 =>
                  match decode_uXXXX h1 h2 h3 h4 with
                  | None => None
                  | Some uni =>
                      if ((55296 <=? uni) && (uni <=? 56319))%N then
                        match r2 with
                        | b :: u :: r3 =>
                            if ((b =? 92) && (u =? 117))%N then
                              match r3 with
                              | l1 :: l2 :: l3 :: l4 :: r4 =>
                                  match decode_uXXXX l1 l2 l3 l4 with
                                  | None => None
                                  | Some uni2 =>
                                      if ((56320 <=? uni2) && (uni2 <=? 57343))%N
                                      then
                                        push (65536 +
                                              N.lor (N.shiftl (uni - 55296) 10)
                                                    (uni2 - 56320))%N
                                             (scanstring r4)
                                      else push uni (scanstring r2)
                                  end
                              | _ => None
                              end
                            else push uni (scanstring r2)
                        | _ => push uni (scanstring r2)
                        end
                      else push uni (scanstring r2)
                  end
              | _ => None
              end
        end
  end.

(** [NUMBER_RE] and the conversion of what it matched: an [int] when there
    is neither a fraction nor an exponent, a [float] otherwise. *)
Definition scan_number (s : str) : option (json * str) :=
  let '(neg, s1) :=
    match s with
    | c :: r => if (c =? 45)%N then (true, r) else (false, s)
    | [] => (false, s)
    end in
  let '(int_digits, s2) :=
    match s1 with
    | c :: r =>
        if (c =? 48)%N then ([c], r)
        else span_digits s1
    | [] => ([], [])
    end in
  match int_digits with
  | [] => None
  | _ =>
      let '(frac, s3) :=
        match s2 with
        | c :: r =>
            if (c =? 46)%N then
              match span_digits r with
              | ([], _) => ([], s2)
              | (d, r') => (d, r')
              end
            else ([], s2)
        | [] => ([], s2)
        end in
      let '(exp, s4) :=
        match s3 with
        | c :: r =>
            if ((c =? 101) || (c =? 69))%N then
              let '(eneg, r1) :=
                match r with
                | sg :: r' =>
                    if (sg =? 45)%N then (true, r')
                    else if (sg =? 43)%N then (false, r')
                    else (false, r)
                | [] => (false, r)
                end in
              match span_digits r1 with
              | ([], _) => (None, s3)
              | (d, r') =>
                  (Some (if eneg then - int_of_digits d else int_of_digits d), r')
              end
            else (None, s3)
        | [] => (None, s3)
        end in
      match frac, exp with
      | [], None =>
          Some (JInt (if neg then - int_of_digits int_digits
                      else int_of_digits int_digits), s4)
      | _, _ =>
          Some (JFloat (float_of_decimal neg
                          (int_of_digits (int_digits ++ frac))
                          (default 0 exp - Z.of_nat (length frac))), s4)
      end
  end.

(** The literals the scanner knows, after the numbers. *)
Definition scan_constant (s : str) : option (json * str) :=
  match after_prefix (lit "NaN") s with
  | Some r => Some (JFloat S754_nan, r)
  | None =>
  match after_prefix (lit "Infinity") s with
  | Some r => Some (JFloat (S754_infinity false), r)
  | None =>
  match after_prefix (lit "-Infinity") s with
  | Some r => Some (JFloat (S754_infinity true), r)
  | None => None
  end end end.

(** [scan_once], [JSONArray] and [JSONObject].  [None] is the decoder's
    failure.  One unit of [fuel] is spent on every value and on every item
    of an array or object, each of which takes at least one character. *)
Fixpoint scan_once (fuel : nat) (s : str) : option (json * str) :=
  match fuel with
  | O => None
  | S fuel' =>
      match s with
      | [] => None
      | c :: r =>
          if (c =? 34)%N then
            match scanstring r with
            | Some (t, r') => Some (JStr t, r')
            | None => None
            end
          else if (c =? 123)%N then
            match skip_ws r with
            | c' :: r' =>
                if (c' =? 125)%N then Some (JDict [], r')
                else if (c' =? 34)%N then object_items fuel' r' []
                else None
            | [] => None
            end
          else if (c =? 91)%N then
            match skip_ws r with
            | c' :: r' =>
                if (c' =? 93)%N then Some (JList [], r')
                else array_items fuel' (c' :: r') []
            | [] => None
            end
          else
            match after_prefix (lit "null") s with
            | Some r' => Some (JNull, r')
            | None =>
            match after_prefix (lit "true") s with
            | Some r' => Some (JBool true, r')
            | None =>
            match after_prefix (lit "false") s with
            | Some r' => Some (JBool false, r')
            | None =>
            match scan_number s with
            | Some v => Some v
            | None => scan_constant s
            end end end end
      end
  end

with array_items (fuel : nat) (s : str) (values : list json) :
  option (json * str) :=
  match fuel with
  | O => None
  | S fuel' =>
      match scan_once fuel' s with
      | None => None
      | Some (v, r) =>
          match skip_ws r with
          | c :: r' =>
              if (c =? 93)%N then Some (JList (values ++ [v]), r')
              else if (c =? 44)%N then
                array_items fuel' (skip_ws r') (values ++ [v])
              else None
          | [] => None
          end
      end
  end

with object_items (fuel : nat) (s : str) (pairs : list (str * json)) :
  option (json * str) :=
  match fuel with
  | O => None
  | S fuel' =>
      match scanstring s with
      | None => None
      | Some (key, r) =>
          match skip_ws r with
          | c :: r0 =>
              if negb (c =? 58)%N then None
              else
                match scan_once fuel' (skip_ws r0) with
                | None => None
                | Some (v, r1) =>
                    match skip_ws r1 with
                    | c' :: r2 =>
                        if (c' =? 125)%N then
                          Some (JDict (dict_of_pairs (pairs ++ [(key, v)])), r2)
                        else if (c' =? 44)%N then
                          match skip_ws r2 with
                          | c'' :: r3 =>
                              if (c'' =? 34)%N then
                                object_items fuel' r3 (pairs ++ [(key, v)])
                              else None
                          | [] => None
                          end
                        else None
                    | [] => None
                    end
                end
          | [] => None
          end
      end
  end.

(** [json.loads(s)] of a [str]: [None] stands for [JSONDecodeError]. *)
Definition loads (s : str) : option json :=
  match s with
  | 65279%N :: _ => None
  | _ =>
      match scan_once (S (length s)) (skip_ws s) with
      | Some (v, r) =>
          match skip_ws r with
          | [] => Some v
          | _ :: _ => None
          end
      | None => None
      end
  end.

End Json.
Export Json.

(** ** The operations of Python on decoded values *)

Module Py.

(** The order between a float and an integer, which Python decides on the
    exact values; [None] when the float is not a number. *)
Definition float_compare_int (f : spec_float) (n : Z) : option comparison :=
  match f with
  | S754_nan => None
  | S754_infinity false => Some Gt
  | S754_infinity true => Some Lt
  | S754_zero _ => Some (0 ?= n)
  | S754_finite sg m e =>
      let v := if sg then Zneg m else Zpos m in
      if 0 <=? e then Some (v * 2 ^ e ?= n) else Some (v ?= n * 2 ^ (- e))
  end.

(** [bool(v)]. *)
Definition truthy (v : json) : bool :=
  match v with
  | JNull => false
  | JBool b => b
  | JInt n => negb (n =? 0)
  | JFloat f => match f with S754_zero _ => false | _ => true end
  | JStr s => match s with [] => false | _ => true end
  | JList l => match l with [] => false | _ => true end
  | JDict d => match d with [] => false | _ => true end
  end.

Fixpoint dict_get (k : str) (d : list (str * json)) : option json :=
  match d with
  | [] => None
  | (k', v) :: d' => if str_eqb k k' then Some v else dict_get k d'
  end.

(** [v.get(k, dflt)]: only a [dict] has the method. *)
Definition get (v : json) (k : str) (dflt : json) : res json :=
  match v with
  | JDict d => Ret (default dflt (dict_get k d))
  | _ => Raise AttributeError
  end.

(** [v[k]] for a string [k]. *)
Definition subscript (v : json) (k : str) : res json :=
  match v with
  | JDict d =>
      match dict_get k d with
      | Some x => Ret x
      | None => Raise KeyError
      end
  | _ => Raise TypeError
  end.

(** [v == s] for a string [s]. *)
Definition eq_str (v : json) (s : str) : bool :=
  match v with
  | JStr t => str_eqb t s
  | _ => false
  end.

(** [v >= n] for an integer [n]. *)
Definition ge_int (v : json) (n : Z) : res bool :=
  match v with
  | JInt m => Ret (n <=? m)
  | JBool b => Ret (n <=? (if b then 1 else 0))
  | JFloat f =>
      Ret match float_compare_int f n with
          | Some Gt | Some Eq => true
          | _ => false
          end
  | _ => Raise TypeError
  end.

(** [n < v] for an integer [n]. *)
Definition int_lt (n : Z) (v : json) : res bool :=
  match v with
  | JInt m => Ret (n <? m)
  | JBool b => Ret (n <? (if b then 1 else 0))
  | JFloat f =>
      Ret match float_compare_int f n with
          | Some Gt => true
          | _ => false
          end
  | _ => Raise TypeError
  end.

(** What [for x in v] goes through: the items of a list, the characters of
    a string, the keys of a dict. *)
Definition iter (v : json) : res (list json) :=
  match v with
  | JList l => Ret l
  | JStr s => Ret (map (fun c => JStr [c]) s)
  | JDict d => Ret (map (fun kv => JStr (fst kv)) d)
  | _ => Raise TypeError
  end.

(** [x or y] for an optional string. *)
Definition or_str (x : option str) (y : str) : str :=
  match x with
  | Some (c :: r) => c :: r
  | _ => y
  end.

End Py.

(** ** Calendar dates *)

Module Calendar.

Record date := Date { year : Z; month : Z; day : Z }.

(** A point in time to the second (the program never reads further). *)
Record datetime := DateTime { on : date; hour : Z; minute : Z; second : Z }.

Definition is_leap (y : Z) : bool :=
  (y mod 4 =? 0) && (negb (y mod 100 =? 0) || (y mod 400 =? 0)).

Definition days_in_month (y m : Z) : Z :=
  if m =? 2 then (if is_leap y then 29 else 28)
  else if (m =? 4) || (m =? 6) || (m =? 9) || (m =? 11) then 30
  else 31.

(** [_DAYS_BEFORE_MONTH]. *)
Definition days_before_month_common (m : Z) : Z :=
  nth (Z.to_nat m) [0; 0; 31; 59; 90; 120; 151; 181; 212; 243; 273; 304; 334] 0.

Definition days_before_month (y m : Z) : Z :=
  days_before_month_common m + (if (2 <? m) && is_leap y then 1 else 0).

Definition days_before_year (y : Z) : Z :=
  let y' := y - 1 in y' * 365 + y' / 4 - y' / 100 + y' / 400.

(** [date.toordinal()]: 0001-01-01 is day 1. *)
Definition toordinal (d : date) : Z :=
  days_before_year (year d) + days_before_month (year d) (month d) + day d.

(** [_ord2ymd]. *)
Definition fromordinal (n : Z) : date :=
  let n := n - 1 in
  let n400 := n / 146097 in
  let n := n mod 146097 in
  let n100 := n / 36524 in
  let n := n mod 36524 in
  let n4 := n / 1461 in
  let n := n mod 1461 in
  let n1 := n / 365 in
  let n := n mod 365 in
  let y := n400 * 400 + 1 + n100 * 100 + n4 * 4 + n1 in
  if (n1 =? 4) || (n100 =? 4) then Date (y - 1) 12 31
  else
    let leapyear := (n1 =? 3) && (negb (n4 =? 24) || (n100 =? 3)) in
    let m := Z.shiftr (n + 50) 5 in
    let preceding :=
      days_before_month_common m + (if (2 <? m) && leapyear then 1 else 0) in
    if n <? preceding then
      let m' := m - 1 in
      let preceding' :=
        preceding - (days_in_month 1 m' + (if (m' =? 2) && leapyear then 1 else 0)) in
      Date y m' (n - preceding' + 1)
    else Date y m (n - preceding + 1).

(** The largest ordinal, 9999-12-31. *)
Definition max_ordinal : Z := 3652059.

(** [d + timedelta(days=1)]. *)
Definition next_day (d : date) : res date :=
  let n := toordinal d + 1 in
  if max_ordinal <? n then Raise OverflowError else Ret (fromordinal n).

(** [d.isoformat()]. *)
Definition isoformat (d : date) : str :=
  zero_pad 4 (year d) ++ lit "-" ++ zero_pad 2 (month d) ++ lit "-"
  ++ zero_pad 2 (day d).

(** [t.strftime("%Y-%m-%dT%H:%M:%S")].  The C library writes the fields,
    and the width of [%Y] is its choice: glibc, which is modelled here,
    writes the year as it is, so that a year before 1000 has fewer than
    four digits; the other fields have two. *)
Definition strftime (t : datetime) : str :=
  digits_of (year (on t)) ++ lit "-" ++ zero_pad 2 (month (on t)) ++ lit "-"
  ++ zero_pad 2 (day (on t)) ++ lit "T" ++ zero_pad 2 (hour t) ++ lit ":"
  ++ zero_pad 2 (minute t) ++ lit ":" ++ zero_pad 2 (second t).

(** [t - timedelta(seconds=s)] for [0 <= s]; a [timedelta] holds at most
    999999999 days and a date does not go before year 1. *)
Definition minus_seconds (t : datetime) (s : Z) : res datetime :=
  if 999999999 <? s / 86400 then Raise OverflowError
  else
    let total :=
      (toordinal (on t) * 86400 + hour t * 3600 + minute t * 60 + second t) - s in
    let days := total / 86400 in
    let secs := total mod 86400 in
    if days <? 1 then Raise OverflowError
    else Ret (DateTime (fromordinal days) (secs / 3600) (secs mod 3600 / 60)
                       (secs mod 60)).

(** The two-character and one-character readings of a month,
    [1[0-2]|0[1-9]|[1-9]], in the order the pattern tries them. *)
Definition month_readings (s : str) : list (Z * str) :=
  match s with
  | a :: b :: r =>
      (if ((a =? 49) && (48 <=? b) && (b <=? 50)
           || (a =? 48) && (49 <=? b) && (b <=? 57))%N
       then [(int_of_digits [a; b], r)] else [])
      ++ (if ((49 <=? a) && (a <=? 57))%N then [(int_of_digits [a], b :: r)] else [])
  | [a] => if ((49 <=? a) && (a <=? 57))%N then [(int_of_digits [a], [])] else []
  | [] => []
  end.

(** The readings of a day, [3[0-1]|[1-2]\d|0[1-9]|[1-9]| [1-9]]. *)
Definition day_readings (s : str) : list (Z * str) :=
  match s with
  | a :: b :: r =>
      (if ((a =? 51) && (48 <=? b) && (b <=? 49)
           || (49 <=? a) && (a <=? 50) && isdecimal b
           || (a =? 48) && (49 <=? b) && (b <=? 57))%N
       then [(int_of_digits [a; b], r)] else [])
      ++ (if ((49 <=? a) && (a <=? 57))%N then [(int_of_digits [a], b :: r)] else [])
      ++ (if ((a =? 32) && (49 <=? b) && (b <=? 57))%N
          then [(int_of_digits [b], r)] else [])
  | [a] => if ((49 <=? a) && (a <=? 57))%N then [(int_of_digits [a], [])] else []
  | [] => []
  end.

(** The first reading the rest of the pattern accepts. *)
Fixpoint first_match {A B} (k : A -> option B) (l : list A) : option B :=
  match l with
  | [] => None
  | x :: l' => match k x with Some y => Some y | None => first_match k l' end
  end.

(** [datetime.strptime(s, "%Y-%m-%d").date()]; [None] stands for
    [ValueError]: the text does not match the format, is followed by more
    text, or names no day of the calendar. *)
Definition strptime_ymd (s : str) : option date :=
  match s with
  | y1 :: y2 :: y3 :: y4 :: dash :: r =>
      if forallb isdecimal [y1; y2; y3; y4] && (dash =? 45)%N then
        '(y, m, rest_d) ←
          first_match
            (fun mr : Z * str =>
               match snd mr with
               | dash' :: r' =>
                   if (dash' =? 45)%N
                   then
                     match day_readings r' with
                     | dr :: _ => Some (int_of_digits [y1; y2; y3; y4], fst mr, dr)
                     | [] => None
                     end
                   else None
               | [] => None
               end)
            (month_readings r);
        match snd rest_d with
        | [] =>
            let d := fst rest_d in
            if (1 <=? y) && (d <=? days_in_month y m) then Some (Date y m d)
            else None
        | _ :: _ => None
        end
      else None
  | _ => None
  end.

End Calendar.
Export Calendar.

(** ** The outside world *)

(** What the backend does with one request: it answers with a status and a
    body, or the call raises. *)
Inductive http_answer :=
| Answer (status : Z) (text : str)
| Fails (e : exn).

(** What happens to one delivery to the sink: the client library is not
    installed; the client cannot be built; the message is sent; the sending
    raises (a [ClientError] with the error code of the sink, or something
    else). *)
Inductive sink_answer :=
| SinkNoBoto3
| SinkNoClient (e : exn)
| SinkSent
| SinkFails (e : exn).

Record world := World { backend : list http_answer; sink : list sink_answer }.

(** The body of a job submission. *)
Record search_job := SearchJob {
  query : str;
  from_ : str;
  to_ : str;
  timeZone : str
}.

(** The four calls of the search-job API.  The opener, the headers and the
    base address, which all the requests of a run share, are left out. *)
Inductive request :=
| PostJob (job : search_job)
| GetStatus (job_id : json)
| GetMessages (job_id : json) (offset limit : Z)
| DeleteJob (job_id : json).

(** The lines written to the diagnostic stream. *)
Inductive diag :=
| Boto3Missing
| CreateError (status : Z) (body : str)
| JobCreated (order_id : str) (job_id : json)
| StatusError (status : Z) (body : str)
| JobCancelled
| PollState (state message_count : json)
| FetchError (status : Z) (body : str)
| RawJson (raw : str)
| SentToSqs (count : Z)
| SqsSendFailed (e : exn)
| CsvSkipRow (date_str : str) (row : list str)
| MissingCredentials
| CsvNoRows
| NotAFile (path : str)
| DebugQuery (job : search_job)
| DebugTotalRows (n : Z)
| BadDay (day : str)
| EmptyLine
| TryingNextDay (order_id date_str : str)
| TryingNextDaySingle
| NotFoundIds (ids : list str)
| Published (count : Z)
| Elapsed
| Running (orders : Z) (workers : Z)
| ProgressNotFound (index n : Z) (order_id : str)
| ProgressFound (index n : Z) (order_id : str)
| ProgressError (index n : Z) (order_id : str) (e : exn).

(** The lines written to the primary stream: a payload
    ([json.dumps(obj, indent=2)]) or an empty line. *)
Inductive out_line :=
| Payload (obj : json)
| Blank.

Inductive event :=
| Sleep (seconds : Z)
| Request (r : request)
| Send (queue_url : str) (body : json) (region : option str)
| Stdout (line : out_line)
| Stderr (d : diag).

(** The payloads among the events, in order: what the primary stream shows
    apart from empty lines. *)
Definition payloads (evs : list event) : list json :=
  omap (fun e => match e with Stdout (Payload obj) => Some obj | _ => None end) evs.

(** The requests among the events, in order. *)
Definition requests (evs : list event) : list request :=
  omap (fun e => match e with Request r => Some r | _ => None end) evs.

(** ** [charge_request.py] *)

Definition POLL_INTERVAL_SEC : Z := 2.
Definition MESSAGE_PAGE_SIZE : Z := 1000.

(** [QUERY_TEMPLATE % {"order_id": order_id}]. *)
Definition QUERY_TEMPLATE (order_id : str) : str :=
  lit "_dataTier=infrequent _index=nytimes_spg_shared _sourceCategory=nytimes-spg-pug-app-prd "
  ++ q "'PUGRB: Received charge request' '" ++ order_id ++ q "' "
  ++ q "| parse regex 'request (?<json>.*), approximate' "
  ++ q "| replace(json, '\\\\', '') as json".

(** [_send_to_sqs(queue_url, body, region)], given what the sink does with
    this delivery. *)
Definition _send_to_sqs (queue_url : str) (body : json) (region : option str)
    (a : sink_answer) : res bool * list event :=
  match a with
  | SinkNoBoto3 => (Raise (SystemExit 1), [Stderr Boto3Missing])
  | SinkNoClient e => (Raise e, [])
  | SinkSent => (Ret true, [Send queue_url body region])
  | SinkFails e =>
      (match e with
       | ClientError code =>
           if str_eqb code (lit "AWS.SimpleQueueService.NonExistentQueue")
           then Raise (SystemExit 1)
           else Raise e
       | _ => Raise e
       end,
       [Send queue_url body region])
  end.

(** The next delivery of the sink's script; a sink that has run out cannot
    be reached. *)
Definition next_delivery (sk : list sink_answer) : sink_answer * list sink_answer :=
  match sk with
  | a :: sk' => (a, sk')
  | [] => (SinkNoClient OtherError, [])
  end.

(** [_request]: the status and the decoded body, or the exception of the
    transport. *)
Definition answer (a : http_answer) : res (Z * str) :=
  match a with
  | Answer status text => Ret (status, text)
  | Fails e => Raise e
  end.

Definition _request (bk : list http_answer) : res (Z * str) * list http_answer :=
  match bk with
  | a :: bk' => (answer a, bk')
  | [] => (Raise OSError, [])
  end.

(** [_read_csv_order_dates], on the rows the CSV reader yields: the
    [(order_id, date_str)] pairs, and the warnings. *)
Fixpoint read_rows (i : Z) (rows : list (list str)) : list (str * str) * list event :=
  match rows with
  | [] => ([], [])
  | row :: rows' =>
      let '(kept, evs) := read_rows (i + 1) rows' in
      match row with
      | c0 :: c1 :: _ =>
          let order_id := strip c0 in
          let date_str := strip c1 in
          match order_id, date_str with
          | [], _ | _, [] => (kept, evs)
          | _, _ =>
              if (i =? 0)
                 && (existsb (str_eqb (lower order_id))
                             [lit "orderid"; lit "order_id"; lit "order id"]
                     || str_eqb (lower date_str) (lit "date"))
              then (kept, evs)
              else
                match strptime_ymd date_str with
                | None => (kept, Stderr (CsvSkipRow date_str row) :: evs)
                | Some _ => ((order_id, date_str) :: kept, evs)
                end
          end
      | _ => (kept, evs)
      end
  end.

Definition _read_csv_order_dates (rows : list (list str)) :
  list (str * str) * list event :=
  read_rows 0 rows.

(** The three results a run accumulates: [printed], [sent_to_sqs] and
    [results_list] (which is only kept and returned under
    [return_results]). *)
Record counts := Counts {
  printed : Z;
  sent_to_sqs : Z;
  results_list : list json
}.

Definition no_counts : counts := Counts 0 0 [].

(** What a step of the program leaves behind: its value or exception, the
    rest of the two scripts, and its events. *)
Record ran (A : Type) := Ran {
  value : res A;
  rest : world;
  events : list event
}.
Arguments Ran {A} value rest events.
Arguments value {A} r.
Arguments rest {A} r.
Arguments events {A} r.

(** [evs], then what [r] did. *)
Definition after {A} (evs : list event) (r : ran A) : ran A :=
  Ran (value r) (rest r) (evs ++ events r).

(** How one turn of the poll loop ends. *)
Inductive poll_exit :=
| PollBreak (message_count : json)
| PollReturn
| PollRaise (e : exn).

Inductive poll_step :=
| PollAgain
| PollExit (x : poll_exit).

(** The fallback of the decoding: escaped quotes, then doubled backslashes. *)
Definition unescape (raw_json : str) : str :=
  replace [92; 92]%N [92]%N (replace [92; 34]%N [34]%N raw_json).

(** The decoding of a message's [json] field (the [try] and its two
    handlers): [None] when the field is to be logged and skipped. *)
Definition decode_field (raw_json : str) : option json :=
  match
    match loads raw_json with
    | Some (JStr inner) => loads inner
    | other => other
    end
  with
  | Some obj => Some obj
  | None => loads (unescape raw_json)
  end.

(** The head of the body of [for msg in messages]: the object to accept,
    if the message gives one. *)
Definition examine (msg : json) : res (option json) * list event :=
  match Py.get msg (lit "map") (JDict []) with
  | Raise e => (Raise e, [])
  | Ret m =>
      match Py.get m (lit "json") JNull with
      | Raise e => (Raise e, [])
      | Ret raw_json =>
          if negb (Py.truthy raw_json) then (Ret None, [])
          else
            match raw_json with
            | JStr raw =>
                match decode_field raw with
                | None => (Ret None, [Stderr (RawJson raw)])
                | Some JNull => (Ret None, [])
                | Some obj => (Ret (Some obj), [])
                end
            | _ => (Raise TypeError, [])
            end
      end
  end.

Section RunOneOrder.

Variables (order_id from_time to_time timezone : str).
Variables (sqs_queue_url aws_region : option str).
Variable return_results : bool.

(** What [return (0, 0, []) if return_results else (0, 0)] returns. *)
Definition nothing : res counts := Ret no_counts.

(** One turn of [while True], given the outcome of the status request. *)
Definition poll_report (r : res (Z * str)) : poll_step * list event :=
  match r with
  | Raise e =>
      match e with
      | HTTPError code body => (PollExit PollReturn, [Stderr (StatusError code body)])
      | _ => (PollExit (PollRaise e), [])
      end
  | Ret (status, text) =>
      if negb (status =? 200) then
        (PollExit PollReturn, [Stderr (StatusError status text)])
      else
        match loads text with
        | None => (PollExit (PollRaise JSONDecodeError), [])
        | Some resp =>
            match Py.get resp (lit "state") (JStr []) with
            | Raise e => (PollExit (PollRaise e), [])
            | Ret state =>
                match Py.get resp (lit "messageCount") (JInt 0) with
                | Raise e => (PollExit (PollRaise e), [])
                | Ret message_count =>
                    if Py.eq_str state (lit "DONE GATHERING RESULTS") then
                      (PollExit (PollBreak message_count), [])
                    else
                      match Py.ge_int message_count 1 with
                      | Raise e => (PollExit (PollRaise e), [])
                      | Ret true => (PollExit (PollBreak message_count), [])
                      | Ret false =>
                          if Py.eq_str state (lit "CANCELLED") then
                            (PollExit PollReturn, [Stderr JobCancelled])
                          else
                            (PollAgain,
                             if return_results then []
                             else [Stderr (PollState state message_count)])
                      end
                end
            end
        end
  end.

(** The poll loop: sleep, ask for the status, decide. *)
Fixpoint poll_loop (job_id : json) (bk : list http_answer) :
  poll_exit * list http_answer * list event :=
  match bk with
  | [] => (PollRaise OSError, [], [Sleep POLL_INTERVAL_SEC; Request (GetStatus job_id)])
  | a :: bk' =>
      let '(step, evs) := poll_report (answer a) in
      match step with
      | PollExit x =>
          (x, bk', Sleep POLL_INTERVAL_SEC :: Request (GetStatus job_id) :: evs)
      | PollAgain =>
          let '(x, bk'', evs') := poll_loop job_id bk' in
          (x, bk'',
           Sleep POLL_INTERVAL_SEC :: Request (GetStatus job_id) :: evs ++ evs')
      end
  end.

(** The rest of the body of [for msg in messages] once an object is
    accepted: record or print it, count it, deliver it to the sink. *)
Definition accept (obj : json) (c : counts) (sk : list sink_answer) :
  res counts * list sink_answer * list event :=
  let shown :=
    if return_results then []
    else (if 0 <? printed c then [Stdout Blank] else []) ++ [Stdout (Payload obj)] in
  let c1 :=
    Counts (printed c + 1) (sent_to_sqs c)
           (if return_results then results_list c ++ [obj] else results_list c) in
  match sqs_queue_url with
  | Some (u :: rl) =>
      let '(a, sk') := next_delivery sk in
      match _send_to_sqs (u :: rl) obj aws_region a with
      | (Ret _, evs) =>
          let c2 := Counts (printed c1) (sent_to_sqs c1 + 1) (results_list c1) in
          (Ret c2, sk',
           shown ++ evs
           ++ (if return_results then [] else [Stderr (SentToSqs (sent_to_sqs c2))]))
      | (Raise e, evs) =>
          if is_Exception e
          then (Ret c1, sk', shown ++ evs ++ [Stderr (SqsSendFailed e)])
          else (Raise e, sk', shown ++ evs)
      end
  | _ => (Ret c1, sk, shown)
  end.

(** [for msg in messages]: the loop stops at the first object accepted. *)
Fixpoint scan_page (messages : list json) (c : counts) (sk : list sink_answer) :
  res counts * list sink_answer * list event :=
  match messages with
  | [] => (Ret c, sk, [])
  | msg :: messages' =>
      match examine msg with
      | (Raise e, evs) => (Raise e, sk, evs)
      | (Ret None, evs) =>
          let '(r, sk', evs') := scan_page messages' c sk in
          (r, sk', evs ++ evs')
      | (Ret (Some obj), evs) =>
          let '(r, sk', evs') := accept obj c sk in
          (r, sk', evs ++ evs')
      end
  end.

(** [while offset < message_count]: fetch a page, scan it, go on from the
    next offset unless something was printed. *)
Fixpoint fetch_loop (job_id message_count : json) (offset : Z) (c : counts)
    (bk : list http_answer) (sk : list sink_answer) : ran counts :=
  match Py.int_lt offset message_count with
  | Raise e => Ran (Raise e) (World bk sk) []
  | Ret false => Ran (Ret c) (World bk sk) []
  | Ret true =>
      let req := Request (GetMessages job_id offset MESSAGE_PAGE_SIZE) in
      match bk with
      | [] => Ran (Raise OSError) (World [] sk) [req]
      | a :: bk' =>
          match answer a with
          | Raise (HTTPError code body) =>
              Ran (Ret c) (World bk' sk) [req; Stderr (FetchError code body)]
          | Raise e => Ran (Raise e) (World bk' sk) [req]
          | Ret (status, text) =>
              if negb (status =? 200) then
                Ran (Ret c) (World bk' sk) [req; Stderr (FetchError status text)]
              else
                match loads text with
                | None => Ran (Raise JSONDecodeError) (World bk' sk) [req]
                | Some data =>
                    match Py.get data (lit "messages") (JList []) with
                    | Raise e => Ran (Raise e) (World bk' sk) [req]
                    | Ret messages =>
                        if negb (Py.truthy messages) then
                          Ran (Ret c) (World bk' sk) [req]
                        else
                          match Py.iter messages with
                          | Raise e => Ran (Raise e) (World bk' sk) [req]
                          | Ret items =>
                              match scan_page items c sk with
                              | (Raise e, sk', evs) =>
                                  Ran (Raise e) (World bk' sk') (req :: evs)
                              | (Ret c', sk', evs) =>
                                  if 0 <? printed c' then
                                    Ran (Ret c') (World bk' sk') (req :: evs)
                                  else
                                    after (req :: evs)
                                      (fetch_loop job_id message_count
                                         (offset + Z.of_nat (length items)) c' bk' sk')
                              end
                          end
                    end
                end
          end
      end
  end.

(** The [DELETE] at the end: an [HTTPError] or [OSError] is passed over. *)
Definition delete_job (job_id : json) (bk : list http_answer) :
  res unit * list http_answer * list event :=
  let '(r, bk') := _request bk in
  match r with
  | Ret _ => (Ret tt, bk', [Request (DeleteJob job_id)])
  | Raise e =>
      if is_OSError e then (Ret tt, bk', [Request (DeleteJob job_id)])
      else (Raise e, bk', [Request (DeleteJob job_id)])
  end.

(** [_run_one_order]. *)
Definition _run_one_order (w : world) : ran counts :=
  let job := SearchJob (QUERY_TEMPLATE order_id) from_time to_time timezone in
  let post := Request (PostJob job) in
  let '(r, bk1) := _request (backend w) in
  match r with
  | Raise (HTTPError code body) =>
      Ran nothing (World bk1 (sink w)) [post; Stderr (CreateError code body)]
  | Raise e => Ran (Raise e) (World bk1 (sink w)) [post]
  | Ret (status, text) =>
      if negb (status =? 202) then
        Ran nothing (World bk1 (sink w)) [post; Stderr (CreateError status text)]
      else
        match loads text with
        | None => Ran (Raise JSONDecodeError) (World bk1 (sink w)) [post]
        | Some created =>
            match Py.subscript created (lit "id") with
            | Raise e => Ran (Raise e) (World bk1 (sink w)) [post]
            | Ret job_id =>
                let started :=
                  post :: (if return_results then []
                           else [Stderr (JobCreated order_id job_id)]) in
                let '(x, bk2, evs_poll) := poll_loop job_id bk1 in
                match x with
                | PollRaise e =>
                    Ran (Raise e) (World bk2 (sink w)) (started ++ evs_poll)
                | PollReturn =>
                    Ran nothing (World bk2 (sink w)) (started ++ evs_poll)
                | PollBreak message_count =>
                    let fetched :=
                      fetch_loop job_id message_count 0 no_counts bk2 (sink w) in
                    match value fetched with
                    | Raise e =>
                        Ran (Raise e) (rest fetched)
                            (started ++ evs_poll ++ events fetched)
                    | Ret c =>
                        let '(d, bk3, evs_del) :=
                          delete_job job_id (backend (rest fetched)) in
                        Ran (match d with Ret _ => Ret c | Raise e => Raise e end)
                            (World bk3 (sink (rest fetched)))
                            (started ++ evs_poll ++ events fetched ++ evs_del)
                    end
                end
            end
        end
  end.

End RunOneOrder.

(** [re.match(r"^-(\d+)([dhms])$", s)]: the two groups, the digits and the
    unit.  The [$] also matches before a line feed that ends the text. *)
Definition relative_pattern (s : str) : option (str * N) :=
  match s with
  | c :: r =>
      if negb (c =? 45)%N then None
      else
        match span_decimals r with
        | ([], _) => None
        | (d, u :: tl) =>
            if ((u =? 100) || (u =? 104) || (u =? 109) || (u =? 115))%N
               && (str_eqb tl [] || str_eqb tl [10%N])
            then Some (d, u)
            else None
        | (_, []) => None
        end
  | [] => None
  end.

(** The most digits that [int] converts, [sys.get_int_max_str_digits()] as
    the interpreter starts with. *)
Definition max_str_digits : nat := 4300.

(** [int(s)] of a run of decimal digits. *)
Definition int (s : str) : res Z :=
  if (max_str_digits <? length s)%nat then Raise ValueError
  else Ret (int_of_digits s).

(** [_resolve_relative_time(from_time, to_time)], both arguments strings, at
    the instant [now_utc] of the UTC clock. *)
Definition _resolve_relative_time (now_utc : datetime) (from_time to_time : str) :
  res (str * str * option str) :=
  let to_str := lower (strip (Py.or_str (Some to_time) (lit "now"))) in
  let to_iso := if str_eqb to_str (lit "now") then strftime now_utc else to_time in
  match relative_pattern (lower (strip (Py.or_str (Some from_time) []))) with
  | Some (digits, unit) =>
      match int digits with
      | Raise e => Raise e
      | Ret amount =>
          let delta :=
            if (unit =? 100)%N then amount * 86400
            else if (unit =? 104)%N then amount * 3600
            else if (unit =? 109)%N then amount * 60
            else amount in
          match minus_seconds now_utc delta with
          | Raise e => Raise e
          | Ret t => Ret (strftime t, to_iso, Some (lit "UTC"))
          end
      end
  | None => Ret (from_time, to_iso, None)
  end.

(** [_next_day_from_time(from_time, to_time)]. *)
Definition _next_day_from_time (from_time to_time : str) : res (option (str * str)) :=
  if (length from_time <? 10)%nat || negb (isdigit (take 4 from_time)) then Ret None
  else
    match strptime_ymd (take 10 from_time) with
    | None => Ret None
    | Some day_date =>
        match next_day day_date with
        | Raise e => Raise e
        | Ret d =>
            Ret (Some (isoformat d ++ lit "T00:00:00", isoformat d ++ lit "T23:59:59"))
        end
    end.

(** The window of a calendar day. *)
Definition day_window (d : date) : str * str :=
  (isoformat d ++ lit "T00:00:00", isoformat d ++ lit "T23:59:59").

(** The command line and the environment of [charge_request.main], after
    the parsing of the arguments.  [file] holds the rows the CSV reader
    yields when [input] names a file. *)
Record cli := Cli {
  input : str;
  file : option (list (list str));
  day_arg : option str;
  from_arg : str;
  to_arg : option str;
  timezone_arg : str;
  debug : bool;
  sqs_arg : option str;
  access_id : option str;
  access_key : option str;
  aws_region_env : option str;
  now_utc : datetime
}.

Definition present (x : option str) : bool :=
  match x with Some (_ :: _) => true | _ => false end.

(** The process exit status a run of [main] ends with: the argument of
    [sys.exit], 0 when [main] returns, 1 when an exception escapes. *)
Definition exit_code (r : res Z) : Z :=
  match r with
  | Ret c => c
  | Raise (SystemExit c) => c
  | Raise _ => 1
  end.

Section CsvMode.

Variables (timezone : str) (sqs_queue_url aws_region : option str).

(** The body of [for i, (order_id, date_str) in enumerate(rows)], and the
    loop: the totals and the identifiers not found. *)
Fixpoint csv_loop (i : Z) (rows : list (str * str))
    (total_printed total_sent : Z) (not_found : list str) (w : world) :
  ran (Z * Z * list str) :=
  match rows with
  | [] => Ran (Ret (total_printed, total_sent, not_found)) w []
  | (order_id, date_str) :: rows' =>
      match strptime_ymd date_str with
      | None => Ran (Raise ValueError) w []
      | Some day_date =>
          let '(from_time, to_time) := day_window day_date in
          let sep := if 0 <? i then [Stderr EmptyLine] else [] in
          let r1 :=
            _run_one_order order_id from_time to_time timezone
                           sqs_queue_url aws_region false w in
          let this : ran counts :=
            match value r1 with
            | Raise e => r1
            | Ret c =>
                if printed c =? 0 then
                  match _next_day_from_time from_time to_time with
                  | Raise e => Ran (Raise e) (rest r1) (events r1)
                  | Ret None => r1
                  | Ret (Some (next_from, next_to)) =>
                      after (events r1 ++ [Stderr (TryingNextDay order_id date_str)])
                        (_run_one_order order_id next_from next_to timezone
                                        sqs_queue_url aws_region false (rest r1))
                  end
                else r1
            end in
          match value this with
          | Raise e => Ran (Raise e) (rest this) (sep ++ events this)
          | Ret c =>
              after (sep ++ events this)
                (csv_loop (i + 1) rows'
                   (total_printed + printed c) (total_sent + sent_to_sqs c)
                   (if printed c =? 0 then not_found ++ [order_id] else not_found)
                   (rest this))
          end
      end
  end.

End CsvMode.

(** [charge_request.main]. *)
Definition main (a : cli) (w : world) : ran Z :=
  if negb (present (access_id a)) || negb (present (access_key a)) then
    Ran (Ret 1) w [Stderr MissingCredentials]
  else
    match file a with
    | Some csv =>
        let '(rows, warnings) := _read_csv_order_dates csv in
        match rows with
        | [] => Ran (Ret 1) w (warnings ++ [Stderr CsvNoRows])
        | (order_id, date_str) :: _ =>
            if debug a then
              match strptime_ymd date_str with
              | None => Ran (Raise ValueError) w warnings
              | Some day_date =>
                  let '(from_time, to_time) := day_window day_date in
                  Ran (Ret 0) w
                      (warnings ++
                       [Stderr (DebugQuery (SearchJob (QUERY_TEMPLATE order_id)
                                              from_time to_time (timezone_arg a)));
                        Stderr (DebugTotalRows (Z.of_nat (length rows)))])
              end
            else
              let looped :=
                csv_loop (timezone_arg a) (sqs_arg a) (aws_region_env a)
                         0 rows 0 0 [] w in
              match value looped with
              | Raise e => Ran (Raise e) (rest looped) (warnings ++ events looped)
              | Ret (total_printed, total_sent, not_found) =>
                  Ran (Ret (if total_printed =? 0 then 1 else 0)) (rest looped)
                      (warnings ++ events looped
                       ++ (match not_found with
                           | [] => []
                           | _ => [Stderr EmptyLine; Stderr (NotFoundIds not_found)]
                           end)
                       ++ [Stderr EmptyLine; Stderr (Published total_sent); Stderr Elapsed])
              end
        end
    | None =>
        let order_id := input a in
        let window : res (str * str * str) + ran Z :=
          if present (day_arg a) then
            match strptime_ymd (default [] (day_arg a)) with
            | None => inr (Ran (Ret 1) w [Stderr (BadDay (default [] (day_arg a)))])
            | Some day_date =>
                let '(from_time, to_time) := day_window day_date in
                inl (Ret (from_time, to_time, timezone_arg a))
            end
          else
            match _resolve_relative_time (now_utc a) (from_arg a)
                    (Py.or_str (to_arg a) (lit "now")) with
            | Raise e => inl (Raise e)
            | Ret (from_time, to_time, resolved_tz) =>
                inl (Ret (from_time, to_time, default (timezone_arg a) resolved_tz))
            end in
        match window with
        | inr stopped => stopped
        | inl (Raise e) => Ran (Raise e) w []
        | inl (Ret (from_time, to_time, timezone)) =>
            if debug a then
              Ran (Ret 0) w
                  [Stderr (DebugQuery (SearchJob (QUERY_TEMPLATE order_id)
                                         from_time to_time timezone))]
            else
              let r1 :=
                _run_one_order order_id from_time to_time timezone
                               (sqs_arg a) (aws_region_env a) false w in
              match value r1 with
              | Raise e => Ran (Raise e) (rest r1) (events r1)
              | Ret c =>
                  match _next_day_from_time from_time to_time with
                  | Raise e => Ran (Raise e) (rest r1) (events r1)
                  | Ret next_range =>
                      let this : ran counts :=
                        match next_range with
                        | Some (next_from, next_to) =>
                            if printed c =? 0 then
                              after (events r1 ++ [Stderr TryingNextDaySingle])
                                (_run_one_order order_id next_from next_to timezone
                                   (sqs_arg a) (aws_region_env a) false (rest r1))
                            else r1
                        | None => r1
                        end in
                      match value this with
                      | Raise e => Ran (Raise e) (rest this) (events this)
                      | Ret c' =>
                          if printed c' =? 0 then
                            Ran (Ret 1) (rest this)
                                (events this
                                 ++ [Stderr EmptyLine; Stderr (NotFoundIds [order_id])])
                          else
                            Ran (Ret 0) (rest this)
                                (events this
                                 ++ [Stderr EmptyLine; Stderr (Published (sent_to_sqs c'));
                                     Stderr Elapsed])
                      end
                  end
              end
        end
    end.

(** ** [run_concurrent.py] *)

Module RunConcurrent.

(** [_run_one_order_task]: one order with its next-day retry, on an opener
    of its own; the order identifier and the results. *)
Definition _run_one_order_task (order_id from_time to_time timezone : str)
    (sqs_queue_url aws_region : option str) (w : world) : ran (str * counts) :=
  let r1 :=
    _run_one_order order_id from_time to_time timezone
                   sqs_queue_url aws_region true w in
  let this : ran counts :=
    match value r1 with
    | Raise e => r1
    | Ret c =>
        if printed c =? 0 then
          match _next_day_from_time from_time to_time with
          | Raise e => Ran (Raise e) (rest r1) (events r1)
          | Ret None => r1
          | Ret (Some (next_from, next_to)) =>
              after (events r1)
                (_run_one_order order_id next_from next_to timezone
                                sqs_queue_url aws_region true (rest r1))
          end
        else r1
    end in
  Ran (match value this with
       | Ret c => Ret (order_id, c)
       | Raise e => Raise e
       end)
      (rest this) (events this).

(** The command line and the environment of [run_concurrent.main]. *)
Record args := Args {
  input : str;
  file : option (list (list str));
  workers : Z;
  timezone : str;
  sqs_queue_url : option str;
  access_id : option str;
  access_key : option str;
  aws_region : option str
}.

(** What [results_by_index] holds for a task:
    [(order_id, printed, sent, results)]. *)
Abbreviation entry := (str * Z * Z * list json)%type.

Section Batch.

Variable a : args.
Variable rows : list (str * str).

(** Each task talks to the backend and to the sink through a session of its
    own: [task_world i] is what task [i] is answered. *)
Variable task_world : nat -> world.

(** The task submitted for row [i]. *)
Definition task (i : nat) : option (ran (str * counts)) :=
  match rows !! i with
  | None => None
  | Some (order_id, date_str) =>
      match strptime_ymd date_str with
      | None => None
      | Some day_date =>
          let '(from_time, to_time) := day_window day_date in
          Some (_run_one_order_task order_id from_time to_time (timezone a)
                  (sqs_queue_url a) (aws_region a) (task_world i))
      end
  end.

(** [for fut in as_completed(future_to_index)]: [completion] lists the
    indices of the futures in the order in which they are yielded; an index
    that names no future is passed over. *)
Fixpoint collect (completion : list nat) (results_by_index : gmap nat entry) :
  res (gmap nat entry) * list event :=
  match completion with
  | [] => (Ret results_by_index, [])
  | i :: completion' =>
      match rows !! i, task i with
      | Some (order_id, _), Some t =>
          let n := Z.of_nat (length rows) in
          match value t with
          | Ret (_, c) =>
              let '(r, evs) :=
                collect completion'
                  (<[i := (order_id, printed c, sent_to_sqs c, results_list c)]>
                     results_by_index) in
              (r, Stderr (if printed c =? 0
                          then ProgressNotFound (Z.of_nat i + 1) n order_id
                          else ProgressFound (Z.of_nat i + 1) n order_id) :: evs)
          | Raise e =>
              if is_Exception e then
                let '(r, evs) :=
                  collect completion' (<[i := (order_id, 0, 0, [])]> results_by_index) in
                (r, Stderr (ProgressError (Z.of_nat i + 1) n order_id e) :: evs)
              else (Raise e, [])
          end
      | _, _ => collect completion' results_by_index
      end
  end.

(** [for i in range(n)]: the totals, the identifiers not found, and the
    payloads printed. *)
Fixpoint emit (indices : list nat) (results_by_index : gmap nat entry)
    (total_printed total_sent : Z) (not_found : list str) :
  res (Z * Z * list str) * list event :=
  match indices with
  | [] => (Ret (total_printed, total_sent, not_found), [])
  | i :: indices' =>
      match results_by_index !! i with
      | None => (Raise KeyError, [])
      | Some (order_id, printed, sent, results) =>
          let '(r, evs) :=
            emit indices' results_by_index
                 (total_printed + printed) (total_sent + sent)
                 (if printed =? 0 then not_found ++ [order_id] else not_found) in
          (r, map (fun obj => Stdout (Payload obj)) results ++ evs)
      end
  end.

End Batch.

(** [run_concurrent.main]: the exit status or the exception that escapes,
    and the events of the main thread. *)
Definition main (a : args) (task_world : nat -> world) (completion : list nat) :
  res Z * list event :=
  if negb (present (access_id a)) || negb (present (access_key a)) then
    (Ret 1, [Stderr MissingCredentials])
  else
    match file a with
    | None => (Ret 1, [Stderr (NotAFile (input a))])
    | Some csv =>
        let '(rows, warnings) := _read_csv_order_dates csv in
        match rows with
        | [] => (Ret 1, warnings ++ [Stderr CsvNoRows])
        | _ :: _ =>
            let n := length rows in
            let running := warnings ++ [Stderr (Running (Z.of_nat n) (workers a))] in
            if workers a <=? 0 then (Raise ValueError, running)
            else if negb (forallb (fun r => bool_decide (is_Some (strptime_ymd (snd r)))) rows)
            then (Raise ValueError, running)
            else
              match collect a rows task_world completion ∅ with
              | (Raise e, evs) => (Raise e, running ++ evs)
              | (Ret results_by_index, evs) =>
                  match emit (seq 0 n) results_by_index 0 0 [] with
                  | (Raise e, evs') => (Raise e, running ++ evs ++ evs')
                  | (Ret (total_printed, total_sent, not_found), evs') =>
                      (Ret (if total_printed =? 0 then 1 else 0),
                       running ++ evs ++ evs'
                       ++ (match not_found with
                           | [] => []
                           | _ => [Stderr EmptyLine; Stderr (NotFoundIds not_found)]
                           end)
                       ++ [Stderr EmptyLine; Stderr (Published total_sent); Stderr Elapsed])
                  end
              end
        end
    end.

End RunConcurrent.

(** ** The vocabulary of the statements *)

(** The message [{"map": {"json": raw}}] of a result page. *)
Definition message_of (raw : str) : json :=
  JDict [(lit "map", JDict [(lit "json", JStr raw)])].




(** The two states the poll loop knows by name. *)
Definition DONE : str := lit "DONE GATHERING RESULTS".
Definition CANCELLED : str := lit "CANCELLED".

(** A status answer after which the poll loop goes round again. *)
Definition continuing (return_results : bool) (a : http_answer) : Prop :=
  (poll_report return_results (answer a)).1 = PollAgain.

(** What one accepted object adds to the counts, and what it shows on the
    primary stream. *)
Definition adds (return_results : bool) (obj : json) (c c' : counts) : Prop :=
  printed c' = printed c + 1
  /\ (sent_to_sqs c' = sent_to_sqs c \/ sent_to_sqs c' = sent_to_sqs c + 1)
  /\ results_list c' =
       (if return_results then results_list c ++ [obj] else results_list c).

Definition shows (return_results : bool) (obj : json) (evs : list event) : Prop :=
  payloads evs = (if return_results then [] else [obj]).

(** The two ways a run of one order returns. *)
Definition empty_handed (c : counts) (evs : list event) : Prop :=
  c = no_counts /\ payloads evs = [].

Definition one_result (return_results : bool) (c : counts) (evs : list event) : Prop :=
  exists obj,
    printed c = 1
    /\ (sent_to_sqs c = 0 \/ sent_to_sqs c = 1)
    /\ results_list c = (if return_results then [obj] else [])
    /\ payloads evs = (if return_results then [] else [obj]).

(** Answers of the backend and of the sink that raise nothing but an
    [Exception]: every failure of the transport and of the backend, and
    every failure of the sink but a missing client library and a missing
    queue. *)
Definition benign_answer (a : http_answer) : bool :=
  match a with
  | Fails e => is_Exception e
  | Answer _ _ => true
  end.

Definition benign_delivery (a : sink_answer) : bool :=
  match a with
  | SinkNoBoto3 => false
  | SinkSent => true
  | SinkFails (ClientError code) =>
      negb (str_eqb code (lit "AWS.SimpleQueueService.NonExistentQueue"))
  | SinkNoClient e | SinkFails e => is_Exception e
  end.

Definition benign (w : world) : bool :=
  forallb benign_answer (backend w) && forallb benign_delivery (sink w).

(** A result that [except Exception] contains. *)
Definition harmless {A} (r : res A) : Prop :=
  match r with
  | Raise e => is_Exception e = true
  | Ret _ => True
  end.

(** A run of [charge_request.main] for a single order given by [--from]
    and [--to], past the checks and not a dry run. *)
Definition single (a : cli) : Prop :=
  present (access_id a) = true /\ present (access_key a) = true
  /\ file a = None /\ present (day_arg a) = false /\ debug a = false.

(** A run of [run_concurrent.main] past its checks. *)
Definition configured (a : RunConcurrent.args) (csv : list (list str)) : Prop :=
  present (RunConcurrent.access_id a) = true
  /\ present (RunConcurrent.access_key a) = true
  /\ RunConcurrent.file a = Some csv
  /\ 1 <= RunConcurrent.workers a.

(** A task whose run ends in an exception that is not an [Exception]. *)
Definition fatal (a : RunConcurrent.args) (rows : list (str * str))
    (task_world : nat -> world) (i : nat) : bool :=
  match RunConcurrent.task a rows task_world i with
  | Some t =>
      match value t with
      | Raise e => negb (is_Exception e)
      | Ret _ => false
      end
  | None => false
  end.

(** What the orchestrator is to record for task [i]: its results, or the
    error outcome. *)
Definition recorded (a : RunConcurrent.args) (rows : list (str * str))
    (task_world : nat -> world) (i : nat) : option RunConcurrent.entry :=
  match rows !! i, RunConcurrent.task a rows task_world i with
  | Some (order_id, _), Some t =>
      Some match value t with
           | Ret (_, c) => (order_id, printed c, sent_to_sqs c, results_list c)
           | Raise _ => (order_id, 0, 0, [])
           end
  | _, _ => None
  end.

(** The results of order [i]. *)
Definition results_at (a : RunConcurrent.args) (rows : list (str * str))
    (task_world : nat -> world) (i : nat) : list json :=
  match recorded a rows task_world i with
  | Some (_, _, _, results) => results
  | None => []
  end.

(** The results [results_by_index] holds at [i]. *)
Definition stored (m : gmap nat RunConcurrent.entry) (i : nat) : list json :=
  match m !! i with
  | Some (_, _, _, results) => results
  | None => []
  end.

(** An entry whose count is the number of its results. *)
Definition balanced (e : RunConcurrent.entry) : Prop :=
  e.1.1.2 = Z.of_nat (length e.2).

(** A successful scan takes at least one character, and succeeds all the
    same with any fuel that is not less than the number of characters it
    takes. *)
Definition scan_bound (f : nat) : Prop :=
  (forall s v r,
     scan_once f s = Some (v, r) ->
     (length r < length s)%nat
     /\ forall k, (length s - length r <= k)%nat -> scan_once k s = Some (v, r))
  /\ (forall s vs v r,
        array_items f s vs = Some (v, r) ->
        (length r < length s)%nat
        /\ forall k, (length s - length r <= k)%nat -> array_items k s vs = Some (v, r))
  /\ (forall s ps v r,
        object_items f s ps = Some (v, r) ->
        (length r < length s)%nat
        /\ forall k, (length s - length r <= k)%nat -> object_items k s ps = Some (v, r)).

(** ** Scenarios *)

Module Scenario.

Definition accepted : http_answer := Answer 202 (q "{'id':'J1'}").

Definition gathering : http_answer :=
  Answer 200 (q "{'state':'GATHERING RESULTS','messageCount':0}").

Definition done_empty : http_answer :=
  Answer 200 (q "{'state':'DONE GATHERING RESULTS','messageCount':0}").

Definition done_one : http_answer :=
  Answer 200 (q "{'state':'DONE GATHERING RESULTS','messageCount':1}").

Definition cancelled : http_answer :=
  Answer 200 (q "{'state':'CANCELLED','messageCount':0}").

Definition cancelled_one_text : str := q "{'state':'CANCELLED','messageCount':1}".

Definition page_a_text : str := q "{'messages':[{'map':{'json':'{\'a\':1}'}}]}".
Definition page_a : http_answer := Answer 200 page_a_text.

Definition page_b : http_answer :=
  Answer 200 (q "{'messages':[{'map':{'json':'{\'b\':2}'}}]}").


Definition removed : http_answer := Answer 200 [].

Definition object_a : json := JDict [(lit "a", JInt 1)].
Definition object_b : json := JDict [(lit "b", JInt 2)].

Definition noon : datetime := DateTime (Date 2024 3 1) 12 0 0.

(** [charge_request ABC123 --from 2024-01-01T00:00:00 --to 2024-01-05T23:59:59]. *)
Definition wide_range : cli :=
  Cli (lit "ABC123") None None (lit "2024-01-01T00:00:00")
      (Some (lit "2024-01-05T23:59:59")) (lit "UTC") false None
      (Some (lit "id")) (Some (lit "key")) None noon.

(** [charge_request ABC123 --from 2024-01-01T00:00:00 --timezone Europe/Paris]. *)
Definition absolute_start : cli :=
  Cli (lit "ABC123") None None (lit "2024-01-01T00:00:00") None
      (lit "Europe/Paris") false None (Some (lit "id")) (Some (lit "key")) None noon.

(** [charge_request ABC123 --day 2024-01-01]. *)
Definition one_day : cli :=
  Cli (lit "ABC123") None (Some (lit "2024-01-01")) (lit "-7d") None
      (lit "UTC") false None (Some (lit "id")) (Some (lit "key")) None noon.

(** [charge_request ABC123 --day 2024-01-01 --debug]. *)
Definition dry_run : cli :=
  Cli (lit "ABC123") None (Some (lit "2024-01-01")) (lit "-7d") None
      (lit "UTC") true None (Some (lit "id")) (Some (lit "key")) None noon.

(** A backend on which nothing matches, for a run and its retry. *)
Definition nothing_found : world :=
  World [accepted; done_empty; removed; accepted; done_empty; removed] [].

(** A backend on which the first status report shows a match. *)
Definition found_a : world := World [accepted; done_one; page_a; removed] [SinkSent].
Definition found_b : world := World [accepted; done_one; page_b; removed] [SinkSent].

(** The job is cancelled; the poll request fails. *)
Definition job_cancelled : world := World [accepted; cancelled] [].
Definition poll_fails : world := World [accepted; Fails (HTTPError 500 [])] [].

(** The deletion fails. *)
Definition delete_fails : world :=
  World [accepted; done_one; page_a; Fails OSError] [].

(** The queue of the sink does not exist. *)
Definition queue_missing : world :=
  World [accepted; done_one; page_a; removed]
        [SinkFails (ClientError (lit "AWS.SimpleQueueService.NonExistentQueue"))].

(** The backend cannot be reached. *)
Definition unreachable : world := World [Fails OSError] [].

Definition two_orders : list (list str) :=
  [[lit "orderID"; lit "date"];
   [lit "A1"; lit "2024-01-01"];
   [lit "B2"; lit "2024-01-01"]].

Definition batch : RunConcurrent.args :=
  RunConcurrent.Args (lit "orders.csv") (Some two_orders) 2 (lit "UTC")
    (Some (lit "https://sqs.example/queue")) (Some (lit "id")) (Some (lit "key")) None.

(** What each of the two tasks is answered. *)
Definition both_found (i : nat) : world :=
  match i with O => found_a | _ => found_b end.

Definition first_unreachable (i : nat) : world :=
  match i with O => unreachable | _ => found_b end.

Definition first_queue_missing (i : nat) : world :=
  match i with O => queue_missing | _ => found_b end.

(** One order on its day, printing what it finds. *)
Definition job : search_job :=
  SearchJob (QUERY_TEMPLATE (lit "ABC123")) (lit "2024-01-01T00:00:00")
            (lit "2024-01-01T23:59:59") (lit "UTC").

Definition run (w : world) : ran counts :=
  _run_one_order (lit "ABC123") (lit "2024-01-01T00:00:00")
                 (lit "2024-01-01T23:59:59") (lit "UTC") None None false w.

End Scenario.

(** ** Further vocabulary *)

(** The deliveries handed to the sink's client among the events, in order:
    the queue, the object and the region. *)
Definition sends (evs : list event) : list (str * json * option str) :=
  omap (fun e => match e with Send u b r => Some (u, b, r) | _ => None end) evs.

(** The pauses among the events, in order. *)
Definition sleeps (evs : list event) : list Z :=
  omap (fun e => match e with Sleep s => Some s | _ => None end) evs.

(** All the lines of the primary stream among the events, in order. *)
Definition stdout_lines (evs : list event) : list out_line :=
  omap (fun e => match e with Stdout l => Some l | _ => None end) evs.

(** The requests for the pages of messages at the given offsets. *)
Definition page_requests (job_id : json) (offsets : list Z) : list request :=
  map (fun o => GetMessages job_id o MESSAGE_PAGE_SIZE) offsets.

(** Offsets that start at [o] and grow from one to the next. *)
Definition ascending_from (o : Z) (offsets : list Z) : Prop :=
  match offsets with
  | [] => True
  | x :: _ => x = o /\ StronglySorted Z.lt offsets
  end.


(** The jobs whose status is asked for, and the jobs submitted, among the
    requests. *)
Definition status_polls (rs : list request) : list json :=
  omap (fun r => match r with GetStatus j => Some j | _ => None end) rs.

Definition posted (rs : list request) : list search_job :=
  omap (fun r => match r with PostJob j => Some j | _ => None end) rs.

(** Events that hand nothing to the sink and write nothing on the primary
    stream. *)
Definition quiet (evs : list event) : Prop :=
  sends evs = [] /\ stdout_lines evs = [].

(** The names by which the first row of a CSV is taken for a header. *)
Definition header_names : list str :=
  [lit "orderid"; lit "order_id"; lit "order id"].

(** The two columns that [_read_csv_order_dates] reads in a row, stripped. *)
Definition columns (row : list str) : option (str * str) :=
  match row with
  | c0 :: c1 :: _ => Some (strip c0, strip c1)
  | _ => None
  end.

(** A text that neither begins nor ends with a blank. *)
Definition trimmed (s : str) : Prop := strip s = s.


(** The same command line with another [--debug]. *)
Definition with_debug (b : bool) (a : cli) : cli :=
  Cli (input a) (file a) (day_arg a) (from_arg a) (to_arg a) (timezone_arg a) b
      (sqs_arg a) (access_id a) (access_key a) (aws_region_env a) (now_utc a).

(** The progress line that the concurrent runner writes when the future of
    task [i] is handed to it. *)
Definition progress_line (a : RunConcurrent.args) (rows : list (str * str))
    (task_world : nat -> world) (i : nat) : option event :=
  match rows !! i, RunConcurrent.task a rows task_world i with
  | Some (order_id, _), Some t =>
      let n := Z.of_nat (length rows) in
      Some (Stderr match value t with
                   | Ret (_, c) =>
                       if printed c =? 0
                       then ProgressNotFound (Z.of_nat i + 1) n order_id
                       else ProgressFound (Z.of_nat i + 1) n order_id
                   | Raise e => ProgressError (Z.of_nat i + 1) n order_id e
                   end)
  | _, _ => None
  end.

(** The seconds in the unit of a relative start: [d], [h], [m] or [s], in
    either case. *)
Definition unit_seconds (u : N) : option Z :=
  (if (u =? 100) || (u =? 68) then Some 86400%Z
   else if (u =? 104) || (u =? 72) then Some 3600%Z
   else if (u =? 109) || (u =? 77) then Some 60%Z
   else if (u =? 115) || (u =? 83) then Some 1%Z
   else None)%N.

(** A day of the calendar that [datetime.date] holds. *)
Definition valid_date (d : date) : Prop :=
  1 <= year d <= 9999 /\ 1 <= month d <= 12
  /\ 1 <= day d <= days_in_month (year d) (month d).

(** The day after, as the calendar has it. *)
Definition tomorrow (d : date) : date :=
  if day d <? days_in_month (year d) (month d)
  then Date (year d) (month d) (day d + 1)
  else if month d <? 12 then Date (year d) (month d + 1) 1
  else Date (year d + 1) 1 1.

(** The month and the day of the [n]-th day of a year, counted from 0: the
    end of [_ord2ymd]. *)
Definition month_day (leapyear : bool) (n : Z) : Z * Z :=
  let m := Z.shiftr (n + 50) 5 in
  let preceding :=
    days_before_month_common m + (if (2 <? m) && leapyear then 1 else 0) in
  if n <? preceding then
    let m' := m - 1 in
    let preceding' :=
      preceding - (days_in_month 1 m' + (if (m' =? 2) && leapyear then 1 else 0)) in
    (m', n - preceding' + 1)
  else (m, n - preceding + 1).

(** * Properties *)

(** ** The character tables *)

Lemma within_bounds c r :
  within c r = true <-> (fst r <= c /\ c <= snd r)%N.
Proof.
  unfold within. rewrite andb_true_iff, !N.leb_le. reflexivity.
Qed.

Lemma apart_spec l1 l2 c :
  apart l1 l2 = true -> in_ranges c l1 = true -> in_ranges c l2 = false.
Proof.
  unfold apart, in_ranges. intros Ha Hin.
  apply existsb_exists in Hin as (r1 & Hr1 & Hw1).
  rewrite List.forallb_forall in Ha. specialize (Ha r1 Hr1).
  rewrite List.forallb_forall in Ha.
  apply not_true_is_false. intros Hin2.
  apply existsb_exists in Hin2 as (r2 & Hr2 & Hw2).
  specialize (Ha r2 Hr2). apply within_bounds in Hw1, Hw2.
  apply orb_true_iff in Ha as [Ha|Ha]; apply N.ltb_lt in Ha; lia.
Qed.

Lemma in_ranges_one c a :
  in_ranges c [(a, a)] = false -> (c =? a)%N = false.
Proof.
  unfold in_ranges, within. cbn [existsb fst snd]. rewrite orb_false_r.
  intros H. apply N.eqb_neq. intros ->. rewrite N.leb_refl in H. discriminate.
Qed.

(** The digits [0-9] are decimal digits, and their value is their distance
    from [0]. *)
Lemma ascii_digit_decimal c :
  ascii_digit c = true -> isdecimal c = true /\ decimal_value c = Z.of_N c - 48.
Proof.
  unfold ascii_digit. intros H.
  assert (Hw : within c (48, 57)%N = true) by exact H.
  apply andb_true_iff in H as [H1 H2]. apply N.leb_le in H1, H2.
  unfold isdecimal, decimal_value, in_ranges.
  change decimal_ranges with ((48, 57)%N :: tl decimal_ranges).
  cbn [existsb find]. rewrite Hw. split; [reflexivity|].
  rewrite N.mod_small by lia. lia.
Qed.

Lemma decimal_is_digit c : isdecimal c = true -> isdigit_char c = true.
Proof. unfold isdigit_char. intros ->. reflexivity. Qed.

(** A decimal digit is no white space and has no case. *)
Lemma decimal_no_space c : isdecimal c = true -> isspace c = false.
Proof. apply apart_spec. vm_compute. reflexivity. Qed.

Lemma decimal_plain c :
  isdecimal c = true -> in_ranges c lower_ranges = false.
Proof. apply apart_spec. vm_compute. reflexivity. Qed.

Lemma lower_char_outside c :
  in_ranges c lower_ranges = false -> lower_char c = [c].
Proof.
  unfold lower_ranges, lower_char, in_ranges. cbn [existsb].
  intros H. apply orb_false_iff in H as [H0 H].
  assert (Hc : (c =? 0x130)%N = false).
  { apply in_ranges_one. unfold in_ranges. cbn [existsb]. rewrite H0. reflexivity. }
  rewrite Hc. clear H0 Hc.
  induction lower_table as [|[[[first last] step] target] t IH]; [reflexivity|].
  cbn [map existsb] in H. apply orb_false_iff in H as [H1 H2].
  cbn [find]. rewrite H1. cbn [andb]. apply IH. exact H2.
Qed.

Lemma sigma_has_a_case c :
  in_ranges c lower_ranges = false -> (c =? 0x3A3)%N = false.
Proof.
  intros H. apply N.eqb_neq. intros ->. vm_compute in H. discriminate.
Qed.

Lemma lower_char_length c : (1 <= length (lower_char c))%nat.
Proof.
  unfold lower_char. destruct (c =? 0x130)%N; [cbn; lia|].
  destruct (find _ _) as [[[[first last] step] target]|]; cbn; lia.
Qed.

Lemma lower_from_length before s : (length s <= length (lower_from before s))%nat.
Proof.
  revert before. induction s as [|c s IH]; intros before; [reflexivity|].
  cbn [lower_from]. rewrite length_app. specialize (IH (c :: before)).
  pose proof (lower_char_length c).
  destruct (c =? 0x3A3)%N; cbn [length] in *; lia.
Qed.

(** [lower] leaves alone the characters that have no case. *)
Lemma lower_from_plain before s t :
  forallb (fun c => negb (in_ranges c lower_ranges)) s = true ->
  lower_from before (s ++ t) = s ++ lower_from (rev s ++ before) t.
Proof.
  revert before. induction s as [|c s IH]; intros before Hs; [reflexivity|].
  cbn [forallb] in Hs. apply andb_true_iff in Hs as [Hc Hs].
  apply negb_true_iff in Hc.
  cbn [app lower_from rev].
  rewrite (sigma_has_a_case c Hc), (lower_char_outside c Hc), (IH _ Hs).
  rewrite <- app_assoc. reflexivity.
Qed.

Lemma decimals_plain s :
  forallb isdecimal s = true ->
  forallb (fun c => negb (in_ranges c lower_ranges)) s = true.
Proof.
  intros H. apply List.forallb_forall. intros c Hc.
  rewrite List.forallb_forall in H. rewrite (decimal_plain c (H c Hc)). reflexivity.
Qed.

(** ** The fuel of the text functions and of the decoder *)

Local Close Scope Z_scope.

Lemma skip_ws_length s : length (skip_ws s) <= length s.
Proof.
  induction s as [|c s IH]; [reflexivity|].
  cbn [skip_ws]. destruct (is_ws c); cbn [length]; lia.
Qed.

Lemma after_prefix_length p : forall s r,
  after_prefix p s = Some r -> length s = length p + length r.
Proof.
  induction p as [|a p IH]; intros [|b s] r; cbn [after_prefix]; try discriminate.
  - intros [= <-]. reflexivity.
  - intros [= <-]. reflexivity.
  - destruct (a =? b)%N; [|discriminate]. intros H. apply IH in H. cbn [length]. lia.
Qed.

Lemma span_digits_length s :
  length s = length (span_digits s).1 + length (span_digits s).2.
Proof.
  induction s as [|c s IH]; [reflexivity|].
  cbn [span_digits]. destruct (ascii_digit c); [|reflexivity].
  destruct (span_digits s) as [d r]. cbn [fst snd length] in *. lia.
Qed.

Lemma push_inv c o t r :
  push c o = Some (t, r) -> exists t', o = Some (t', r).
Proof. destruct o as [[t' r']|]; cbn; [intros [= <- <-]; eauto|discriminate]. Qed.

Lemma scanstring_length : forall n s t r,
  length s <= n -> scanstring s = Some (t, r) -> length r < length s.
Proof.
  induction n as [|n IH]; intros s t r Hn; destruct s as [|c s];
    cbn [scanstring]; try discriminate; cbn [length] in Hn; [lia|].
  repeat match goal with
         | |- context [if ?b then _ else _] => destruct b
         | |- context [match ?x with _ => _ end] =>
             match x with
             | push _ _ => fail 1
             | _ => destruct x
             end
         end;
    intros H; try discriminate;
    try (injection H as <- <-; cbn [length]; lia);
    apply push_inv in H as [t' H]; apply IH in H; cbn [length] in *; lia.
Qed.

Lemma scan_number_length s v r :
  scan_number s = Some (v, r) -> length r < length s.
Proof.
  unfold scan_number.
  set (sign := match s with [] => _ | _ => _ end).
  assert (Hs1 : length sign.2 <= length s).
  { subst sign. destruct s as [|c s]; [cbn; lia|].
    destruct (c =? 45)%N; cbn [snd length]; lia. }
  destruct sign as [neg s1]. cbn [snd] in Hs1.
  set (ip := match s1 with [] => _ | _ => _ end).
  assert (Hs2 : length s1 = length ip.1 + length ip.2).
  { subst ip. destruct s1 as [|c s1']; [reflexivity|].
    destruct (c =? 48)%N; [reflexivity|]. apply span_digits_length. }
  destruct ip as [int_digits s2]. cbn [fst snd] in Hs2.
  destruct int_digits as [|d ds]; [discriminate|]. cbn [length] in Hs2.
  set (fp := match s2 with [] => _ | _ => _ end).
  assert (Hs3 : length fp.2 <= length s2).
  { subst fp. destruct s2 as [|c s2']; [cbn; lia|].
    destruct (c =? 46)%N; [|cbn; lia].
    pose proof (span_digits_length s2') as Hsp.
    destruct (span_digits s2') as [[|x xs] r']; cbn [fst snd length] in *; lia. }
  destruct fp as [frac s3]. cbn [snd] in Hs3.
  set (ep := match s3 with [] => _ | _ => _ end).
  assert (Hs4 : length ep.2 <= length s3).
  { subst ep. destruct s3 as [|c s3']; [cbn; lia|].
    destruct (_ || _)%bool; [|cbn; lia].
    set (sg := match s3' with [] => _ | _ => _ end).
    assert (Hsg : length sg.2 <= length s3').
    { subst sg. destruct s3' as [|x s3'']; [cbn; lia|].
      destruct (x =? 45)%N; [cbn; lia|]. destruct (x =? 43)%N; cbn; lia. }
    destruct sg as [eneg r1]. cbn [snd] in Hsg.
    pose proof (span_digits_length r1) as Hsp.
    destruct (span_digits r1) as [[|x xs] r']; cbn [fst snd length] in *; lia. }
  destruct ep as [exp s4]. cbn [snd] in Hs4.
  destruct frac, exp; intros [= <- <-]; lia.
Qed.

Lemma scan_constant_length s v r :
  scan_constant s = Some (v, r) -> length r < length s.
Proof.
  unfold scan_constant.
  repeat match goal with
         | |- context [match after_prefix ?p s with _ => _ end] =>
             destruct (after_prefix p s) eqn:?
         end; intros [= <- <-];
  match goal with
  | H : after_prefix _ s = Some _ |- _ => apply after_prefix_length in H; cbn in H; lia
  end.
Qed.

Lemma scan_bound_all f : scan_bound f.
Proof.
  induction f as [|f (IHs & IHa & IHo)].
  { repeat split; intros; discriminate. }
  split; [|split].
  - intros s v r. cbn [scan_once].
    destruct s as [|c s0]; [discriminate|].
    destruct (c =? 34)%N eqn:Hq.
    { destruct (scanstring s0) as [[t r']|] eqn:Hstr; [|discriminate].
      intros [= <- <-]. pose proof (scanstring_length _ _ _ _ (le_n _) Hstr) as Hl.
      split; [cbn [length]; lia|].
      intros [|k] Hk; [cbn [length] in Hk; lia|].
      cbn [scan_once]. rewrite Hq, Hstr. reflexivity. }
    destruct (c =? 123)%N eqn:Hbrace.
    { pose proof (skip_ws_length s0) as Hws.
      destruct (skip_ws s0) as [|c' r'] eqn:Hsk; [discriminate|].
      cbn [length] in Hws.
      destruct (c' =? 125)%N eqn:Hclose.
      { intros [= <- <-]. split; [cbn [length]; lia|].
        intros [|k] Hk; [cbn [length] in Hk; lia|].
        cbn [scan_once]. rewrite Hq, Hbrace, Hsk, Hclose. reflexivity. }
      destruct (c' =? 34)%N eqn:Hkey; [|discriminate].
      intros H. destruct (IHo _ _ _ _ H) as [Hl Hk'].
      split; [cbn [length]; lia|].
      intros [|k] Hk; [cbn [length] in Hk; lia|].
      cbn [scan_once]. rewrite Hq, Hbrace, Hsk, Hclose, Hkey.
      apply Hk'. cbn [length] in Hk. lia. }
    destruct (c =? 91)%N eqn:Hbracket.
    { pose proof (skip_ws_length s0) as Hws.
      destruct (skip_ws s0) as [|c' r'] eqn:Hsk; [discriminate|].
      cbn [length] in Hws.
      destruct (c' =? 93)%N eqn:Hclose.
      { intros [= <- <-]. split; [cbn [length]; lia|].
        intros [|k] Hk; [cbn [length] in Hk; lia|].
        cbn [scan_once]. rewrite Hq, Hbracket, Hbrace, Hsk, Hclose. reflexivity. }
      intros H. destruct (IHa _ _ _ _ H) as [Hl Hk'].
      cbn [length] in Hl.
      split; [cbn [length]; lia|].
      intros [|k] Hk; [cbn [length] in Hk; lia|].
      cbn [scan_once]. rewrite Hq, Hbrace, Hbracket, Hsk, Hclose.
      apply Hk'. cbn [length] in *. lia. }
    intros H.
    assert (Hl : length r < length (c :: s0)).
    { revert H.
      destruct (after_prefix (lit "null") (c :: s0)) eqn:H1.
      { intros [= <- <-]. apply after_prefix_length in H1. cbn in H1. cbn. lia. }
      destruct (after_prefix (lit "true") (c :: s0)) eqn:H2.
      { intros [= <- <-]. apply after_prefix_length in H2. cbn in H2. cbn. lia. }
      destruct (after_prefix (lit "false") (c :: s0)) eqn:H3.
      { intros [= <- <-]. apply after_prefix_length in H3. cbn in H3. cbn. lia. }
      destruct (scan_number (c :: s0)) as [[v' r']|] eqn:H4.
      { intros [= <- <-]. apply (scan_number_length _ _ _ H4). }
      apply scan_constant_length. }
    split; [exact Hl|].
    intros [|k] Hk; [lia|].
    cbn [scan_once]. rewrite Hq, Hbrace, Hbracket. exact H.
  - intros s vs v r. cbn [array_items].
    destruct (scan_once f s) as [[v1 r1]|] eqn:Hv; [|discriminate].
    destruct (IHs _ _ _ Hv) as [Hl1 Hk1].
    pose proof (skip_ws_length r1) as Hws.
    destruct (skip_ws r1) as [|c r'] eqn:Hsk; [discriminate|].
    cbn [length] in Hws.
    destruct (c =? 93)%N eqn:Hclose.
    { intros [= <- <-]. split; [lia|].
      intros [|k] Hk; [lia|].
      cbn [array_items]. rewrite (Hk1 k) by lia. rewrite Hsk, Hclose. reflexivity. }
    destruct (c =? 44)%N eqn:Hcomma; [|discriminate].
    intros H. destruct (IHa _ _ _ _ H) as [Hl2 Hk2].
    pose proof (skip_ws_length r') as Hws'.
    split; [lia|].
    intros [|k] Hk; [lia|].
    cbn [array_items]. rewrite (Hk1 k) by lia. rewrite Hsk, Hclose, Hcomma.
    apply Hk2. lia.
  - intros s ps v r. cbn [object_items].
    destruct (scanstring s) as [[key r0]|] eqn:Hstr; [|discriminate].
    pose proof (scanstring_length _ _ _ _ (le_n _) Hstr) as Hl0.
    pose proof (skip_ws_length r0) as Hws0.
    destruct (skip_ws r0) as [|c r1] eqn:Hsk0; [discriminate|].
    cbn [length] in Hws0.
    destruct (negb (c =? 58)%N) eqn:Hcolon; [discriminate|].
    pose proof (skip_ws_length r1) as Hws1.
    destruct (scan_once f (skip_ws r1)) as [[v1 r2]|] eqn:Hv; [|discriminate].
    destruct (IHs _ _ _ Hv) as [Hl1 Hk1].
    pose proof (skip_ws_length r2) as Hws2.
    destruct (skip_ws r2) as [|c' r3] eqn:Hsk2; [discriminate|].
    cbn [length] in Hws2.
    destruct (c' =? 125)%N eqn:Hclose.
    { intros [= <- <-]. split; [lia|].
      intros [|k] Hk; [lia|].
      cbn [object_items]. rewrite Hstr, Hsk0, Hcolon, (Hk1 k) by lia.
      rewrite Hsk2, Hclose. reflexivity. }
    destruct (c' =? 44)%N eqn:Hcomma; [|discriminate].
    pose proof (skip_ws_length r3) as Hws3.
    destruct (skip_ws r3) as [|c'' r4] eqn:Hsk3; [discriminate|].
    cbn [length] in Hws3.
    destruct (c'' =? 34)%N eqn:Hq; [|discriminate].
    intros H. destruct (IHo _ _ _ _ H) as [Hl2 Hk2].
    split; [lia|].
    intros [|k] Hk; [lia|].
    cbn [object_items]. rewrite Hstr, Hsk0, Hcolon, (Hk1 k) by lia.
    rewrite Hsk2, Hclose, Hcomma, Hsk3, Hq.
    apply Hk2. lia.
Qed.

(** The fuel that [loads] gives the scanner loses no parse. *)
Theorem loads_fuel_adequate s fuel v r :
  scan_once fuel (skip_ws s) = Some (v, r) ->
  scan_once (S (length s)) (skip_ws s) = Some (v, r).
Proof.
  intros H. destruct (scan_bound_all fuel) as (Hs & _ & _).
  destruct (Hs _ _ _ H) as [_ Hk]. apply Hk.
  pose proof (skip_ws_length s). lia.
Qed.

(** [loads] finds every value that the scanner finds with some fuel. *)
Corollary loads_complete s fuel v r :
  head s <> Some 65279%N ->
  scan_once fuel (skip_ws s) = Some (v, r) ->
  skip_ws r = [] ->
  loads s = Some v.
Proof.
  intros Hbom Hscan Hend. apply loads_fuel_adequate in Hscan.
  unfold loads. rewrite Hscan, Hend.
  destruct s as [|c s']; [reflexivity|].
  destruct (N.eqb_spec c 65279) as [->|Hc]; [cbn in Hbom; congruence|].
  destruct c as [|p]; [reflexivity|].
  repeat (destruct p as [p|p|]; try reflexivity).
  congruence.
Qed.

Local Open Scope Z_scope.

(** With a non-empty [old], more fuel than the text is long changes
    nothing. *)
Lemma replace_fuel_adequate old new : old <> [] ->
  forall n s f1 f2,
    (length s <= n)%nat -> (n < f1)%nat -> (n < f2)%nat ->
    replace_fuel f1 old new s = replace_fuel f2 old new s.
Proof.
  intros Hold. induction n as [|n IH]; intros s f1 f2 Hs H1 H2;
    destruct f1 as [|f1]; try lia; destruct f2 as [|f2]; try lia;
    cbn [replace_fuel].
  - destruct s; [|cbn in Hs; lia].
    destruct old as [|a old']; [congruence|]. reflexivity.
  - destruct (after_prefix old s) as [r|] eqn:Hp.
    + apply after_prefix_length in Hp.
      destruct old as [|a old']; [congruence|]. cbn [length] in Hp.
      f_equal. apply IH; lia.
    + destruct s as [|c r]; [reflexivity|]. cbn [length] in Hs.
      f_equal. apply IH; lia.
Qed.

Lemma digits_of_fuel_adequate : forall f1 f2 n acc,
  0 <= n -> (Z.to_nat (Z.log2 n) < f1)%nat -> (Z.to_nat (Z.log2 n) < f2)%nat ->
  digits_of_fuel f1 n acc = digits_of_fuel f2 n acc.
Proof.
  induction f1 as [|f1 IH]; intros f2 n acc Hn H1 H2; [lia|].
  destruct f2 as [|f2]; [lia|]. cbn [digits_of_fuel].
  destruct (Z.eqb_spec (n / 10) 0) as [|Hne]; [reflexivity|].
  assert (Hn10 : 10 <= n).
  { destruct (Z_lt_le_dec n 10) as [Hlt|]; [|assumption].
    rewrite Z.div_small in Hne by lia. congruence. }
  assert (Hlog : Z.log2 (n / 10) < Z.log2 n).
  { assert (Hpos : 0 < n / 10) by (apply Z.div_str_pos; lia).
    apply Z.log2_lt_pow2; [exact Hpos|].
    destruct (Z.log2_spec n ltac:(lia)) as [_ Hup].
    rewrite Z.pow_succ_r in Hup by apply Z.log2_nonneg.
    apply Z.div_lt_upper_bound; lia. }
  assert (0 <= Z.log2 (n / 10)) by apply Z.log2_nonneg.
  apply IH; [apply Z.div_pos; lia|lia|lia].
Qed.

(** The text functions are what any larger fuel makes them. *)
Corollary replace_any_fuel old new s fuel :
  old <> [] -> (length s < fuel)%nat ->
  replace_fuel fuel old new s = replace old new s.
Proof.
  intros Hold Hf. unfold replace.
  apply (replace_fuel_adequate old new Hold (length s)); lia.
Qed.

Corollary digits_of_any_fuel n fuel :
  0 <= n -> (Z.to_nat (Z.log2 n) < fuel)%nat ->
  digits_of_fuel fuel n [] = digits_of n.
Proof.
  intros Hn Hf. unfold digits_of. apply digits_of_fuel_adequate; lia.
Qed.

(** ** Events *)

Lemma payloads_app evs1 evs2 :
  payloads (evs1 ++ evs2) = payloads evs1 ++ payloads evs2.
Proof. unfold payloads. apply omap_app. Qed.

Lemma payloads_cons e evs : payloads (e :: evs) = payloads [e] ++ payloads evs.
Proof. apply (payloads_app [e]). Qed.

Lemma payloads_of_results results :
  payloads (map (fun obj => Stdout (Payload obj)) results) = results.
Proof.
  induction results as [|obj results IH]; [reflexivity|]. cbn. f_equal. exact IH.
Qed.

Lemma requests_app evs1 evs2 :
  requests (evs1 ++ evs2) = requests evs1 ++ requests evs2.
Proof. unfold requests. apply omap_app. Qed.

Lemma requests_sleep s evs : requests (Sleep s :: evs) = requests evs.
Proof. reflexivity. Qed.

Lemma requests_request r evs : requests (Request r :: evs) = r :: requests evs.
Proof. reflexivity. Qed.

Lemma requests_stderr d evs : requests (Stderr d :: evs) = requests evs.
Proof. reflexivity. Qed.

(** ** Decoding a message *)

Lemma loads_nil : loads [] = None.
Proof. reflexivity. Qed.

Lemma examine_message_of raw :
  raw <> [] ->
  examine (message_of raw) =
  match decode_field raw with
  | None => (Ret None, [Stderr (RawJson raw)])
  | Some JNull => (Ret None, [])
  | Some obj => (Ret (Some obj), [])
  end.
Proof.
  intros Hne. destruct raw as [|c r]; [congruence|]. reflexivity.
Qed.






(** The fallback recovers an object from a field whose quotes are escaped. *)
Example fallback_recovers :
  loads (q "{\'a\':1}") = None
  /\ decode_field (q "{\'a\':1}") = Some Scenario.object_a.
Proof. split; vm_compute; reflexivity. Qed.

(** A third level of encoding is left as it is. *)
Example third_level_kept :
  decode_field (q "'\'{\\\'a\\\':1}\''") = Some (JStr (q "{'a':1}")).
Proof. vm_compute. reflexivity. Qed.

(** C7.  When the [json] field of a message parses to a string, that string
    is parsed once more and what it holds is the result, whatever it is (a
    string is not parsed a third time); the message is accepted unless the
    result is [None].  The field ["{\"a\":1}"], a JSON string that holds
    the text of an object, decodes to the object [{"a": 1}]. *)
Theorem double_encoding_unwrapped_once raw inner v :
  loads raw = Some (JStr inner) ->
  loads inner = Some v ->
  decode_field raw = Some v
  /\ examine (message_of raw) =
       (Ret (match v with JNull => None | _ => Some v end), [])
  /\ decode_field (q "'{\'a\':1}'") = Some (JDict [(lit "a", JInt 1)]).
Proof.
  intros Hraw Hinner.
  assert (Hd : decode_field raw = Some v).
  { unfold decode_field. rewrite Hraw, Hinner. reflexivity. }
  split; [exact Hd|]. split.
  - rewrite examine_message_of.
    + rewrite Hd. destruct v; reflexivity.
    + intros ->. rewrite loads_nil in Hraw. discriminate.
  - vm_compute. reflexivity.
Qed.

Lemma double_encoding_witness :
  decode_field (q "'{\'a\':1}'") = Some (JDict [(lit "a", JInt 1)])
  /\ examine (message_of (q "'{\'a\':1}'")) =
       (Ret (Some (JDict [(lit "a", JInt 1)])), [])
  /\ decode_field (q "'{\'a\':1}'") = Some (JDict [(lit "a", JInt 1)]).
Proof.
  apply (double_encoding_unwrapped_once (q "'{\'a\':1}'") (q "{'a':1}")
           (JDict [(lit "a", JInt 1)])); vm_compute; reflexivity.
Defined.

Section Extraction.

Variables (sqs_queue_url aws_region : option str) (return_results : bool).




End Extraction.


(** ** The poll loop *)

Section Poll.

Variables (order_id from_time to_time timezone : str).
Variables (sqs_queue_url aws_region : option str).
Variable return_results : bool.

Lemma poll_report_requests r : requests (poll_report return_results r).2 = [].
Proof.
  unfold poll_report.
  repeat match goal with
         | |- context [match ?x with _ => _ end] => destruct x
         | |- context [if ?b then _ else _] => destruct b
         end; reflexivity.
Qed.

(** The loop leaves at the first answer that is not a reason to go on, and
    leaves the answers after it in the script. *)
Lemma poll_loop_first_exit job_id pre a x post :
  Forall (continuing return_results) pre ->
  (poll_report return_results (answer a)).1 = PollExit x ->
  exists evs,
    poll_loop return_results job_id (pre ++ a :: post) = (x, post, evs)
    /\ requests evs = repeat (GetStatus job_id) (S (length pre)).
Proof.
  intros Hpre Ha. induction Hpre as [|b pre Hb _ IH].
  - cbn [app poll_loop].
    pose proof (poll_report_requests (answer a)) as Hreq.
    destruct (poll_report return_results (answer a)) as [step evs].
    cbn [fst] in Ha. subst step. eexists. split; [reflexivity|].
    rewrite requests_sleep, requests_request. cbn [snd] in Hreq. rewrite Hreq.
    reflexivity.
  - destruct IH as (evs' & Hloop & Hreq').
    cbn [app poll_loop]. unfold continuing in Hb.
    pose proof (poll_report_requests (answer b)) as Hreq.
    destruct (poll_report return_results (answer b)) as [step evs].
    cbn [fst] in Hb. subst step. rewrite Hloop.
    eexists. split; [reflexivity|].
    rewrite requests_sleep, requests_request, requests_app.
    cbn [snd] in Hreq. rewrite Hreq, Hreq'. reflexivity.
Qed.

Lemma fetch_loop_first_request job_id message_count offset c bk sk :
  Py.int_lt offset message_count = Ret true ->
  exists evs,
    events (fetch_loop sqs_queue_url aws_region return_results job_id message_count
              offset c bk sk) =
    Request (GetMessages job_id offset MESSAGE_PAGE_SIZE) :: evs.
Proof.
  intros Hlt. destruct bk as [|a bk']; cbn [fetch_loop]; rewrite Hlt.
  - eexists; reflexivity.
  - destruct (answer a) as [[status text]|e].
    + destruct (negb (status =? 200)); [eexists; reflexivity|].
      destruct (loads text) as [data|]; [|eexists; reflexivity].
      destruct (Py.get data (lit "messages") (JList [])) as [messages|e];
        [|eexists; reflexivity].
      destruct (negb (Py.truthy messages)); [eexists; reflexivity|].
      destruct (Py.iter messages) as [items|e]; [|eexists; reflexivity].
      destruct (scan_page _ _ _ items c sk) as [[r sk'] evs].
      destruct r as [c'|e]; [|eexists; reflexivity].
      destruct (0 <? printed c'); eexists; reflexivity.
    + destruct e; eexists; reflexivity.
Qed.

(** C6.  A status report is judged in this order: the state "DONE GATHERING
    RESULTS" leaves the loop for the retrieval; otherwise a message count of
    one or more leaves the loop for the retrieval, whatever the state;
    otherwise the state "CANCELLED" ends the run; otherwise the loop goes
    round again.  The loop leaves at the first report that gives a reason
    to leave, without reading a later one.  A run whose report shows one or
    more messages asks for the first page of messages right after that
    report. *)
Theorem poll_exits_on_first_exit_report text resp state n :
  loads text = Some resp ->
  Py.get resp (lit "state") (JStr []) = Ret state ->
  Py.get resp (lit "messageCount") (JInt 0) = Ret (JInt n) ->
  (poll_report return_results (Ret (200, text))).1 =
    (if Py.eq_str state DONE then PollExit (PollBreak (JInt n))
     else if 1 <=? n then PollExit (PollBreak (JInt n))
     else if Py.eq_str state CANCELLED then PollExit PollReturn
     else PollAgain)
  /\ (forall job_id pre a x post,
        Forall (continuing return_results) pre ->
        (poll_report return_results (answer a)).1 = PollExit x ->
        exists evs,
          poll_loop return_results job_id (pre ++ a :: post) = (x, post, evs)
          /\ requests evs = repeat (GetStatus job_id) (S (length pre)))
  /\ (1 <= n ->
      forall created_text created job_id pre post sk,
        loads created_text = Some created ->
        Py.subscript created (lit "id") = Ret job_id ->
        Forall (continuing return_results) pre ->
        exists tail,
          requests (events (_run_one_order order_id from_time to_time timezone
                              sqs_queue_url aws_region return_results
                              (World (Answer 202 created_text :: pre
                                      ++ Answer 200 text :: post) sk))) =
          PostJob (SearchJob (QUERY_TEMPLATE order_id) from_time to_time timezone)
          :: repeat (GetStatus job_id) (S (length pre))
          ++ GetMessages job_id 0 MESSAGE_PAGE_SIZE :: tail).
Proof.
  intros Htext Hstate Hcount.
  assert (Hrep : (poll_report return_results (Ret (200, text))).1 =
    (if Py.eq_str state DONE then PollExit (PollBreak (JInt n))
     else if 1 <=? n then PollExit (PollBreak (JInt n))
     else if Py.eq_str state CANCELLED then PollExit PollReturn
     else PollAgain)).
  { unfold poll_report. change (negb (200 =? 200)) with false. cbv iota.
    rewrite Htext, Hstate, Hcount. fold DONE CANCELLED.
    destruct (Py.eq_str state DONE); [reflexivity|].
    cbn [Py.ge_int]. destruct (1 <=? n); [reflexivity|].
    destruct (Py.eq_str state CANCELLED); reflexivity. }
  split; [exact Hrep|]. split.
  - intros. apply poll_loop_first_exit; assumption.
  - intros Hn ctext created job_id pre post sk Hctext Hid Hpre.
    assert (Hexit : (poll_report return_results (answer (Answer 200 text))).1 =
                    PollExit (PollBreak (JInt n))).
    { cbn [answer]. rewrite Hrep.
      destruct (Py.eq_str state DONE); [reflexivity|].
      destruct (Z.leb_spec 1 n); [reflexivity|lia]. }
    destruct (poll_loop_first_exit job_id pre _ _ post Hpre Hexit)
      as (evs_poll & Hloop & Hreq).
    assert (Hlt : Py.int_lt 0 (JInt n) = Ret true).
    { cbn [Py.int_lt]. destruct (Z.ltb_spec 0 n); [reflexivity|lia]. }
    destruct (fetch_loop_first_request job_id (JInt n) 0 no_counts post sk Hlt)
      as (evs_fetch & Hfetch).
    unfold _run_one_order. cbn [backend sink _request answer].
    change (negb (202 =? 202)) with false. cbv iota.
    rewrite Hctext, Hid, Hloop.
    set (fetched := fetch_loop _ _ _ _ _ _ _ _ _) in *.
    destruct (value fetched) as [c|e].
    + destruct (delete_job job_id (backend (rest fetched))) as [[d bk3] evs_del].
      cbn [events]. rewrite Hfetch.
      rewrite !requests_app, Hreq.
      exists (requests evs_fetch ++ requests evs_del).
      destruct return_results; cbn [app]; rewrite ?requests_request, ?requests_stderr;
        cbn [requests omap app]; reflexivity.
    + cbn [events]. rewrite Hfetch.
      rewrite !requests_app, Hreq.
      exists (requests evs_fetch).
      destruct return_results; cbn [app]; rewrite ?requests_request, ?requests_stderr;
        cbn [requests omap app]; reflexivity.
Qed.

End Poll.

(** A report of a cancelled job that shows one message still leads to the
    retrieval. *)
Lemma poll_exit_witness :
  (poll_report false (Ret (200, Scenario.cancelled_one_text))).1 =
    PollExit (PollBreak (JInt 1))
  /\ exists tail,
       requests (events (_run_one_order (lit "ABC123") (lit "2024-01-01T00:00:00")
                           (lit "2024-01-01T23:59:59") (lit "UTC") None None false
                           (World [Scenario.accepted; Scenario.gathering;
                                   Answer 200 Scenario.cancelled_one_text;
                                   Scenario.page_a; Scenario.removed] []))) =
       PostJob (SearchJob (QUERY_TEMPLATE (lit "ABC123")) (lit "2024-01-01T00:00:00")
                          (lit "2024-01-01T23:59:59") (lit "UTC"))
       :: repeat (GetStatus (JStr (lit "J1"))) 2
       ++ GetMessages (JStr (lit "J1")) 0 MESSAGE_PAGE_SIZE :: tail.
Proof.
  destruct (poll_exits_on_first_exit_report
              (lit "ABC123") (lit "2024-01-01T00:00:00") (lit "2024-01-01T23:59:59")
              (lit "UTC") None None false Scenario.cancelled_one_text
              (JDict [(lit "state", JStr CANCELLED); (lit "messageCount", JInt 1)])
              (JStr CANCELLED) 1)
    as (Hrep & _ & Hrun); try (vm_compute; reflexivity).
  split; [exact Hrep|].
  apply (Hrun ltac:(lia) (q "{'id':'J1'}") (JDict [(lit "id", JStr (lit "J1"))])
              (JStr (lit "J1")) [Scenario.gathering] [Scenario.page_a; Scenario.removed] []).
  - vm_compute. reflexivity.
  - vm_compute. reflexivity.
  - repeat constructor.
Defined.

(** ** One result at most *)

Lemma examine_silent msg : payloads (examine msg).2 = [].
Proof.
  unfold examine.
  repeat match goal with
         | |- context [match ?x with _ => _ end] => destruct x
         | |- context [if ?b then _ else _] => destruct b
         end; reflexivity.
Qed.

Lemma send_silent u obj region a : payloads (_send_to_sqs u obj region a).2 = [].
Proof.
  destruct a; reflexivity.
Qed.

Lemma poll_report_silent rr r : payloads (poll_report rr r).2 = [].
Proof.
  unfold poll_report.
  repeat match goal with
         | |- context [match ?x with _ => _ end] => destruct x
         | |- context [if ?b then _ else _] => destruct b
         end; reflexivity.
Qed.

Lemma poll_loop_silent rr job_id bk : payloads (poll_loop rr job_id bk).2 = [].
Proof.
  induction bk as [|a bk' IH]; [reflexivity|].
  cbn [poll_loop].
  pose proof (poll_report_silent rr (answer a)) as Hrep.
  destruct (poll_report rr (answer a)) as [step evs]. cbn [snd] in Hrep.
  destruct step as [|x].
  - destruct (poll_loop rr job_id bk') as [[x bk''] evs']. cbn [snd] in *.
    rewrite (payloads_cons (Sleep _)), (payloads_cons (Request _)), payloads_app, Hrep, IH.
    reflexivity.
  - cbn [snd]. rewrite (payloads_cons (Sleep _)), (payloads_cons (Request _)), Hrep.
    reflexivity.
Qed.

Lemma delete_job_silent job_id bk : payloads (delete_job job_id bk).2 = [].
Proof.
  unfold delete_job. destruct (_request bk) as [[x|e] bk']; [reflexivity|].
  destruct (is_OSError e); reflexivity.
Qed.

Section Counting.

Variables (order_id from_time to_time timezone : str).
Variables (sqs_queue_url aws_region : option str).
Variable return_results : bool.

Lemma accept_spec obj c sk r sk' evs :
  accept sqs_queue_url aws_region return_results obj c sk = (r, sk', evs) ->
  shows return_results obj evs
  /\ forall c', r = Ret c' -> adds return_results obj c c'.
Proof.
  unfold accept, shows, adds.
  set (shown := if return_results then [] else _).
  assert (Hshown : payloads shown = if return_results then [] else [obj]).
  { subst shown. destruct return_results; [reflexivity|].
    destruct (0 <? printed c); reflexivity. }
  destruct sqs_queue_url as [[|u rl]|].
  - intros [= <- <- <-]. split; [exact Hshown|].
    intros c' [= <-]. cbn. auto.
  - destruct (next_delivery sk) as [a sk1].
    pose proof (send_silent (u :: rl) obj aws_region a) as Hsend.
    destruct (_send_to_sqs (u :: rl) obj aws_region a) as [[b|e] evs1];
      cbn [snd] in Hsend.
    + intros [= <- <- <-]. split.
      * rewrite !payloads_app, Hshown, Hsend. destruct return_results; reflexivity.
      * intros c' [= <-]. cbn. auto.
    + destruct (is_Exception e).
      * intros [= <- <- <-]. split.
        -- rewrite !payloads_app, Hshown, Hsend. destruct return_results; reflexivity.
        -- intros c' [= <-]. cbn. auto.
      * intros [= <- <- <-]. split.
        -- rewrite !payloads_app, Hshown, Hsend. destruct return_results; reflexivity.
        -- intros c' [=].
  - intros [= <- <- <-]. split; [exact Hshown|].
    intros c' [= <-]. cbn. auto.
Qed.

(** How the scan of a page ends: nothing accepted, or one object. *)
Lemma scan_page_spec messages c sk r sk' evs :
  scan_page sqs_queue_url aws_region return_results messages c sk = (r, sk', evs) ->
  (payloads evs = [] /\ sk' = sk /\ forall c', r = Ret c' -> c' = c)
  \/ exists obj,
       shows return_results obj evs
       /\ forall c', r = Ret c' -> adds return_results obj c c'.
Proof.
  revert r sk' evs. induction messages as [|msg messages IH]; intros r sk' evs.
  - cbn. intros [= <- <- <-]. left. split; [reflexivity|]. split; [reflexivity|].
    intros c' [= <-]. reflexivity.
  - cbn [scan_page].
    pose proof (examine_silent msg) as Hsil.
    destruct (examine msg) as [[[obj|]|e] evs0]; cbn [snd] in Hsil.
    + destruct (accept _ _ _ obj c sk) as [[r1 sk1] evs1] eqn:Hacc.
      intros [= <- <- <-]. right. exists obj.
      destruct (accept_spec _ _ _ _ _ _ Hacc) as [Hshow Hadd].
      split; [|exact Hadd].
      unfold shows in *. rewrite payloads_app, Hsil, Hshow. reflexivity.
    + destruct (scan_page _ _ _ messages c sk) as [[r1 sk1] evs1].
      intros [= <- <- <-].
      destruct (IH _ _ _ eq_refl) as [(Hp & Hsk & Hc)|(obj & Hshow & Hadd)].
      * left. rewrite payloads_app, Hsil, Hp. auto.
      * right. exists obj. split; [|exact Hadd].
        unfold shows in *. rewrite payloads_app, Hsil, Hshow. reflexivity.
    + intros [= <- <- <-]. left. split; [exact Hsil|]. split; [reflexivity|].
      intros c' [=].
Qed.

(** How the retrieval ends, from counts that show nothing printed. *)
Lemma fetch_loop_spec job_id message_count bk :
  forall offset c sk,
    printed c = 0 ->
    let f := fetch_loop sqs_queue_url aws_region return_results job_id message_count
               offset c bk sk in
    (payloads (events f) = [] /\ forall c', value f = Ret c' -> c' = c)
    \/ exists obj,
         shows return_results obj (events f)
         /\ forall c', value f = Ret c' -> adds return_results obj c c'.
Proof.
  induction bk as [|a bk' IH]; intros offset c sk Hc; cbn zeta.
  - cbn [fetch_loop].
    destruct (Py.int_lt offset message_count) as [[|]|e]; cbn [events value];
      left; (split; [reflexivity|]); intros c' [=]; congruence.
  - cbn [fetch_loop]. destruct (Py.int_lt offset message_count) as [[|]|e];
      [|left; split; [reflexivity|intros c' [= <-]; reflexivity]
       |left; split; [reflexivity|intros c' [=]]].
    destruct (answer a) as [[status text]|e].
    + destruct (negb (status =? 200));
        [left; split; [reflexivity|intros c' [= <-]; reflexivity]|].
      destruct (loads text) as [data|]; [|left; split; [reflexivity|intros c' [=]]].
      destruct (Py.get data (lit "messages") (JList [])) as [messages|e];
        [|left; split; [reflexivity|intros c' [=]]].
      destruct (negb (Py.truthy messages));
        [left; split; [reflexivity|intros c' [= <-]; reflexivity]|].
      destruct (Py.iter messages) as [items|e];
        [|left; split; [reflexivity|intros c' [=]]].
      destruct (scan_page _ _ _ items c sk) as [[r sk'] evs] eqn:Hscan.
      destruct (scan_page_spec _ _ _ _ _ _ Hscan)
        as [(Hp & Hsk & Hsame)|(obj & Hshow & Hadd)].
      * destruct r as [c1|e].
        -- rewrite (Hsame c1 eq_refl), Hc. change (0 <? 0) with false. cbv iota.
           destruct (IH (offset + Z.of_nat (length items)) c sk' Hc)
             as [(Hp' & Hsame')|(obj & Hshow' & Hadd')].
           ++ left. unfold after. cbn [events value].
              rewrite payloads_app, (payloads_cons _ evs), Hp, Hp'.
              split; [reflexivity|exact Hsame'].
           ++ right. exists obj. unfold after. cbn [events value].
              split; [|exact Hadd'].
              unfold shows in *.
              rewrite payloads_app, (payloads_cons _ evs), Hp, Hshow'. reflexivity.
        -- left. cbn [events value]. split; [exact Hp|]. intros c' [=].
      * right. exists obj. destruct r as [c1|e].
        -- destruct (Hadd c1 eq_refl) as (Hpr & _).
           assert (Hpos : (0 <? printed c1) = true) by (apply Z.ltb_lt; lia).
           rewrite Hpos. cbn [events value]. split.
           ++ unfold shows in *. rewrite payloads_cons, Hshow. reflexivity.
           ++ exact Hadd.
        -- cbn [events value]. split.
           ++ unfold shows in *. rewrite payloads_cons, Hshow. reflexivity.
           ++ intros c' [=].
    + destruct e; left; (split; [reflexivity|]); intros c' [=]; congruence.
Qed.

(** A run that returns has found nothing or one object. *)
Lemma run_one_order_spec w c :
  let r := _run_one_order order_id from_time to_time timezone
                          sqs_queue_url aws_region return_results w in
  value r = Ret c ->
  empty_handed c (events r) \/ one_result return_results c (events r).
Proof.
  cbn zeta. unfold _run_one_order.
  destruct (_request (backend w)) as [[[status text]|e] bk1].
  - destruct (negb (status =? 202)).
    { cbn [value events]. intros [= <-]. left. split; reflexivity. }
    destruct (loads text) as [created|]; [|discriminate].
    destruct (Py.subscript created (lit "id")) as [job_id|e]; [|discriminate].
    pose proof (poll_loop_silent return_results job_id bk1) as Hpoll.
    destruct (poll_loop return_results job_id bk1) as [[x bk2] evs_poll].
    cbn [snd] in Hpoll.
    set (started := Request _ :: _).
    assert (Hstarted : payloads started = []).
    { subst started. destruct return_results; reflexivity. }
    destruct x as [mc| |e].
    + pose proof (fetch_loop_spec job_id mc bk2 0 no_counts (sink w) eq_refl) as Hfetch.
      cbn zeta in Hfetch.
      set (fetched := fetch_loop _ _ _ _ _ _ _ _ _) in *.
      destruct (value fetched) as [c1|e] eqn:Hval; [|discriminate].
      pose proof (delete_job_silent job_id (backend (rest fetched))) as Hdel.
      destruct (delete_job job_id (backend (rest fetched))) as [[d bk3] evs_del].
      cbn [snd] in Hdel. cbn [value events].
      destruct d as [[]|e]; [|discriminate].
      intros [= <-].
      destruct Hfetch as [(Hp & Hsame)|(obj & Hshow & Hadd)].
      * left. split; [apply Hsame; reflexivity|].
        rewrite !payloads_app, Hstarted, Hpoll, Hp, Hdel. reflexivity.
      * right. exists obj. destruct (Hadd c1 eq_refl) as (Hpr & Hsent & Hres).
        cbn in Hpr, Hsent, Hres. split; [lia|]. split; [lia|]. split.
        -- rewrite Hres. destruct return_results; reflexivity.
        -- unfold shows in Hshow.
           rewrite !payloads_app, Hstarted, Hpoll, Hshow, Hdel.
           destruct return_results; reflexivity.
    + cbn [value events]. intros [= <-]. left. split; [reflexivity|].
      rewrite payloads_app, Hstarted, Hpoll. reflexivity.
    + discriminate.
  - destruct e; try discriminate.
    cbn [value events]. intros [= <-]. left. split; reflexivity.
Qed.

(** The scan of a page stops at the first message that gives an object. *)
Lemma scan_page_stops pre msg obj evs0 later c sk :
  examine msg = (Ret (Some obj), evs0) ->
  scan_page sqs_queue_url aws_region return_results (pre ++ msg :: later) c sk =
  scan_page sqs_queue_url aws_region return_results (pre ++ [msg]) c sk.
Proof.
  intros Hhit. induction pre as [|m pre IH].
  - cbn [app scan_page]. rewrite Hhit. reflexivity.
  - cbn [app scan_page].
    destruct (examine m) as [[[o|]|e] evs]; [reflexivity| |reflexivity].
    rewrite IH. reflexivity.
Qed.

(** C5.  A call of [_run_one_order] that returns gives a count of results
    of 0 or 1 and a count of deliveries of 0 or 1, the second not above the
    first.  In the scan of a page, the messages after the first one that
    decodes to an object other than [None] are not examined: the scan is
    the scan of the page cut after that message.  Once the scan of a page
    has accepted an object the retrieval returns: it asks for no further
    page and leaves the rest of the backend's script untouched. *)
Theorem at_most_one_result w c :
  value (_run_one_order order_id from_time to_time timezone
                        sqs_queue_url aws_region return_results w) = Ret c ->
  (printed c = 0 \/ printed c = 1)
  /\ (sent_to_sqs c = 0 \/ sent_to_sqs c = 1)
  /\ sent_to_sqs c <= printed c
  /\ (forall pre msg obj evs0 later c0 sk,
        examine msg = (Ret (Some obj), evs0) ->
        scan_page sqs_queue_url aws_region return_results (pre ++ msg :: later) c0 sk =
        scan_page sqs_queue_url aws_region return_results (pre ++ [msg]) c0 sk)
  /\ (forall job_id message_count offset text data messages items c0 c' sk sk' evs bk,
        Py.int_lt offset message_count = Ret true ->
        loads text = Some data ->
        Py.get data (lit "messages") (JList []) = Ret messages ->
        Py.truthy messages = true ->
        Py.iter messages = Ret items ->
        scan_page sqs_queue_url aws_region return_results items c0 sk =
          (Ret c', sk', evs) ->
        0 < printed c' ->
        fetch_loop sqs_queue_url aws_region return_results job_id message_count
                   offset c0 (Answer 200 text :: bk) sk =
        Ran (Ret c') (World bk sk')
            (Request (GetMessages job_id offset MESSAGE_PAGE_SIZE) :: evs)).
Proof.
  intros Hval.
  assert (Hcounts : (printed c = 0 \/ printed c = 1)
                    /\ (sent_to_sqs c = 0 \/ sent_to_sqs c = 1)
                    /\ sent_to_sqs c <= printed c).
  { destruct (run_one_order_spec w c Hval) as [(-> & _)|(obj & Hp & Hs & _)].
    - cbn. lia.
    - lia. }
  destruct Hcounts as (H1 & H2 & H3).
  split; [exact H1|]. split; [exact H2|]. split; [exact H3|]. split.
  - intros. eapply scan_page_stops; eassumption.
  - intros job_id mc offset text data messages items c0 c' sk sk' evs bk
           Hlt Htext Hget Htruthy Hiter Hscan Hpos.
    cbn [fetch_loop]. rewrite Hlt. cbn [answer].
    change (negb (200 =? 200)) with false. cbv iota.
    rewrite Htext, Hget, Htruthy. cbn [negb]. rewrite Hiter, Hscan.
    apply Z.ltb_lt in Hpos. rewrite Hpos. reflexivity.
Qed.

End Counting.

Lemma at_most_one_result_witness :
  (printed (Counts 1 1 []) = 0 \/ printed (Counts 1 1 []) = 1)
  /\ (sent_to_sqs (Counts 1 1 []) = 0 \/ sent_to_sqs (Counts 1 1 []) = 1)
  /\ sent_to_sqs (Counts 1 1 []) <= printed (Counts 1 1 []).
Proof.
  destruct (at_most_one_result (lit "ABC123") (lit "2024-01-01T00:00:00")
              (lit "2024-01-01T23:59:59") (lit "UTC")
              (Some (lit "https://sqs.example/queue")) None false
              Scenario.found_a (Counts 1 1 []))
    as (H1 & H2 & H3 & _); [vm_compute; reflexivity|].
  exact (conj H1 (conj H2 H3)).
Defined.

(** ** What a run can raise *)

Lemma examine_harmless msg : harmless (examine msg).1.
Proof.
  unfold examine.
  repeat match goal with
         | |- context [match ?x with _ => _ end] => destruct x eqn:?
         | |- context [if ?b then _ else _] => destruct b
         end; cbn; try exact I; try reflexivity;
  match goal with
  | H : Py.get _ _ _ = Raise _ |- _ =>
      unfold Py.get in H;
      repeat match type of H with
             | context [match ?x with _ => _ end] => destruct x
             end; inversion H; reflexivity
  end.
Qed.

Lemma next_delivery_benign sk :
  forallb benign_delivery sk = true ->
  benign_delivery (next_delivery sk).1 = true
  /\ forallb benign_delivery (next_delivery sk).2 = true.
Proof.
  destruct sk as [|a sk]; cbn; [auto|].
  intros H. apply andb_prop in H. exact H.
Qed.

Lemma send_harmless u obj region a :
  benign_delivery a = true -> harmless (_send_to_sqs u obj region a).1.
Proof.
  destruct a as [|e| |e]; cbn; try discriminate; try (intros H; exact H);
    try (intros; exact I).
  destruct e; cbn; try (intros H; exact H); try reflexivity.
  intros H. destruct (str_eqb code _); [discriminate|reflexivity].
Qed.

Lemma request_benign bk :
  forallb benign_answer bk = true ->
  harmless (_request bk).1 /\ forallb benign_answer (_request bk).2 = true.
Proof.
  destruct bk as [|a bk]; cbn; [auto|].
  intros H. apply andb_prop in H as [Ha Hbk]. split; [|exact Hbk].
  destruct a; cbn in *; auto.
Qed.

Lemma delete_job_harmless job_id bk :
  forallb benign_answer bk = true ->
  harmless (delete_job job_id bk).1.1
  /\ forallb benign_answer (delete_job job_id bk).1.2 = true.
Proof.
  intros Hbk. unfold delete_job.
  destruct (request_benign bk Hbk) as [Hr Hbk'].
  destruct (_request bk) as [[x|e] bk']; cbn [fst snd] in *; [auto|].
  destruct (is_OSError e); cbn; auto.
Qed.

Lemma next_day_from_time_harmless from_time to_time :
  harmless (_next_day_from_time from_time to_time).
Proof.
  unfold _next_day_from_time. destruct (_ || _); [exact I|].
  destruct (strptime_ymd _) as [d|]; [|exact I].
  unfold next_day. destruct (_ <? _); [reflexivity|exact I].
Qed.

Section Harmless.

Variables (order_id from_time to_time timezone : str).
Variables (sqs_queue_url aws_region : option str).
Variable return_results : bool.

Lemma poll_report_harmless a e :
  benign_answer a = true ->
  (poll_report return_results (answer a)).1 = PollExit (PollRaise e) ->
  is_Exception e = true.
Proof.
  intros Ha. unfold poll_report. destruct a as [status text|e0]; cbn [answer].
  - destruct (negb (status =? 200)); [discriminate|].
    destruct (loads text) as [resp|]; [|intros [= <-]; reflexivity].
    destruct (Py.get resp (lit "state") (JStr [])) as [state|e1] eqn:H1.
    2:{ intros [= <-]. destruct resp; inversion H1; reflexivity. }
    destruct (Py.get resp (lit "messageCount") (JInt 0)) as [mc|e1] eqn:H2.
    2:{ intros [= <-]. destruct resp; inversion H2; reflexivity. }
    destruct (Py.eq_str state _); [discriminate|].
    destruct (Py.ge_int mc 1) as [[|]|e1] eqn:H3; [discriminate| |].
    + destruct (Py.eq_str state _); discriminate.
    + intros [= <-]. destruct mc; inversion H3; reflexivity.
  - cbn in Ha. destruct e0; cbn; intros [= <-]; try reflexivity; discriminate.
Qed.

Lemma poll_loop_harmless job_id bk :
  forallb benign_answer bk = true ->
  forallb benign_answer (poll_loop return_results job_id bk).1.2 = true
  /\ forall e, (poll_loop return_results job_id bk).1.1 = PollRaise e ->
               is_Exception e = true.
Proof.
  induction bk as [|a bk IH]; intros Hbk.
  - cbn. split; [reflexivity|]. intros e [= <-]. reflexivity.
  - cbn [forallb] in Hbk. apply andb_prop in Hbk as [Ha Hbk].
    cbn [poll_loop].
    destruct (poll_report return_results (answer a)) as [step evs] eqn:Hrep.
    destruct step as [|x].
    + specialize (IH Hbk).
      destruct (poll_loop return_results job_id bk) as [[x bk''] evs'].
      exact IH.
    + cbn [fst snd]. split; [exact Hbk|]. intros e ->.
      apply (poll_report_harmless a e Ha). rewrite Hrep. reflexivity.
Qed.

Lemma accept_harmless obj c sk :
  forallb benign_delivery sk = true ->
  harmless (accept sqs_queue_url aws_region return_results obj c sk).1.1
  /\ forallb benign_delivery
       (accept sqs_queue_url aws_region return_results obj c sk).1.2 = true.
Proof.
  intros Hsk. unfold accept.
  destruct sqs_queue_url as [[|u rl]|]; [cbn; auto| |cbn; auto].
  destruct (next_delivery_benign sk Hsk) as [Ha Hsk'].
  destruct (next_delivery sk) as [a sk']. cbn [fst snd] in *.
  pose proof (send_harmless (u :: rl) obj aws_region a Ha) as Hsend.
  destruct (_send_to_sqs (u :: rl) obj aws_region a) as [[b|e] evs];
    cbn [fst] in Hsend.
  - cbn. auto.
  - cbn in Hsend. rewrite Hsend. cbn. auto.
Qed.

Lemma scan_page_harmless messages c sk :
  forallb benign_delivery sk = true ->
  harmless (scan_page sqs_queue_url aws_region return_results messages c sk).1.1
  /\ forallb benign_delivery
       (scan_page sqs_queue_url aws_region return_results messages c sk).1.2 = true.
Proof.
  intros Hsk. induction messages as [|msg messages IH]; [cbn; auto|].
  cbn [scan_page]. pose proof (examine_harmless msg) as Hex.
  destruct (examine msg) as [[[obj|]|e] evs]; cbn [fst] in Hex.
  - pose proof (accept_harmless obj c sk Hsk) as Hacc.
    destruct (accept _ _ _ obj c sk) as [[r sk'] evs']. exact Hacc.
  - destruct (scan_page _ _ _ messages c sk) as [[r sk'] evs']. exact IH.
  - cbn. auto.
Qed.

Lemma fetch_loop_harmless job_id message_count bk :
  forall offset c sk,
    forallb benign_answer bk = true ->
    forallb benign_delivery sk = true ->
    let f := fetch_loop sqs_queue_url aws_region return_results job_id message_count
               offset c bk sk in
    harmless (value f) /\ benign (rest f) = true.
Proof.
  unfold benign.
  induction bk as [|a bk IH]; intros offset c sk Hbk Hsk; cbn zeta; cbn [fetch_loop].
  - destruct (Py.int_lt offset message_count) as [[|]|e] eqn:Hlt; cbn;
      rewrite ?Hsk; auto.
    split; [|reflexivity]. destruct message_count; inversion Hlt; reflexivity.
  - cbn [forallb] in Hbk. apply andb_prop in Hbk as [Ha Hbk].
    destruct (Py.int_lt offset message_count) as [[|]|e] eqn:Hlt.
    + destruct a as [status text|e]; cbn [answer].
      * destruct (negb (status =? 200)); [cbn; rewrite Hbk, Hsk; auto|].
        destruct (loads text) as [data|]; [|cbn; rewrite Hbk, Hsk; auto].
        destruct (Py.get data (lit "messages") (JList [])) as [messages|e] eqn:Hget.
        2:{ cbn. rewrite Hbk, Hsk. split; [|reflexivity].
            destruct data; inversion Hget; reflexivity. }
        destruct (negb (Py.truthy messages)); [cbn; rewrite Hbk, Hsk; auto|].
        destruct (Py.iter messages) as [items|e] eqn:Hiter.
        2:{ cbn. rewrite Hbk, Hsk. split; [|reflexivity].
            destruct messages; inversion Hiter; reflexivity. }
        pose proof (scan_page_harmless items c sk Hsk) as [Hr Hsk'].
        destruct (scan_page _ _ _ items c sk) as [[r sk'] evs].
        cbn [fst snd] in Hr, Hsk'.
        destruct r as [c'|e].
        -- destruct (0 <? printed c'); [cbn; rewrite Hbk, Hsk'; auto|].
           unfold after. cbn [value rest]. apply IH; assumption.
        -- cbn. rewrite Hbk, Hsk'. auto.
      * cbn in Ha. destruct e; cbn; rewrite Hbk, Hsk; auto.
    + cbn. rewrite Ha, Hbk, Hsk. auto.
    + cbn. rewrite Ha, Hbk, Hsk. split; [|reflexivity].
      destruct message_count; inversion Hlt; reflexivity.
Qed.

(** On a benign world a run raises nothing but an [Exception], and leaves
    a benign world. *)
Lemma run_one_order_harmless w :
  benign w = true ->
  let r := _run_one_order order_id from_time to_time timezone
                          sqs_queue_url aws_region return_results w in
  harmless (value r) /\ benign (rest r) = true.
Proof.
  unfold benign at 1. intros Hw. apply andb_prop in Hw as [Hbk Hsk].
  cbn zeta. unfold _run_one_order.
  destruct (request_benign _ Hbk) as [Hr Hbk1].
  destruct (_request (backend w)) as [[[status text]|e] bk1];
    cbn [fst snd] in Hr, Hbk1.
  - assert (Hb1 : benign (World bk1 (sink w)) = true).
    { unfold benign. cbn. rewrite Hbk1, Hsk. reflexivity. }
    destruct (negb (status =? 202)); [cbn [value rest]; split; [exact I|exact Hb1]|].
    destruct (loads text) as [created|];
      [|cbn [value rest]; split; [reflexivity|exact Hb1]].
    destruct (Py.subscript created (lit "id")) as [job_id|e] eqn:Hid.
    2:{ cbn [value rest]. split; [|exact Hb1].
        unfold Py.subscript in Hid. destruct created; inversion Hid; try reflexivity.
        destruct (Py.dict_get _ _); inversion Hid. reflexivity. }
    destruct (poll_loop_harmless job_id bk1 Hbk1) as [Hbk2 Hx].
    destruct (poll_loop return_results job_id bk1) as [[x bk2] evs_poll].
    cbn [fst snd] in Hbk2, Hx.
    assert (Hb2 : benign (World bk2 (sink w)) = true).
    { unfold benign. cbn. rewrite Hbk2, Hsk. reflexivity. }
    destruct x as [mc| |e].
    + destruct (fetch_loop_harmless job_id mc bk2 0 no_counts (sink w) Hbk2 Hsk)
        as [Hv Hrest].
      set (fetched := fetch_loop _ _ _ _ _ _ _ _ _) in *.
      destruct (value fetched) as [c|e]; [|cbn [value rest]; auto].
      unfold benign in Hrest. apply andb_prop in Hrest as [Hbk3 Hsk3].
      destruct (delete_job_harmless job_id _ Hbk3) as [Hd Hbk4].
      destruct (delete_job job_id (backend (rest fetched))) as [[d bk3] evs_del].
      cbn [fst snd] in Hd, Hbk4. cbn [value rest]. split.
      * destruct d; [exact I|exact Hd].
      * unfold benign. cbn. rewrite Hbk4, Hsk3. reflexivity.
    + cbn [value rest]. split; [exact I|exact Hb2].
    + cbn [value rest]. split; [apply Hx; reflexivity|exact Hb2].
  - assert (Hb1 : benign (World bk1 (sink w)) = true).
    { unfold benign. cbn. rewrite Hbk1, Hsk. reflexivity. }
    destruct e; cbn [value rest]; split; try exact Hb1; try exact I; exact Hr.
Qed.

End Harmless.

Section Task.

Variables (order_id from_time to_time timezone : str).
Variables (sqs_queue_url aws_region : option str).

Lemma task_harmless w :
  benign w = true ->
  harmless (value (RunConcurrent._run_one_order_task order_id from_time to_time
                     timezone sqs_queue_url aws_region w)).
Proof.
  intros Hw. unfold RunConcurrent._run_one_order_task.
  destruct (run_one_order_harmless order_id from_time to_time timezone
              sqs_queue_url aws_region true w Hw) as [H1 Hrest].
  set (r1 := _run_one_order _ _ _ _ _ _ _ w) in *.
  destruct (value r1) as [c|e] eqn:Hv1; cbn [value].
  - destruct (printed c =? 0); [|rewrite Hv1; exact I].
    pose proof (next_day_from_time_harmless from_time to_time) as Hnd.
    destruct (_next_day_from_time from_time to_time) as [[[nf nt]|]|e].
    + unfold after. cbn [value].
      destruct (run_one_order_harmless order_id nf nt timezone
                  sqs_queue_url aws_region true (rest r1) Hrest) as [H2 _].
      destruct (value (_run_one_order _ nf nt _ _ _ _ _)); [exact I|exact H2].
    + rewrite Hv1. exact I.
    + cbn [value]. exact Hnd.
  - rewrite Hv1. exact H1.
Qed.

(** A task that returns counts as many results as it returns. *)
Lemma task_counts w o c :
  value (RunConcurrent._run_one_order_task order_id from_time to_time timezone
           sqs_queue_url aws_region w) = Ret (o, c) ->
  printed c = Z.of_nat (length (results_list c)).
Proof.
  assert (Hspec : forall f t w' c',
            value (_run_one_order order_id f t timezone sqs_queue_url aws_region
                                  true w') = Ret c' ->
            printed c' = Z.of_nat (length (results_list c'))).
  { intros f t w' c' Hv.
    destruct (run_one_order_spec order_id f t timezone sqs_queue_url aws_region true
                w' c' Hv) as [(-> & _)|(obj & Hp & _ & Hr & _)].
    - reflexivity.
    - rewrite Hp, Hr. reflexivity. }
  unfold RunConcurrent._run_one_order_task.
  set (r1 := _run_one_order _ _ _ _ _ _ _ w) in *.
  destruct (value r1) as [c1|e] eqn:Hv1; cbn [value].
  - destruct (printed c1 =? 0).
    + destruct (_next_day_from_time from_time to_time) as [[[nf nt]|]|e].
      * unfold after. cbn [value].
        destruct (value (_run_one_order _ nf nt _ _ _ _ _)) as [c2|e] eqn:Hv2;
          [|discriminate].
        intros [= <- <-]. eapply Hspec. exact Hv2.
      * rewrite Hv1. intros [= <- <-]. eapply Hspec. exact Hv1.
      * discriminate.
    + rewrite Hv1. intros [= <- <-]. eapply Hspec. exact Hv1.
  - rewrite Hv1. discriminate.
Qed.

End Task.

(** ** The batch *)

Lemma flat_map_agree {A B} (f g : A -> list B) l :
  (forall x, x ∈ l -> f x = g x) -> flat_map f l = flat_map g l.
Proof.
  induction l as [|x l IH]; intros H; [reflexivity|].
  cbn. rewrite (H x ltac:(left)), IH; [reflexivity|].
  intros y Hy. apply H. right. exact Hy.
Qed.

(** The rows that are kept have a date, and the reading writes nothing to
    the primary stream. *)
Lemma read_rows_spec i csv :
  Forall (fun r : str * str => is_Some (strptime_ymd r.2)) (read_rows i csv).1
  /\ payloads (read_rows i csv).2 = [].
Proof.
  revert i. induction csv as [|row csv IH]; intros i; [cbn; auto|].
  cbn [read_rows]. specialize (IH (i + 1)).
  destruct (read_rows (i + 1) csv) as [kept evs]. cbn [fst snd] in IH.
  destruct IH as [IH1 IH2].
  destruct row as [|c0 [|c1 row]]; [auto|auto|].
  destruct (strip c0); [auto|]. destruct (strip c1) as [|d ds] eqn:Hd; [auto|].
  destruct (_ && _); [auto|].
  destruct (strptime_ymd (d :: ds)) eqn:Hp; cbn [fst snd].
  - split; [|exact IH2]. constructor; [|exact IH1]. cbn [snd]. rewrite Hp. eauto.
  - split; [exact IH1|]. rewrite payloads_cons, IH2. reflexivity.
Qed.

Section Batch.

Variables (a : RunConcurrent.args) (rows : list (str * str)).
Variable task_world : nat -> world.

Lemma benign_not_fatal i :
  benign (task_world i) = true -> fatal a rows task_world i = false.
Proof.
  intros Hb. unfold fatal, RunConcurrent.task.
  destruct (rows !! i) as [[order_id date_str]|]; [|reflexivity].
  destruct (strptime_ymd date_str) as [d|]; [|reflexivity].
  unfold day_window.
  pose proof (task_harmless order_id (isoformat d ++ lit "T00:00:00")
                (isoformat d ++ lit "T23:59:59") (RunConcurrent.timezone a)
                (RunConcurrent.sqs_queue_url a) (RunConcurrent.aws_region a)
                (task_world i) Hb) as Hh.
  destruct (value _) as [x|e]; [reflexivity|]. cbn in Hh. rewrite Hh. reflexivity.
Qed.

Lemma recorded_balanced i e :
  recorded a rows task_world i = Some e -> balanced e.
Proof.
  unfold recorded, RunConcurrent.task.
  destruct (rows !! i) as [[order_id date_str]|]; [|discriminate].
  destruct (strptime_ymd date_str) as [d|]; [|discriminate].
  unfold day_window.
  destruct (value _) as [[o c]|ex] eqn:Hv; intros [= <-]; unfold balanced; cbn.
  - eapply task_counts. exact Hv.
  - reflexivity.
Qed.

Lemma collect_silent completion m :
  payloads (RunConcurrent.collect a rows task_world completion m).2 = [].
Proof.
  revert m. induction completion as [|i completion IH]; intros m; [reflexivity|].
  cbn [RunConcurrent.collect].
  destruct (rows !! i) as [[order_id date_str]|]; [|apply IH].
  destruct (RunConcurrent.task a rows task_world i) as [t|]; [|apply IH].
  destruct (value t) as [[o c]|e].
  - specialize (IH (<[i:=(order_id, printed c, sent_to_sqs c, results_list c)]> m)).
    destruct (RunConcurrent.collect _ _ _ completion _) as [r evs]. cbn [snd] in *.
    rewrite payloads_cons, IH. destruct (printed c =? 0); reflexivity.
  - destruct (is_Exception e); [|reflexivity].
    specialize (IH (<[i:=(order_id, 0, 0, [])]> m)).
    destruct (RunConcurrent.collect _ _ _ completion _) as [r evs]. cbn [snd] in *.
    rewrite payloads_cons, IH. reflexivity.
Qed.

(** The three ways the loop treats the future it is handed. *)
Lemma collect_pass i completion m :
  recorded a rows task_world i = None ->
  RunConcurrent.collect a rows task_world (i :: completion) m =
  RunConcurrent.collect a rows task_world completion m.
Proof.
  unfold recorded. cbn [RunConcurrent.collect].
  destruct (rows !! i) as [[order_id date_str]|]; [|reflexivity].
  destruct (RunConcurrent.task a rows task_world i); [discriminate|reflexivity].
Qed.

Lemma collect_record i e completion m :
  recorded a rows task_world i = Some e ->
  fatal a rows task_world i = false ->
  (RunConcurrent.collect a rows task_world (i :: completion) m).1 =
  (RunConcurrent.collect a rows task_world completion (<[i:=e]> m)).1.
Proof.
  unfold recorded, fatal. cbn [RunConcurrent.collect].
  destruct (rows !! i) as [[order_id date_str]|]; [|discriminate].
  destruct (RunConcurrent.task a rows task_world i) as [t|]; [|discriminate].
  destruct (value t) as [[o c]|ex].
  - intros [= <-] _. destruct (RunConcurrent.collect _ _ _ completion _). reflexivity.
  - intros [= <-] Hex. apply negb_false_iff in Hex. rewrite Hex.
    destruct (RunConcurrent.collect _ _ _ completion _). reflexivity.
Qed.

Lemma collect_abort i e completion m :
  recorded a rows task_world i = Some e ->
  fatal a rows task_world i = true ->
  exists ex, (RunConcurrent.collect a rows task_world (i :: completion) m).1 = Raise ex
             /\ is_Exception ex = false.
Proof.
  unfold recorded, fatal. cbn [RunConcurrent.collect].
  destruct (rows !! i) as [[order_id date_str]|]; [|discriminate].
  destruct (RunConcurrent.task a rows task_world i) as [t|]; [|discriminate].
  destruct (value t) as [[o c]|ex]; [discriminate|].
  intros _ Hex. apply negb_true_iff in Hex. rewrite Hex. eauto.
Qed.

Lemma collect_balanced completion :
  forall m m',
    (forall i e, m !! i = Some e -> balanced e) ->
    (RunConcurrent.collect a rows task_world completion m).1 = Ret m' ->
    forall i e, m' !! i = Some e -> balanced e.
Proof.
  induction completion as [|k completion IH]; intros m m' Hm.
  - cbn. intros [= <-]. exact Hm.
  - destruct (recorded a rows task_world k) as [e|] eqn:Hrec.
    + destruct (fatal a rows task_world k) eqn:Hf.
      * destruct (collect_abort k e completion m Hrec Hf) as (ex & Hex & _).
        rewrite Hex. discriminate.
      * rewrite (collect_record k e completion m Hrec Hf).
        apply IH. intros i e'. rewrite lookup_insert.
        destruct (decide (k = i)) as [->|_]; [|apply Hm].
        intros [= <-]. eapply recorded_balanced. exact Hrec.
    + rewrite (collect_pass k completion m Hrec). apply IH. exact Hm.
Qed.

(** When no task is fatal the loop fills the table with what each task is
    to be recorded as. *)
Lemma collect_ok completion :
  (forall i, i ∈ completion -> fatal a rows task_world i = false) ->
  forall m,
  exists m', (RunConcurrent.collect a rows task_world completion m).1 = Ret m'
    /\ forall j, m' !! j =
         if decide (j ∈ completion)
         then match recorded a rows task_world j with
              | Some e => Some e
              | None => m !! j
              end
         else m !! j.
Proof.
  induction completion as [|i completion IH]; intros Hok m.
  - exists m. split; [reflexivity|]. intros j.
    destruct (decide (j ∈ [])) as [Hin|_]; [inversion Hin|reflexivity].
  - assert (Hok' : forall k, k ∈ completion -> fatal a rows task_world k = false).
    { intros k Hk. apply Hok. right. exact Hk. }
    specialize (IH Hok').
    destruct (recorded a rows task_world i) as [e|] eqn:Hrec.
    + destruct (IH (<[i:=e]> m)) as (m' & Hm' & Hlook).
      exists m'. split.
      { rewrite (collect_record i e) by (try apply Hok; try left; auto). exact Hm'. }
      intros j. rewrite Hlook.
      destruct (decide (j = i)) as [->|Hne].
      * rewrite Hrec, lookup_insert_eq.
        destruct (decide (i ∈ completion)), (decide (i ∈ i :: completion)) as [|Hn];
          try reflexivity; exfalso; apply Hn; left.
      * rewrite lookup_insert_ne by congruence.
        destruct (decide (j ∈ completion)) as [Hin|Hnin],
                 (decide (j ∈ i :: completion)) as [Hin'|Hnin']; try reflexivity.
        -- exfalso. apply Hnin'. right. exact Hin.
        -- exfalso. apply elem_of_cons in Hin' as [?|?]; [congruence|contradiction].
    + destruct (IH m) as (m' & Hm' & Hlook).
      exists m'. split; [rewrite collect_pass by assumption; exact Hm'|].
      intros j. rewrite Hlook.
      destruct (decide (j = i)) as [->|Hne].
      * rewrite Hrec.
        destruct (decide (i ∈ completion)), (decide (i ∈ i :: completion));
          reflexivity.
      * destruct (decide (j ∈ completion)) as [Hin|Hnin],
                 (decide (j ∈ i :: completion)) as [Hin'|Hnin']; try reflexivity.
        -- exfalso. apply Hnin'. right. exact Hin.
        -- exfalso. apply elem_of_cons in Hin' as [?|?]; [congruence|contradiction].
Qed.

Hypothesis rows_valid :
  Forall (fun r : str * str => is_Some (strptime_ymd r.2)) rows.

Lemma task_is_Some i :
  (i < length rows)%nat -> is_Some (RunConcurrent.task a rows task_world i).
Proof.
  intros Hi. unfold RunConcurrent.task.
  destruct (lookup_lt_is_Some_2 rows i Hi) as [[order_id date_str] Hrow].
  rewrite Hrow.
  pose proof (proj1 (Forall_lookup _ _) rows_valid i _ Hrow) as [d Hd].
  cbn in Hd. rewrite Hd. unfold day_window. eauto.
Qed.

Lemma recorded_is_Some i :
  (i < length rows)%nat -> is_Some (recorded a rows task_world i).
Proof.
  intros Hi. unfold recorded.
  destruct (lookup_lt_is_Some_2 rows i Hi) as [[order_id date_str] Hrow].
  destruct (task_is_Some i Hi) as [t Ht]. rewrite Hrow, Ht. eauto.
Qed.

(** A fatal task stops the loop, wherever it comes in the order of
    completion. *)
Lemma collect_fatal completion m i :
  i ∈ completion -> (i < length rows)%nat -> fatal a rows task_world i = true ->
  exists e, (RunConcurrent.collect a rows task_world completion m).1 = Raise e
            /\ is_Exception e = false.
Proof.
  intros Hin Hi Hfatal. revert m.
  induction completion as [|j completion IH]; intros m; [inversion Hin|].
  destruct (decide (fatal a rows task_world j = true)) as [Hfj|Hfj].
  - assert (Hj : is_Some (recorded a rows task_world j)).
    { unfold recorded. unfold fatal in Hfj.
      destruct (RunConcurrent.task a rows task_world j) as [t|] eqn:Ht;
        [|discriminate].
      unfold RunConcurrent.task in Ht.
      destruct (rows !! j) as [[order_id date_str]|]; [eauto|discriminate]. }
    destruct Hj as [e He]. apply (collect_abort j e completion m He Hfj).
  - apply not_true_is_false in Hfj.
    assert (Hin' : i ∈ completion).
    { apply elem_of_cons in Hin as [->|Hin]; [congruence|exact Hin]. }
    destruct (recorded a rows task_world j) as [e|] eqn:Hrec.
    + rewrite (collect_record j e completion m Hrec Hfj). apply IH. exact Hin'.
    + rewrite (collect_pass j completion m Hrec). apply IH. exact Hin'.
Qed.

End Batch.

Lemma emit_ok indices m :
  (forall i, i ∈ indices -> is_Some (m !! i)) ->
  forall tp ts nf,
  exists x, (RunConcurrent.emit indices m tp ts nf).1 = Ret x
    /\ payloads (RunConcurrent.emit indices m tp ts nf).2 = flat_map (stored m) indices.
Proof.
  induction indices as [|i indices IH]; intros Hall tp ts nf.
  - eexists. split; reflexivity.
  - cbn [RunConcurrent.emit flat_map]. unfold stored at 1.
    destruct (Hall i ltac:(left)) as [[[[order_id p] s] results] Hi]. rewrite Hi.
    destruct (IH (fun k Hk => Hall k ltac:(right; exact Hk)) (tp + p) (ts + s)
                 (if p =? 0 then nf ++ [order_id] else nf)) as (x & Hx & Hpay).
    destruct (RunConcurrent.emit indices m _ _ _) as [r evs]. cbn [fst snd] in *.
    exists x. split; [exact Hx|].
    rewrite payloads_app, payloads_of_results, Hpay. reflexivity.
Qed.

Lemma emit_total indices m :
  (forall i e, m !! i = Some e -> balanced e) ->
  forall tp ts nf tp' ts' nf',
    (RunConcurrent.emit indices m tp ts nf).1 = Ret (tp', ts', nf') ->
    tp' = tp + Z.of_nat (length (payloads (RunConcurrent.emit indices m tp ts nf).2)).
Proof.
  intros Hm. induction indices as [|i indices IH]; intros tp ts nf tp' ts' nf'.
  - cbn. intros [= <- <- <-]. lia.
  - cbn [RunConcurrent.emit].
    destruct (m !! i) as [[[[order_id p] s] results]|] eqn:Hi; [|discriminate].
    specialize (IH (tp + p) (ts + s) (if p =? 0 then nf ++ [order_id] else nf)
                   tp' ts' nf').
    destruct (RunConcurrent.emit indices m _ _ _) as [r evs]. cbn [fst snd] in *.
    intros Hr. specialize (IH Hr).
    pose proof (Hm _ _ Hi) as Hb. unfold balanced in Hb. cbn in Hb.
    rewrite payloads_app, payloads_of_results, length_app. lia.
Qed.

(** C1, as amended.  Past its checks, with one worker or more, and whatever
    the order in which the tasks complete, the runner prints on the primary
    stream the results of the orders in the order of the input rows (an
    order whose run raised an [Exception] has none) when no task ends in an
    exception that is not an [Exception]; when one does, it prints no
    payload at all. *)
Theorem emission_follows_input_order a task_world completion csv :
  configured a csv ->
  let rows := (_read_csv_order_dates csv).1 in
  completion ≡ₚ seq 0 (length rows) ->
  payloads (RunConcurrent.main a task_world completion).2 =
    if existsb (fatal a rows task_world) (seq 0 (length rows)) then []
    else flat_map (results_at a rows task_world) (seq 0 (length rows)).
Proof.
  intros (Hid & Hkey & Hfile & Hworkers) rows Hperm.
  pose proof (read_rows_spec 0 csv) as [Hvalid Hwarn].
  unfold RunConcurrent.main. rewrite Hid, Hkey, Hfile. cbn [negb orb].
  subst rows. unfold _read_csv_order_dates in *.
  destruct (read_rows 0 csv) as [rows warnings]. cbn [fst snd] in *.
  destruct rows as [|row0 rows'].
  { cbn. rewrite payloads_app, Hwarn. reflexivity. }
  cbv iota. set (rows := row0 :: rows') in *. clearbody rows.
  destruct (Z.leb_spec (RunConcurrent.workers a) 0) as [|_]; [lia|].
  assert (Hcheck : forallb (fun r : str * str =>
                              bool_decide (is_Some (strptime_ymd r.2))) rows = true).
  { apply forallb_forall. intros r Hr. apply bool_decide_eq_true.
    apply (proj1 (Forall_forall _ _) Hvalid). apply list_elem_of_In. exact Hr. }
  rewrite Hcheck. cbn [negb].
  assert (Hrun : forall evs,
            payloads ((warnings ++
                       [Stderr (Running (Z.of_nat (length rows))
                                        (RunConcurrent.workers a))]) ++ evs) =
            payloads evs).
  { intros evs. rewrite !payloads_app, Hwarn. reflexivity. }
  pose proof (collect_silent a rows task_world completion ∅) as Hsilent.
  destruct (existsb (fatal a rows task_world) (seq 0 (length rows))) eqn:Hfatal.
  - apply existsb_exists in Hfatal as (i & Hi & Hfi).
    apply in_seq in Hi.
    assert (Hin : i ∈ completion).
    { rewrite Hperm. apply list_elem_of_In, in_seq. exact Hi. }
    destruct (collect_fatal a rows task_world completion ∅ i Hin ltac:(lia) Hfi)
      as (e & He & _).
    revert He Hsilent.
    destruct (RunConcurrent.collect a rows task_world completion ∅) as [r evs].
    cbn [fst snd]. intros -> Hsilent. cbn [snd]. rewrite Hrun. exact Hsilent.
  - assert (Hnone : forall i, i ∈ completion -> fatal a rows task_world i = false).
    { intros i Hi. rewrite Hperm in Hi. apply list_elem_of_In in Hi.
      destruct (fatal a rows task_world i) eqn:Hf; [|reflexivity].
      rewrite <- Hfatal. symmetry. apply existsb_exists. eauto. }
    destruct (collect_ok a rows task_world completion Hnone ∅) as (m & Hm & Hlook).
    revert Hm Hsilent.
    destruct (RunConcurrent.collect a rows task_world completion ∅) as [r evs].
    cbn [fst snd]. intros -> Hsilent.
    assert (Hm_i : forall i, i ∈ seq 0 (length rows) ->
                     m !! i = recorded a rows task_world i
                     /\ is_Some (recorded a rows task_world i)).
    { intros i Hi. apply list_elem_of_In in Hi as Hi'. apply in_seq in Hi'.
      destruct (recorded_is_Some a rows task_world Hvalid i ltac:(lia)) as [e He].
      rewrite Hlook, He. rewrite <- Hperm in Hi.
      destruct (decide (i ∈ completion)); [eauto|contradiction]. }
    destruct (emit_ok (seq 0 (length rows)) m
                (fun i Hi => eq_ind_r is_Some (proj2 (Hm_i i Hi)) (proj1 (Hm_i i Hi)))
                0 0 []) as (x & Hx & Hpay).
    revert Hx Hpay.
    destruct (RunConcurrent.emit (seq 0 (length rows)) m 0 0 []) as [r evs'].
    cbn [fst snd]. intros -> Hpay. destruct x as [[tp ts] nf]. cbn [snd].
    rewrite Hrun, !payloads_app, Hsilent, Hpay.
    replace (payloads match nf with
                      | [] => []
                      | _ :: _ => [Stderr EmptyLine; Stderr (NotFoundIds nf)]
                      end) with (@nil json) by (destruct nf; reflexivity).
    cbn [app]. rewrite app_nil_r.
    apply flat_map_agree. intros i Hi.
    unfold stored, results_at. rewrite (proj1 (Hm_i i Hi)). reflexivity.
Qed.

(** The second task completes first; the payloads come out in the order of
    the rows. *)
Lemma emission_order_witness :
  payloads (RunConcurrent.main Scenario.batch Scenario.both_found [1; 0]%nat).2 =
  [Scenario.object_a; Scenario.object_b].
Proof.
  rewrite (emission_follows_input_order Scenario.batch Scenario.both_found
             [1; 0]%nat Scenario.two_orders).
  - vm_compute. reflexivity.
  - repeat split; vm_compute; congruence.
  - vm_compute. apply perm_swap.
Defined.

(** The task of the first order meets a missing queue: nothing is printed,
    though the second order has a result. *)
Lemma emission_lost_on_sink_exit :
  payloads (RunConcurrent.main Scenario.batch Scenario.first_queue_missing
              [1; 0]%nat).2 = []
  /\ results_at Scenario.batch (_read_csv_order_dates Scenario.two_orders).1
                Scenario.first_queue_missing 1 = [Scenario.object_b]
  /\ payloads (RunConcurrent.main Scenario.batch Scenario.first_queue_missing
                 [1; 0]%nat).2
     <> flat_map (results_at Scenario.batch
                    (_read_csv_order_dates Scenario.two_orders).1
                    Scenario.first_queue_missing) (seq 0 2).
Proof.
  split; [vm_compute; reflexivity|]. split; [vm_compute; reflexivity|].
  vm_compute. discriminate.
Qed.

(** C9, as amended.  Transport and backend failures, and every failure of
    the sink but a missing client library and a missing queue, make a
    worker's run return or raise an [Exception], never more.  When no
    worker's run ends in an exception that is not an [Exception], the
    orchestrator records for every task its own results, or the error
    outcome (0 results, 0 deliveries, nothing to print) when its run
    raised, and the batch runs to its end. *)
Theorem worker_failures_contained a task_world completion csv :
  configured a csv ->
  let rows := (_read_csv_order_dates csv).1 in
  completion ≡ₚ seq 0 (length rows) ->
  (forall i, benign (task_world i) = true -> fatal a rows task_world i = false)
  /\ ((forall i, (i < length rows)%nat -> fatal a rows task_world i = false) ->
      (exists code, (RunConcurrent.main a task_world completion).1 = Ret code)
      /\ exists m,
           (RunConcurrent.collect a rows task_world completion ∅).1 = Ret m
           /\ forall i order_id date_str t,
                rows !! i = Some (order_id, date_str) ->
                RunConcurrent.task a rows task_world i = Some t ->
                m !! i =
                Some match value t with
                     | Ret (_, c) =>
                         (order_id, printed c, sent_to_sqs c, results_list c)
                     | Raise _ => (order_id, 0, 0, [])
                     end).
Proof.
  intros (Hid & Hkey & Hfile & Hworkers) rows Hperm.
  split; [intros i; apply benign_not_fatal|].
  intros Hnone.
  pose proof (read_rows_spec 0 csv) as [Hvalid _].
  fold (_read_csv_order_dates csv) in Hvalid. fold rows in Hvalid.
  assert (Hnone' : forall i, i ∈ completion -> fatal a rows task_world i = false).
  { intros i Hi. rewrite Hperm in Hi. apply list_elem_of_In, in_seq in Hi.
    apply Hnone. lia. }
  destruct (collect_ok a rows task_world completion Hnone' ∅) as (m & Hm & Hlook).
  assert (Hm_i : forall i, i ∈ seq 0 (length rows) ->
                   m !! i = recorded a rows task_world i
                   /\ is_Some (recorded a rows task_world i)).
  { intros i Hi. apply list_elem_of_In in Hi as Hi'. apply in_seq in Hi'.
    destruct (recorded_is_Some a rows task_world Hvalid i ltac:(lia)) as [e He].
    rewrite Hlook, He. rewrite <- Hperm in Hi.
    destruct (decide (i ∈ completion)); [eauto|contradiction]. }
  split.
  - unfold RunConcurrent.main. rewrite Hid, Hkey, Hfile. cbn [negb orb].
    subst rows. unfold _read_csv_order_dates in *.
    destruct (read_rows 0 csv) as [rows warnings]. cbn [fst snd] in *.
    destruct rows as [|row0 rows']; [eexists; reflexivity|].
    cbv iota. set (rows := row0 :: rows') in *. clearbody rows.
    destruct (Z.leb_spec (RunConcurrent.workers a) 0) as [|_]; [lia|].
    assert (Hcheck : forallb (fun r : str * str =>
                                bool_decide (is_Some (strptime_ymd r.2))) rows = true).
    { apply forallb_forall. intros r Hr. apply bool_decide_eq_true.
      apply (proj1 (Forall_forall _ _) Hvalid). apply list_elem_of_In. exact Hr. }
    rewrite Hcheck. cbn [negb].
    revert Hm. destruct (RunConcurrent.collect a rows task_world completion ∅) as [r evs].
    cbn [fst]. intros ->.
    destruct (emit_ok (seq 0 (length rows)) m
                (fun i Hi => eq_ind_r is_Some (proj2 (Hm_i i Hi)) (proj1 (Hm_i i Hi)))
                0 0 []) as (x & Hx & _).
    revert Hx. destruct (RunConcurrent.emit (seq 0 (length rows)) m 0 0 []) as [r evs'].
    cbn [fst]. intros ->. destruct x as [[tp ts] nf]. eexists. reflexivity.
  - exists m. split; [exact Hm|].
    intros i order_id date_str t Hrow Ht.
    assert (Hi : i ∈ seq 0 (length rows)).
    { apply list_elem_of_In, in_seq. apply lookup_lt_Some in Hrow. lia. }
    rewrite (proj1 (Hm_i i Hi)). unfold recorded. rewrite Hrow, Ht. reflexivity.
Qed.

(** The backend cannot be reached for the first order: its task raises, the
    second order is found, and the batch ends with status 0. *)
Lemma worker_failure_witness :
  fatal Scenario.batch (_read_csv_order_dates Scenario.two_orders).1
        Scenario.first_unreachable 0 = false
  /\ exists code,
       (RunConcurrent.main Scenario.batch Scenario.first_unreachable [1; 0]%nat).1 =
       Ret code.
Proof.
  destruct (worker_failures_contained Scenario.batch Scenario.first_unreachable
              [1; 0]%nat Scenario.two_orders) as [Hbenign Hrun].
  - repeat split; vm_compute; congruence.
  - vm_compute. apply perm_swap.
  - split.
    + apply Hbenign. vm_compute. reflexivity.
    + apply Hrun. intros i Hi. apply Hbenign.
      destruct i as [|[|i]]; vm_compute; reflexivity.
Defined.

(** A missing queue met by the task of the first order is not caught: the
    [SystemExit] leaves the runner, and the batch has no end of its own. *)
Lemma sink_exit_escapes_orchestrator :
  (exists t,
     RunConcurrent.task Scenario.batch (_read_csv_order_dates Scenario.two_orders).1
                        Scenario.first_queue_missing 0 = Some t
     /\ value t = Raise (SystemExit 1))
  /\ (RunConcurrent.main Scenario.batch Scenario.first_queue_missing [0; 1]%nat).1 =
     Raise (SystemExit 1)
  /\ ~ exists code,
         (RunConcurrent.main Scenario.batch Scenario.first_queue_missing
            [0; 1]%nat).1 = Ret code.
Proof.
  split; [eexists; split; vm_compute; reflexivity|].
  split; [vm_compute; reflexivity|].
  intros [code H]. vm_compute in H. discriminate.
Qed.

(** ** The exit status *)

Section Tally.

Variables (timezone : str) (sqs_queue_url aws_region : option str).

(** A run that prints its results counts what it prints. *)
Lemma run_tally order_id from_time to_time w c :
  let r := _run_one_order order_id from_time to_time timezone
                          sqs_queue_url aws_region false w in
  value r = Ret c ->
  printed c = Z.of_nat (length (payloads (events r))).
Proof.
  cbn zeta. intros Hv.
  destruct (run_one_order_spec order_id from_time to_time timezone sqs_queue_url
              aws_region false w c Hv) as [(-> & Hp)|(obj & Hpr & _ & _ & Hp)];
    rewrite Hp; [reflexivity|exact Hpr].
Qed.

(** An order and its retry, as the two sequential loops run them. *)
Lemma retried_tally order_id from_time to_time w c (r2 : ran counts) note c' :
  let r1 := _run_one_order order_id from_time to_time timezone
                           sqs_queue_url aws_region false w in
  value r1 = Ret c ->
  printed c = 0 ->
  payloads note = [] ->
  (forall c2, value r2 = Ret c2 ->
              printed c2 = Z.of_nat (length (payloads (events r2)))) ->
  value (after (events r1 ++ note) r2) = Ret c' ->
  printed c' = Z.of_nat (length (payloads (events (after (events r1 ++ note) r2)))).
Proof.
  cbn zeta. intros Hv1 Hzero Hnote H2 Hv.
  unfold after in *. cbn [value events] in *.
  pose proof (run_tally _ _ _ _ _ Hv1) as H1. cbn zeta in H1.
  rewrite !payloads_app, Hnote, !length_app. cbn [length].
  rewrite (H2 _ Hv). lia.
Qed.

Lemma csv_loop_total rows :
  forall i tp ts nf w tp' ts' nf',
    let l := csv_loop timezone sqs_queue_url aws_region i rows tp ts nf w in
    value l = Ret (tp', ts', nf') ->
    tp' = tp + Z.of_nat (length (payloads (events l))).
Proof.
  induction rows as [|[order_id date_str] rows IH];
    intros i tp ts nf w tp' ts' nf'; cbn zeta.
  - cbn. intros [= <- <- <-]. lia.
  - cbn [csv_loop].
    destruct (strptime_ymd date_str) as [d|]; [|discriminate].
    unfold day_window.
    set (from_time := isoformat d ++ lit "T00:00:00").
    set (to_time := isoformat d ++ lit "T23:59:59").
    set (r1 := _run_one_order order_id from_time to_time _ _ _ _ w).
    set (this := match value r1 with Ret _ => _ | Raise _ => _ end).
    assert (Hthis : forall c, value this = Ret c ->
                       printed c = Z.of_nat (length (payloads (events this)))).
    { subst this. destruct (value r1) as [c1|e] eqn:Hv1.
      - destruct (printed c1 =? 0) eqn:Hz.
        + destruct (_next_day_from_time from_time to_time) as [[[nf0 nt0]|]|e].
          * intros c Hc. eapply retried_tally; try exact Hc; try exact Hv1.
            -- apply Z.eqb_eq. exact Hz.
            -- reflexivity.
            -- intros c2. apply run_tally.
          * intros c Hc. rewrite Hv1 in Hc. injection Hc as <-.
            apply run_tally. exact Hv1.
          * discriminate.
        + intros c Hc. rewrite Hv1 in Hc. injection Hc as <-.
          apply run_tally. exact Hv1.
      - intros c Hc. rewrite Hv1 in Hc. discriminate. }
    clearbody this.
    destruct (value this) as [c|e] eqn:Hv; [|discriminate].
    unfold after. cbn [value events]. intros Hl.
    specialize (IH _ _ _ _ _ _ _ _ Hl). cbn zeta in IH.
    rewrite !payloads_app, !length_app.
    replace (payloads (if 0 <? i then [Stderr EmptyLine] else [])) with (@nil json)
      by (destruct (0 <? i); reflexivity).
    rewrite IH, (Hthis c eq_refl). cbn [length]. lia.
Qed.

End Tally.

(** A run of [charge_request.main] that is no dry run and ends by itself
    ends with status 0 when it has printed a payload, and with status 1
    when it has not. *)
Lemma sequential_exit_code a w code :
  debug a = false ->
  value (main a w) = Ret code ->
  (code = 0 <-> payloads (events (main a w)) <> []).
Proof.
  intros Hdbg. unfold main. rewrite Hdbg.
  destruct (negb (present (access_id a)) || negb (present (access_key a))).
  { cbn. intros [= <-]. split; [discriminate|congruence]. }
  destruct (file a) as [csv|].
  - pose proof (read_rows_spec 0 csv) as [_ Hwarn].
    unfold _read_csv_order_dates.
    destruct (read_rows 0 csv) as [rows warnings]. cbn [snd] in Hwarn.
    destruct rows as [|[order_id date_str] rows'].
    { cbn [value events]. intros [= <-]. rewrite payloads_app, Hwarn.
      split; [discriminate|intros H; exfalso; apply H; reflexivity]. }
    set (rows := (order_id, date_str) :: rows') in *. clearbody rows.
    pose proof (csv_loop_total (timezone_arg a) (sqs_arg a) (aws_region_env a)
                  rows 0 0 0 [] w) as Htotal. cbn zeta in Htotal.
    destruct (value (csv_loop _ _ _ 0 rows 0 0 [] w)) as [[[tp ts] nf]|e];
      [|discriminate].
    specialize (Htotal _ _ _ eq_refl).
    cbn [value events]. intros [= <-].
    rewrite !payloads_app, Hwarn.
    replace (payloads match nf with
                      | [] => []
                      | _ :: _ => [Stderr EmptyLine; Stderr (NotFoundIds nf)]
                      end) with (@nil json) by (destruct nf; reflexivity).
    cbn [app]. change (payloads [Stderr EmptyLine; Stderr (Published ts); Stderr Elapsed])
      with (@nil json). rewrite app_nil_r.
    destruct (payloads (events (csv_loop _ _ _ 0 rows 0 0 [] w))) as [|obj objs].
    + cbn in Htotal. subst tp. cbn. split; [discriminate|congruence].
    + cbn [length] in Htotal.
      destruct (Z.eqb_spec tp 0) as [Hz|_]; [lia|]. split; [discriminate|reflexivity].
  - set (window := if present (day_arg a) then _ else _).
    destruct window as [[[[from_time to_time] timezone]|e]|stopped] eqn:Hwin.
    + set (r1 := _run_one_order _ _ _ _ _ _ _ w).
      destruct (value r1) as [c|e] eqn:Hv1; [|discriminate].
      destruct (_next_day_from_time from_time to_time) as [next_range|e];
        [|discriminate].
      set (this := match next_range with Some _ => _ | None => _ end).
      assert (Hthis : forall c', value this = Ret c' ->
                        printed c' = Z.of_nat (length (payloads (events this)))).
      { subst this. destruct next_range as [[nf0 nt0]|].
        - destruct (printed c =? 0) eqn:Hz.
          + intros c' Hc. eapply retried_tally; try exact Hc; try exact Hv1.
            * apply Z.eqb_eq. exact Hz.
            * reflexivity.
            * intros c2. apply run_tally.
          + intros c' Hc. apply run_tally. exact Hc.
        - intros c' Hc. apply run_tally. exact Hc. }
      clearbody this.
      destruct (value this) as [c'|e] eqn:Hv; [|discriminate].
      specialize (Hthis c' eq_refl).
      destruct (Z.eqb_spec (printed c') 0) as [Hz|Hnz]; cbn [value events];
        intros [= <-]; rewrite payloads_app.
      * change (payloads [Stderr EmptyLine; Stderr (NotFoundIds [input a])])
          with (@nil json). rewrite app_nil_r.
        destruct (payloads (events this)); [|cbn [length] in Hthis; lia].
        split; [discriminate|congruence].
      * change (payloads [_; _; _]) with (@nil json). rewrite app_nil_r.
        destruct (payloads (events this)); [cbn in Hthis; lia|].
        split; [discriminate|reflexivity].
    + discriminate.
    + subst window. destruct (present (day_arg a)).
      * destruct (strptime_ymd _) as [d|].
        -- unfold day_window in Hwin. discriminate.
        -- injection Hwin as <-. cbn. intros [= <-]. split; [discriminate|congruence].
      * destruct (_resolve_relative_time _ _ _) as [[[? ?] ?]|?]; discriminate.
Qed.

(** The same for [run_concurrent.main], which has no dry run. *)
Lemma concurrent_exit_code a task_world completion code :
  (RunConcurrent.main a task_world completion).1 = Ret code ->
  (code = 0 <-> payloads (RunConcurrent.main a task_world completion).2 <> []).
Proof.
  unfold RunConcurrent.main.
  destruct (negb (present (RunConcurrent.access_id a))
            || negb (present (RunConcurrent.access_key a))).
  { cbn. intros [= <-]. split; [discriminate|congruence]. }
  destruct (RunConcurrent.file a) as [csv|].
  2:{ cbn. intros [= <-]. split; [discriminate|congruence]. }
  pose proof (read_rows_spec 0 csv) as [_ Hwarn].
  unfold _read_csv_order_dates.
  destruct (read_rows 0 csv) as [rows warnings]. cbn [snd] in Hwarn.
  destruct rows as [|row0 rows'].
  { cbn [fst snd]. intros [= <-]. rewrite payloads_app, Hwarn.
    split; [discriminate|intros H; exfalso; apply H; reflexivity]. }
  cbv iota. set (rows := row0 :: rows') in *. clearbody rows.
  destruct (RunConcurrent.workers a <=? 0); [discriminate|].
  destruct (negb _); [discriminate|].
  pose proof (collect_silent a rows task_world completion ∅) as Hsilent.
  pose proof (collect_balanced a rows task_world completion ∅) as Hbal.
  destruct (RunConcurrent.collect a rows task_world completion ∅) as [[m|e] evs];
    [|discriminate].
  cbn [fst snd] in *.
  specialize (Hbal m ltac:(intros i e; rewrite lookup_empty; discriminate) eq_refl).
  pose proof (emit_total (seq 0 (length rows)) m Hbal 0 0 []) as Htotal.
  destruct (RunConcurrent.emit (seq 0 (length rows)) m 0 0 [])
    as [[[[tp ts] nf]|e] evs']; [|discriminate].
  cbn [fst snd] in *. specialize (Htotal _ _ _ eq_refl).
  intros [= <-].
  rewrite !payloads_app, Hwarn, Hsilent.
  replace (payloads match nf with
                    | [] => []
                    | _ :: _ => [Stderr EmptyLine; Stderr (NotFoundIds nf)]
                    end) with (@nil json) by (destruct nf; reflexivity).
  cbn [app payloads omap]. rewrite app_nil_r. fold (payloads evs').
  destruct (payloads evs') as [|obj objs].
  - cbn in Htotal. subst tp. cbn. split; [discriminate|congruence].
  - cbn [length] in Htotal.
    destruct (Z.eqb_spec tp 0) as [Hz|_]; [lia|]. split; [discriminate|reflexivity].
Qed.

(** The two entry points end by themselves with status 0 or 1 only. *)
Lemma sequential_exit_binary a w code :
  value (main a w) = Ret code -> code = 0 \/ code = 1.
Proof.
  unfold main.
  destruct (negb (present (access_id a)) || negb (present (access_key a))).
  { cbn. intros [= <-]. auto. }
  destruct (file a) as [csv|].
  - destruct (_read_csv_order_dates csv) as [rows warnings].
    destruct rows as [|[order_id date_str] rows'].
    { cbn. intros [= <-]. auto. }
    destruct (debug a).
    + destruct (strptime_ymd date_str) as [d|]; [|discriminate].
      unfold day_window. cbn. intros [= <-]. auto.
    + destruct (value (csv_loop _ _ _ _ _ _ _ _ _)) as [[[tp ts] nf]|e];
        [|discriminate].
      cbn [value]. intros [= <-]. destruct (tp =? 0); auto.
  - set (window := if present (day_arg a) then _ else _).
    destruct window as [[[[from_time to_time] timezone]|e]|stopped] eqn:Hwin.
    + destruct (debug a); [cbn; intros [= <-]; auto|].
      destruct (value (_run_one_order _ _ _ _ _ _ _ w)) as [c|e]; [|discriminate].
      destruct (_next_day_from_time from_time to_time) as [next_range|e];
        [|discriminate].
      set (this := match next_range with Some _ => _ | None => _ end).
      clearbody this. destruct (value this) as [c'|e]; [|discriminate].
      destruct (printed c' =? 0); cbn [value]; intros [= <-]; auto.
    + discriminate.
    + subst window. destruct (present (day_arg a)).
      * destruct (strptime_ymd _) as [d|].
        -- unfold day_window in Hwin. discriminate.
        -- injection Hwin as <-. cbn. intros [= <-]. auto.
      * destruct (_resolve_relative_time _ _ _) as [[[? ?] ?]|?]; discriminate.
Qed.

Lemma concurrent_exit_binary a task_world completion code :
  (RunConcurrent.main a task_world completion).1 = Ret code -> code = 0 \/ code = 1.
Proof.
  unfold RunConcurrent.main.
  destruct (negb (present (RunConcurrent.access_id a))
            || negb (present (RunConcurrent.access_key a))).
  { cbn. intros [= <-]. auto. }
  destruct (RunConcurrent.file a) as [csv|]; [|cbn; intros [= <-]; auto].
  destruct (_read_csv_order_dates csv) as [rows warnings].
  destruct rows as [|row0 rows']; [cbn; intros [= <-]; auto|].
  destruct (RunConcurrent.workers a <=? 0); [discriminate|].
  destruct (negb _); [discriminate|].
  destruct (RunConcurrent.collect _ _ _ _ _) as [[m|e] evs]; [|discriminate].
  destruct (RunConcurrent.emit _ _ _ _ _) as [[[[tp ts] nf]|e] evs'];
    [|discriminate].
  cbn [fst]. intros [= <-]. destruct (tp =? 0); auto.
Qed.

(** C4, as amended.  For a run of either entry point that ends by itself
    (no exception leaves [main]) and, for [charge_request], is not a
    [--debug] dry run, the exit status is 0 if and only if at least one
    extracted result was printed; it is 1 otherwise, so also when the
    credentials are missing, the CSV has no valid row or [--day] is not a
    date. *)
Theorem exit_status_reports_results a w b task_world completion code code' :
  debug a = false ->
  value (main a w) = Ret code ->
  (RunConcurrent.main b task_world completion).1 = Ret code' ->
  (exit_code (value (main a w)) = 0 <-> payloads (events (main a w)) <> [])
  /\ (exit_code (value (main a w)) = 0 \/ exit_code (value (main a w)) = 1)
  /\ (exit_code (RunConcurrent.main b task_world completion).1 = 0
      <-> payloads (RunConcurrent.main b task_world completion).2 <> [])
  /\ (exit_code (RunConcurrent.main b task_world completion).1 = 0
      \/ exit_code (RunConcurrent.main b task_world completion).1 = 1).
Proof.
  intros Hdbg Hseq Hconc.
  pose proof (sequential_exit_code a w code Hdbg Hseq) as H1.
  pose proof (concurrent_exit_code b task_world completion code' Hconc) as H2.
  pose proof (sequential_exit_binary a w code Hseq) as H3.
  pose proof (concurrent_exit_binary b task_world completion code' Hconc) as H4.
  rewrite Hseq, Hconc. cbn [exit_code]. auto.
Qed.

Lemma exit_status_witness :
  (exit_code (value (main Scenario.one_day Scenario.found_a)) = 0
   <-> payloads (events (main Scenario.one_day Scenario.found_a)) <> [])
  /\ (exit_code (RunConcurrent.main Scenario.batch Scenario.first_unreachable
                   [1; 0]%nat).1 = 0
      <-> payloads (RunConcurrent.main Scenario.batch Scenario.first_unreachable
                      [1; 0]%nat).2 <> []).
Proof.
  destruct (exit_status_reports_results Scenario.one_day Scenario.found_a
              Scenario.batch Scenario.first_unreachable [1; 0]%nat 0 0)
    as (H1 & _ & H2 & _); try (vm_compute; reflexivity).
  exact (conj H1 H2).
Defined.

(** A dry run ends with status 0 and has extracted nothing. *)
Lemma dry_run_exits_zero :
  exit_code (value (main Scenario.dry_run (World [] []))) = 0
  /\ payloads (events (main Scenario.dry_run (World [] []))) = []
  /\ ~ (exit_code (value (main Scenario.dry_run (World [] []))) = 0
        <-> 0 < Z.of_nat (length (payloads (events
                                   (main Scenario.dry_run (World [] [])))))).
Proof.
  split; [vm_compute; reflexivity|]. split; [vm_compute; reflexivity|].
  vm_compute. intros [H _]. specialize (H eq_refl). discriminate.
Qed.

(** A result is printed, then the sink has no such queue: the status is 1. *)
Example result_then_sink_exit :
  let a := Cli (lit "ABC123") None (Some (lit "2024-01-01")) (lit "-7d") None
               (lit "UTC") false (Some (lit "https://sqs.example/queue"))
               (Some (lit "id")) (Some (lit "key")) None Scenario.noon in
  value (main a Scenario.queue_missing) = Raise (SystemExit 1)
  /\ exit_code (value (main a Scenario.queue_missing)) = 1
  /\ payloads (events (main a Scenario.queue_missing)) = [Scenario.object_a].
Proof. repeat split; vm_compute; reflexivity. Qed.

(** ** The time window *)

Lemma run_starts_with_post order_id from_time to_time timezone sqs region rr w :
  exists evs,
    events (_run_one_order order_id from_time to_time timezone sqs region rr w) =
    Request (PostJob (SearchJob (QUERY_TEMPLATE order_id) from_time to_time timezone))
    :: evs.
Proof.
  unfold _run_one_order.
  destruct (_request (backend w)) as [r bk1].
  destruct r as [[status text]|e].
  - destruct (negb (status =? 202)); [eexists; reflexivity|].
    destruct (loads text) as [created|]; [|eexists; reflexivity].
    destruct (Py.subscript created (lit "id")) as [job_id|e]; [|eexists; reflexivity].
    destruct (poll_loop rr job_id bk1) as [[x bk2] evs_poll].
    destruct x as [mc| |e].
    + destruct (value (fetch_loop _ _ _ _ _ _ _ _ _)).
      * destruct (delete_job _ _) as [[d bk3] evd]. eexists; reflexivity.
      * eexists; reflexivity.
    + eexists; reflexivity.
    + eexists; reflexivity.
  - destruct e; eexists; reflexivity.
Qed.

(** *** A relative start *)

Lemma lstrip_nonspace c s : isspace c = false -> lstrip (c :: s) = c :: s.
Proof. intros H. cbn [lstrip]. rewrite H. reflexivity. Qed.

Lemma strip_between a s b :
  isspace a = false -> isspace b = false -> strip (a :: s ++ [b]) = a :: s ++ [b].
Proof.
  intros Ha Hb. unfold strip. rewrite (lstrip_nonspace a _ Ha).
  change (a :: s ++ [b]) with ((a :: s) ++ [b]).
  rewrite rev_app_distr. cbn [rev app]. rewrite (lstrip_nonspace b _ Hb).
  change (b :: rev s ++ [a]) with ([b] ++ rev (a :: s)).
  rewrite rev_app_distr, rev_involutive. reflexivity.
Qed.

Lemma span_decimals_all s u :
  forallb isdecimal s = true -> isdecimal u = false ->
  span_decimals (s ++ [u]) = (s, [u]).
Proof.
  intros Hs Hu. induction s as [|c s IH].
  - cbn [app span_decimals]. rewrite Hu. reflexivity.
  - cbn [forallb] in Hs. apply andb_true_iff in Hs as [Hc Hs].
    cbn [app span_decimals]. rewrite Hc, (IH Hs). reflexivity.
Qed.

(** The letters of the units: no white space, and in lower case one of the
    four letters of the pattern. *)
Lemma unit_letter u k :
  unit_seconds u = Some k ->
  exists l,
    isspace u = false
    /\ (forall before, lower_from before [u] = [l])
    /\ isdecimal l = false
    /\ ((l =? 100) || (l =? 104) || (l =? 109) || (l =? 115))%N = true
    /\ (forall amount,
          (if (l =? 100)%N then amount * 86400
           else if (l =? 104)%N then amount * 3600
           else if (l =? 109)%N then amount * 60
           else amount) = amount * k).
Proof.
  unfold unit_seconds. intros H.
  assert (Hu : (u = 100 \/ u = 68)%N /\ k = 86400
               \/ (u = 104 \/ u = 72)%N /\ k = 3600
               \/ (u = 109 \/ u = 77)%N /\ k = 60
               \/ (u = 115 \/ u = 83)%N /\ k = 1).
  { destruct (N.eqb_spec u 100%N); [cbn in H; injection H as <-; auto|].
    destruct (N.eqb_spec u 68%N); [cbn in H; injection H as <-; auto|].
    destruct (N.eqb_spec u 104%N); [cbn in H; injection H as <-; auto 6|].
    destruct (N.eqb_spec u 72%N); [cbn in H; injection H as <-; auto 6|].
    destruct (N.eqb_spec u 109%N); [cbn in H; injection H as <-; auto 8|].
    destruct (N.eqb_spec u 77%N); [cbn in H; injection H as <-; auto 8|].
    destruct (N.eqb_spec u 115%N); [cbn in H; injection H as <-; auto 8|].
    destruct (N.eqb_spec u 83%N); [cbn in H; injection H as <-; auto 8|].
    discriminate. }
  clear H.
  destruct Hu as [[[->| ->] ->]|[[[->| ->] ->]|[[[->| ->] ->]|[[->| ->] ->]]]];
    [exists 100%N|exists 100%N|exists 104%N|exists 104%N
     |exists 109%N|exists 109%N|exists 115%N|exists 115%N];
    (split; [reflexivity|]); (split; [intros before; reflexivity|]);
    (split; [reflexivity|]); (split; [reflexivity|]);
    intros amount; cbv beta iota delta [N.eqb Pos.eqb]; lia.
Qed.

Lemma relative_pattern_match digits l :
  digits <> [] ->
  forallb isdecimal digits = true ->
  isdecimal l = false ->
  ((l =? 100) || (l =? 104) || (l =? 109) || (l =? 115))%N = true ->
  relative_pattern (45%N :: digits ++ [l]) = Some (digits, l).
Proof.
  intros Hne Hdigits Hnd Hletter. unfold relative_pattern.
  change (negb (45 =? 45)%N) with false. cbv iota.
  rewrite (span_decimals_all digits l Hdigits Hnd).
  destruct digits as [|c digits']; [congruence|].
  rewrite Hletter. unfold str_eqb at 1.
  rewrite (bool_decide_eq_true_2 _ eq_refl). reflexivity.
Qed.

(** A start made of a minus sign, decimal digits and the letter of a
    unit. *)
Lemma relative_start_resolves now digits u k to_time :
  digits <> [] ->
  forallb isdecimal digits = true ->
  unit_seconds u = Some k ->
  _resolve_relative_time now (45%N :: digits ++ [u]) to_time =
  match int digits with
  | Raise e => Raise e
  | Ret amount =>
      match minus_seconds now (amount * k) with
      | Raise e => Raise e
      | Ret t =>
          Ret (strftime t,
               if str_eqb (lower (strip (Py.or_str (Some to_time) (lit "now"))))
                          (lit "now")
               then strftime now else to_time,
               Some (lit "UTC"))
      end
  end.
Proof.
  intros Hne Hdigits Hunit.
  destruct (unit_letter u k Hunit) as (l & Hsp & Hlow & Hnd & Hletter & Hk).
  unfold _resolve_relative_time. cbn [Py.or_str].
  rewrite (strip_between 45 digits u eq_refl Hsp).
  assert (Hl : lower (45%N :: digits ++ [u]) = 45%N :: digits ++ [l]).
  { unfold lower. change (45%N :: digits ++ [u]) with ((45%N :: digits) ++ [u]).
    rewrite lower_from_plain, Hlow; [reflexivity|].
    cbn [forallb]. rewrite (decimals_plain digits Hdigits). reflexivity. }
  rewrite Hl, (relative_pattern_match digits l Hne Hdigits Hnd Hletter).
  destruct (int digits) as [amount|e]; [|reflexivity].
  rewrite Hk. reflexivity.
Qed.

(** C10.  When [from_time] does not match the relative pattern,
    [_resolve_relative_time] returns [from_time] as it is and no timezone
    override, also when [to_time] is "now", in which case the end is the
    instant of the UTC clock; [main] then submits the window with the
    timezone of the command line.  When [from_time] matches the pattern
    and the call returns, the override is "UTC"; a minus sign, decimal
    digits (as many as [int] converts) and the letter of a unit are such a
    start, and the call returns with the override whenever the clock can
    be set back that far. *)
Theorem absolute_start_keeps_timezone now from_time to_time :
  relative_pattern (lower (strip from_time)) = None ->
  _resolve_relative_time now from_time to_time =
    Ret (from_time,
         if str_eqb (lower (strip (Py.or_str (Some to_time) (lit "now")))) (lit "now")
         then strftime now else to_time,
         None)
  /\ _resolve_relative_time now from_time (lit "now") =
       Ret (from_time, strftime now, None)
  /\ (forall a w,
        single a -> from_arg a = from_time -> now_utc a = now -> to_arg a = None ->
        exists evs,
          events (main a w) =
          Request (PostJob (SearchJob (QUERY_TEMPLATE (input a)) from_time
                              (strftime now) (timezone_arg a))) :: evs)
  /\ (forall from_time' r,
        relative_pattern (lower (strip from_time')) <> None ->
        _resolve_relative_time now from_time' to_time = Ret r ->
        r.2 = Some (lit "UTC"))
  /\ (forall digits u k t,
        digits <> [] ->
        forallb isdecimal digits = true ->
        (length digits <= 4300)%nat ->
        unit_seconds u = Some k ->
        minus_seconds now (int_of_digits digits * k) = Ret t ->
        relative_pattern (lower (strip (45%N :: digits ++ [u]))) <> None
        /\ exists to_iso,
             _resolve_relative_time now (45%N :: digits ++ [u]) to_time =
             Ret (strftime t, to_iso, Some (lit "UTC"))).
Proof.
  intros Hno.
  assert (Hor : forall s, Py.or_str (Some s) [] = s) by (intros [|? ?]; reflexivity).
  assert (H1 : forall t, _resolve_relative_time now from_time t =
    Ret (from_time,
         if str_eqb (lower (strip (Py.or_str (Some t) (lit "now")))) (lit "now")
         then strftime now else t, None)).
  { intros t. unfold _resolve_relative_time. rewrite Hor, Hno. reflexivity. }
  split; [apply H1|]. split; [rewrite H1; reflexivity|]. split; [|split].
  - intros a w (Hid & Hkey & Hfile & Hday & Hdbg) Hfrom Hnow Hto.
    unfold main. rewrite Hid, Hkey, Hfile, Hday, Hdbg, Hfrom, Hnow, Hto.
    cbn [negb orb Py.or_str]. rewrite H1.
    change (str_eqb _ (lit "now")) with true. cbn [default].
    set (r1 := _run_one_order _ _ _ _ _ _ _ _).
    destruct (run_starts_with_post (input a) from_time (strftime now) (timezone_arg a)
                (sqs_arg a) (aws_region_env a) false w) as [evs Hevs].
    fold r1 in Hevs.
    destruct (value r1) as [c|e]; [|eexists; exact Hevs].
    destruct (_next_day_from_time from_time (strftime now)) as [next_range|e];
      [|eexists; exact Hevs].
    destruct next_range as [[nf nt]|].
    + destruct (printed c =? 0).
      * unfold after. cbn [value events rest].
        destruct (value (_run_one_order _ nf nt _ _ _ _ _)) as [c'|e'].
        -- destruct (printed c' =? 0); cbn [events]; rewrite Hevs; eexists; reflexivity.
        -- cbn [events]. rewrite Hevs; eexists; reflexivity.
      * destruct (value r1) as [c'|e'].
        -- destruct (printed c' =? 0); cbn [events]; rewrite Hevs; eexists; reflexivity.
        -- eexists; exact Hevs.
    + destruct (value r1) as [c'|e'].
      -- destruct (printed c' =? 0); cbn [events]; rewrite Hevs; eexists; reflexivity.
      -- eexists; exact Hevs.
  - intros f' r Hsome Hres. unfold _resolve_relative_time in Hres.
    rewrite Hor in Hres.
    destruct (relative_pattern (lower (strip f'))) as [[amount unit]|]; [|congruence].
    destruct (int amount) as [n|e]; [|discriminate].
    destruct (minus_seconds now _) as [t|e]; [|discriminate].
    injection Hres as <-. reflexivity.
  - intros digits u k t Hne Hdigits Hlen Hunit Ht.
    pose proof (relative_start_resolves now digits u k to_time Hne Hdigits Hunit) as H.
    assert (Hint : int digits = Ret (int_of_digits digits)).
    { unfold int. change max_str_digits with 4300%nat.
      apply Nat.ltb_ge in Hlen. rewrite Hlen. reflexivity. }
    rewrite Hint, Ht in H. split; [|eexists; exact H].
    intros Hnone. unfold _resolve_relative_time in H.
    rewrite Hor, Hnone in H. discriminate.
Qed.

Lemma absolute_start_witness :
  _resolve_relative_time Scenario.noon (lit "2024-01-01T00:00:00") (lit "now") =
    Ret (lit "2024-01-01T00:00:00", strftime Scenario.noon, None)
  /\ (exists evs,
        events (main Scenario.absolute_start Scenario.nothing_found) =
        Request (PostJob (SearchJob (QUERY_TEMPLATE (lit "ABC123"))
                            (lit "2024-01-01T00:00:00") (strftime Scenario.noon)
                            (lit "Europe/Paris"))) :: evs)
  /\ relative_pattern (lower (strip (45%N :: lit "7" ++ [100%N]))) <> None
  /\ exists to_iso,
       _resolve_relative_time Scenario.noon (45%N :: lit "7" ++ [100%N]) (lit "now") =
       Ret (strftime (DateTime (Date 2024 2 23) 12 0 0), to_iso, Some (lit "UTC")).
Proof.
  destruct (absolute_start_keeps_timezone Scenario.noon (lit "2024-01-01T00:00:00")
              (lit "now")) as (_ & H2 & H3 & _ & H5); [vm_compute; reflexivity|].
  split; [exact H2|]. split.
  - apply (H3 Scenario.absolute_start Scenario.nothing_found); try reflexivity.
    repeat split.
  - apply (H5 (lit "7") 100%N 86400 (DateTime (Date 2024 2 23) 12 0 0)).
    + discriminate.
    + vm_compute. reflexivity.
    + vm_compute. lia.
    + reflexivity.
    + vm_compute. reflexivity.
Defined.

(** The relative start of the design document: seven days before noon of
    2024-03-01, in UTC whatever the command line says. *)
Example relative_start_forces_utc :
  _resolve_relative_time Scenario.noon (lit "-7d") (lit "now") =
  Ret (lit "2024-02-23T12:00:00", lit "2024-03-01T12:00:00", Some (lit "UTC")).
Proof. vm_compute. reflexivity. Qed.

(** ** The retry *)

(** The window of a day and the window of the day after it. *)
Example next_day_of_a_day :
  _next_day_from_time (lit "2024-01-01T00:00:00") (lit "2024-01-01T23:59:59") =
  Ret (Some (lit "2024-01-02T00:00:00", lit "2024-01-02T23:59:59")).
Proof. vm_compute. reflexivity. Qed.

(** An order given by its day, nothing found: one retry, on the next day. *)
Example day_is_retried_once :
  map (fun r => match r with
                | PostJob job => Some (from_ job, to_ job)
                | _ => None
                end)
      (requests (events (main Scenario.one_day Scenario.nothing_found))) =
  [Some (lit "2024-01-01T00:00:00", lit "2024-01-01T23:59:59"); None; None;
   Some (lit "2024-01-02T00:00:00", lit "2024-01-02T23:59:59"); None; None].
Proof. vm_compute. reflexivity. Qed.

(** C2.  [_next_day_from_time] never reads [to_time]: a range of five days
    that starts at the beginning of a day gets the window of the next day,
    and [main], having found nothing in the range, runs the order again on
    that window. *)
Theorem wide_range_is_retried :
  (forall from_time to_time to_time',
     _next_day_from_time from_time to_time = _next_day_from_time from_time to_time')
  /\ _next_day_from_time (lit "2024-01-01T00:00:00") (lit "2024-01-05T23:59:59") =
     Ret (Some (lit "2024-01-02T00:00:00", lit "2024-01-02T23:59:59"))
  /\ map (fun r => match r with
                   | PostJob job => Some (from_ job, to_ job)
                   | _ => None
                   end)
         (requests (events (main Scenario.wide_range Scenario.nothing_found))) =
     [Some (lit "2024-01-01T00:00:00", lit "2024-01-05T23:59:59"); None; None;
      Some (lit "2024-01-02T00:00:00", lit "2024-01-02T23:59:59"); None; None].
Proof.
  split; [reflexivity|]. split; vm_compute; reflexivity.
Qed.

(** ** The deletion of the job *)

(** C3.  A run whose job is cancelled, and a run whose status request
    fails, return with no [DELETE] request for the job they created.  On
    the path through the retrieval the [DELETE] is the last request, and
    its failure changes nothing in what the run returns. *)
Theorem job_left_behind_on_early_return :
  requests (events (Scenario.run Scenario.job_cancelled)) =
    [PostJob Scenario.job; GetStatus (JStr (lit "J1"))]
  /\ value (Scenario.run Scenario.job_cancelled) = Ret no_counts
  /\ requests (events (Scenario.run Scenario.poll_fails)) =
       [PostJob Scenario.job; GetStatus (JStr (lit "J1"))]
  /\ value (Scenario.run Scenario.poll_fails) = Ret no_counts
  /\ requests (events (Scenario.run Scenario.delete_fails)) =
       [PostJob Scenario.job; GetStatus (JStr (lit "J1"));
        GetMessages (JStr (lit "J1")) 0 1000; DeleteJob (JStr (lit "J1"))]
  /\ value (Scenario.run Scenario.delete_fails) = Ret (Counts 1 0 []).
Proof. repeat split; vm_compute; reflexivity. Qed.

(** * Further properties *)

(** ** The trace of a run *)

Lemma sends_app evs1 evs2 : sends (evs1 ++ evs2) = sends evs1 ++ sends evs2.
Proof. unfold sends. apply omap_app. Qed.

Lemma sleeps_app evs1 evs2 : sleeps (evs1 ++ evs2) = sleeps evs1 ++ sleeps evs2.
Proof. unfold sleeps. apply omap_app. Qed.

Lemma stdout_lines_app evs1 evs2 :
  stdout_lines (evs1 ++ evs2) = stdout_lines evs1 ++ stdout_lines evs2.
Proof. unfold stdout_lines. apply omap_app. Qed.

(** Walks through the branches of a definition by cases. *)
Ltac by_cases :=
  repeat match goal with
         | |- context [match ?x with _ => _ end] => destruct x
         | |- context [if ?b then _ else _] => destruct b
         end.

Lemma examine_quiet msg :
  requests (examine msg).2 = [] /\ sends (examine msg).2 = []
  /\ sleeps (examine msg).2 = [] /\ stdout_lines (examine msg).2 = [].
Proof. unfold examine. by_cases; repeat split; reflexivity. Qed.

Lemma poll_report_quiet rr r :
  requests (poll_report rr r).2 = [] /\ sends (poll_report rr r).2 = []
  /\ sleeps (poll_report rr r).2 = [] /\ stdout_lines (poll_report rr r).2 = [].
Proof. unfold poll_report. by_cases; repeat split; reflexivity. Qed.

(** What the poll loop does: a pause before every status request, nothing
    for the sink and nothing on the primary stream. *)
Lemma poll_loop_trace rr job_id bk :
  exists k,
    requests (poll_loop rr job_id bk).2 = repeat (GetStatus job_id) (S k)
    /\ sleeps (poll_loop rr job_id bk).2 = repeat POLL_INTERVAL_SEC (S k)
    /\ sends (poll_loop rr job_id bk).2 = []
    /\ stdout_lines (poll_loop rr job_id bk).2 = [].
Proof.
  induction bk as [|a bk' IH].
  - exists 0%nat. repeat split; reflexivity.
  - cbn [poll_loop].
    destruct (poll_report_quiet rr (answer a)) as (Hr & Hs & Hp & Ho).
    destruct (poll_report rr (answer a)) as [step evs]. cbn [snd] in *.
    destruct step as [|x].
    + destruct IH as (k & IHr & IHp & IHs & IHo).
      destruct (poll_loop rr job_id bk') as [[x bk''] evs']. cbn [snd] in *.
      exists (S k).
      change (Sleep POLL_INTERVAL_SEC :: Request (GetStatus job_id) :: evs ++ evs')
        with ([Sleep POLL_INTERVAL_SEC; Request (GetStatus job_id)] ++ evs ++ evs').
      rewrite !requests_app, !sleeps_app, !sends_app, !stdout_lines_app.
      rewrite Hr, Hs, Hp, Ho, IHr, IHp, IHs, IHo. repeat split; reflexivity.
    + exists 0%nat. cbn [snd].
      change (Sleep POLL_INTERVAL_SEC :: Request (GetStatus job_id) :: evs)
        with ([Sleep POLL_INTERVAL_SEC; Request (GetStatus job_id)] ++ evs).
      rewrite !requests_app, !sleeps_app, !sends_app, !stdout_lines_app.
      rewrite Hr, Hs, Hp, Ho. repeat split; reflexivity.
Qed.

Lemma delete_job_trace job_id bk :
  requests (delete_job job_id bk).2 = [DeleteJob job_id]
  /\ sleeps (delete_job job_id bk).2 = []
  /\ sends (delete_job job_id bk).2 = []
  /\ stdout_lines (delete_job job_id bk).2 = [].
Proof.
  unfold delete_job. destruct (_request bk) as [[x|e] bk'].
  - repeat split; reflexivity.
  - destruct (is_OSError e); repeat split; reflexivity.
Qed.

Section Protocol.

Variables (order_id from_time to_time timezone : str).
Variables (sqs_queue_url aws_region : option str).
Variable return_results : bool.

Local Abbreviation accept_ := (accept sqs_queue_url aws_region return_results).
Local Abbreviation scan_ := (scan_page sqs_queue_url aws_region return_results).
Local Abbreviation fetch_ := (fetch_loop sqs_queue_url aws_region return_results).
Local Abbreviation run_ :=
  (_run_one_order order_id from_time to_time timezone sqs_queue_url aws_region
                  return_results).

Lemma send_trace u obj a :
  requests (_send_to_sqs u obj aws_region a).2 = []
  /\ sleeps (_send_to_sqs u obj aws_region a).2 = []
  /\ stdout_lines (_send_to_sqs u obj aws_region a).2 = [].
Proof. destruct a; repeat split; reflexivity. Qed.

Lemma accept_quiet obj c sk :
  requests (accept_ obj c sk).2 = [] /\ sleeps (accept_ obj c sk).2 = [].
Proof.
  unfold accept.
  set (shown := if return_results then [] else _).
  assert (Hshown : requests shown = [] /\ sleeps shown = []).
  { subst shown. destruct return_results; [split; reflexivity|].
    destruct (0 <? printed c); split; reflexivity. }
  destruct Hshown as [Hr Hs].
  destruct sqs_queue_url as [[|u rl]|]; [split; assumption| |split; assumption].
  destruct (next_delivery sk) as [a sk1].
  destruct (send_trace (u :: rl) obj a) as (Hsr & Hss & _).
  destruct (_send_to_sqs (u :: rl) obj aws_region a) as [[b|e] evs1]; cbn [snd] in *.
  - rewrite !requests_app, !sleeps_app, Hr, Hs, Hsr, Hss.
    destruct return_results; split; reflexivity.
  - destruct (is_Exception e); cbn [snd];
      rewrite !requests_app, !sleeps_app, Hr, Hs, Hsr, Hss; split; reflexivity.
Qed.

Lemma scan_page_quiet messages c sk :
  requests (scan_ messages c sk).2 = [] /\ sleeps (scan_ messages c sk).2 = [].
Proof.
  induction messages as [|msg messages IH]; [split; reflexivity|].
  cbn [scan_page].
  destruct (examine_quiet msg) as (Hr & _ & Hs & _).
  destruct (examine msg) as [[[obj|]|e] evs0]; cbn [snd] in *.
  - destruct (accept_quiet obj c sk) as [Har Has].
    destruct (accept_ obj c sk) as [[r1 sk1] evs1]. cbn [snd] in *.
    rewrite requests_app, sleeps_app, Hr, Hs, Har, Has. split; reflexivity.
  - destruct (scan_ messages c sk) as [[r1 sk1] evs1]. cbn [snd] in *.
    destruct IH as [IHr IHs].
    rewrite requests_app, sleeps_app, Hr, Hs, IHr, IHs. split; reflexivity.
  - split; assumption.
Qed.

Lemma truthy_iter_nonempty v items :
  Py.truthy v = true -> Py.iter v = Ret items -> (0 < length items)%nat.
Proof.
  destruct v as [| | | |s|l|d]; try discriminate; cbn;
    intros Ht [= <-].
  - destruct s; [discriminate|cbn; lia].
  - destruct l; [discriminate|cbn; lia].
  - destruct d; [discriminate|cbn; lia].
Qed.

Lemma ascending_cons o n offsets :
  0 < n -> ascending_from (o + n) offsets -> ascending_from o (o :: offsets).
Proof.
  intros Hn Hasc. split; [reflexivity|].
  destruct offsets as [|x offsets]; [repeat constructor|].
  destruct Hasc as [-> Hsorted].
  constructor; [exact Hsorted|].
  constructor; [lia|].
  apply StronglySorted_inv in Hsorted as [_ Hall].
  eapply Forall_impl; [exact Hall|]. cbn. intros y Hy. lia.
Qed.

(** The retrieval asks for pages only, at offsets that start where it
    starts and grow; it never pauses. *)
Lemma fetch_loop_trace job_id message_count bk :
  forall offset c sk,
    let f := fetch_ job_id message_count offset c bk sk in
    sleeps (events f) = []
    /\ exists offsets,
         requests (events f) = page_requests job_id offsets
         /\ ascending_from offset offsets.
Proof.
  assert (Hnone : forall o, exists offsets : list Z,
            @nil request = page_requests job_id offsets /\ ascending_from o offsets).
  { intros o. exists []. split; [reflexivity|exact I]. }
  assert (Hone : forall o, exists offsets : list Z,
            [GetMessages job_id o MESSAGE_PAGE_SIZE] = page_requests job_id offsets
            /\ ascending_from o offsets).
  { intros o. exists [o]. split; [reflexivity|]. split; [reflexivity|].
    repeat constructor. }
  induction bk as [|a bk' IH]; intros offset c sk; cbn zeta.
  - cbn [fetch_loop].
    destruct (Py.int_lt offset message_count) as [[|]|e]; cbn [events];
      (split; [reflexivity|]); first [apply Hnone|apply Hone].
  - cbn [fetch_loop].
    destruct (Py.int_lt offset message_count) as [[|]|e]; cbn [events];
      [|split; [reflexivity|apply Hnone]|split; [reflexivity|apply Hnone]].
    destruct (answer a) as [[status text]|e].
    + destruct (negb (status =? 200)); [split; [reflexivity|apply Hone]|].
      destruct (loads text) as [data|]; [|split; [reflexivity|apply Hone]].
      destruct (Py.get data (lit "messages") (JList [])) as [messages|e];
        [|split; [reflexivity|apply Hone]].
      destruct (Py.truthy messages) eqn:Htruthy; cbn [negb];
        [|split; [reflexivity|apply Hone]].
      destruct (Py.iter messages) as [items|e] eqn:Hiter;
        [|split; [reflexivity|apply Hone]].
      pose proof (truthy_iter_nonempty _ _ Htruthy Hiter) as Hlen.
      destruct (scan_page_quiet items c sk) as [Hsr Hss].
      destruct (scan_ items c sk) as [[r sk'] evs]. cbn [snd] in *.
      assert (Hhere : requests (Request (GetMessages job_id offset MESSAGE_PAGE_SIZE)
                                :: evs) = [GetMessages job_id offset MESSAGE_PAGE_SIZE]).
      { rewrite requests_request, Hsr. reflexivity. }
      assert (Hpause : sleeps (Request (GetMessages job_id offset MESSAGE_PAGE_SIZE)
                               :: evs) = []).
      { exact Hss. }
      destruct r as [c'|e].
      * destruct (0 <? printed c'); cbn [events].
        -- rewrite Hhere. split; [exact Hpause|apply Hone].
        -- destruct (IH (offset + Z.of_nat (length items)) c' sk')
             as (IHs & offsets & IHr & IHa).
           unfold after. cbn [events].
           rewrite sleeps_app, requests_app, Hhere, Hpause, IHs, IHr.
           split; [reflexivity|].
           exists (offset :: offsets). split; [reflexivity|].
           apply (ascending_cons offset (Z.of_nat (length items))); [lia|exact IHa].
      * cbn [events]. rewrite Hhere. split; [exact Hpause|apply Hone].
    + destruct e; cbn [events]; split; try reflexivity; apply Hone.
Qed.


(** The shape of a run: its requests and its pauses. *)
Lemma run_trace w :
  let r := run_ w in
  let job := SearchJob (QUERY_TEMPLATE order_id) from_time to_time timezone in
  (requests (events r) = [PostJob job]
   /\ sleeps (events r) = []
   /\ forall c, value r = Ret c -> c = no_counts)
  \/ exists job_id polls offsets del,
       requests (events r) =
         PostJob job :: repeat (GetStatus job_id) (S polls)
         ++ page_requests job_id offsets ++ del
       /\ sleeps (events r) = repeat POLL_INTERVAL_SEC (S polls)
       /\ ascending_from 0 offsets
       /\ (del = [] \/ del = [DeleteJob job_id])
       /\ forall c, value r = Ret c ->
            (offsets = [] /\ del = [] /\ c = no_counts)
            \/ (del = [DeleteJob job_id] /\ (c <> no_counts -> offsets <> [])).
Proof.
  cbn zeta. unfold _run_one_order.
  destruct (_request (backend w)) as [[[status text]|e] bk1].
  2:{ left. destruct e; cbn [events value]; repeat split; try reflexivity;
        try (intros c [=]; congruence). }
  destruct (negb (status =? 202)).
  { left. cbn [events value]. repeat split. intros c [= <-]. reflexivity. }
  destruct (loads text) as [created|];
    [|left; cbn [events value]; repeat split; intros c [=]].
  destruct (Py.subscript created (lit "id")) as [job_id|e];
    [|left; cbn [events value]; repeat split; intros c [=]].
  right. exists job_id.
  destruct (poll_loop_trace return_results job_id bk1) as (k & Hpr & Hps & _ & _).
  destruct (poll_loop return_results job_id bk1) as [[x bk2] evs_poll].
  cbn [snd] in Hpr, Hps. exists k.
  set (started := Request _ :: _).
  assert (Hstarted : requests started =
            [PostJob (SearchJob (QUERY_TEMPLATE order_id) from_time to_time timezone)]
            /\ sleeps started = []).
  { subst started. destruct return_results; split; reflexivity. }
  destruct Hstarted as [Hsr Hss].
  destruct x as [mc| |e].
  - destruct (fetch_loop_trace job_id mc bk2 0 no_counts (sink w))
      as (Hfs & offsets & Hfr & Hasc).
    cbn zeta in Hfs, Hfr.
    set (fetched := fetch_loop _ _ _ _ _ _ _ _ _) in *.
    exists offsets.
    destruct (value fetched) as [c1|e] eqn:Hv.
    + destruct (delete_job_trace job_id (backend (rest fetched))) as (Hdr & Hds & _).
      destruct (delete_job job_id (backend (rest fetched))) as [[d bk3] evs_del].
      cbn [snd] in Hdr, Hds. exists [DeleteJob job_id]. cbn [events value].
      rewrite !requests_app, !sleeps_app, Hsr, Hss, Hpr, Hps, Hfr, Hfs, Hdr, Hds.
      rewrite app_nil_r.
      split; [reflexivity|]. split; [reflexivity|]. split; [exact Hasc|].
      split; [auto|].
      intros c Hc. right. split; [reflexivity|].
      intros Hne ->.
      assert (c1 = no_counts); [|destruct d; congruence].
      subst fetched. destruct bk2 as [|a bk2']; cbn [fetch_loop] in Hv, Hfr.
      * destruct (Py.int_lt 0 mc) as [[|]|e']; cbn in Hv, Hfr; congruence.
      * destruct (Py.int_lt 0 mc) as [[|]|e'] eqn:Hlt; cbn in Hv; try congruence.
        destruct (fetch_loop_first_request sqs_queue_url aws_region return_results
                    job_id mc 0 no_counts (a :: bk2') (sink w) Hlt) as [evs Hevs].
        cbn [fetch_loop] in Hevs. rewrite Hlt in Hevs. rewrite Hevs in Hfr.
        discriminate.
    + exists []. cbn [events value].
      rewrite !requests_app, !sleeps_app, Hsr, Hss, Hpr, Hps, Hfr, Hfs.
      rewrite !app_nil_r.
      split; [reflexivity|]. split; [reflexivity|]. split; [exact Hasc|].
      split; [auto|]. intros c [=].
  - exists [], []. cbn [events value].
    rewrite !requests_app, !sleeps_app, Hsr, Hss, Hpr, Hps.
    rewrite !app_nil_r.
    split; [reflexivity|]. split; [reflexivity|]. split; [exact I|].
    split; [auto|]. intros c [= <-]. left. auto.
  - exists [], []. cbn [events value].
    rewrite !requests_app, !sleeps_app, Hsr, Hss, Hpr, Hps.
    rewrite !app_nil_r.
    split; [reflexivity|]. split; [reflexivity|]. split; [exact I|].
    split; [auto|]. intros c [=].
Qed.


Lemma quiet_nil : quiet [].
Proof. split; reflexivity. Qed.

Lemma quiet_app evs1 evs2 : quiet evs1 -> quiet evs2 -> quiet (evs1 ++ evs2).
Proof.
  intros [H1 H2] [H3 H4]. split.
  - rewrite sends_app, H1, H3. reflexivity.
  - rewrite stdout_lines_app, H2, H4. reflexivity.
Qed.

Lemma stdout_payloads evs : stdout_lines evs = [] -> payloads evs = [].
Proof.
  intros H. induction evs as [|e evs IH]; [reflexivity|].
  destruct e as [s|r|u b rg|l|d]; try (apply IH; exact H).
  discriminate.
Qed.

Lemma quiet_payloads evs : quiet evs -> payloads evs = [].
Proof. intros [_ H]. apply stdout_payloads. exact H. Qed.

Lemma quiet_request r evs : quiet evs -> quiet (Request r :: evs).
Proof. intros H. exact H. Qed.

(** How the scan of a page ends: nothing is accepted and nothing has
    happened to the sink, or one object is accepted after messages that
    were passed over. *)
Lemma scan_page_cases messages c sk :
  let s := scan_ messages c sk in
  (s.1.2 = sk /\ quiet s.2 /\ forall c', s.1.1 = Ret c' -> c' = c)
  \/ exists obj evs0 evs1,
       s.2 = evs0 ++ evs1 /\ quiet evs0
       /\ accept_ obj c sk = (s.1.1, s.1.2, evs1).
Proof.
  cbn zeta. induction messages as [|msg messages IH].
  - left. cbn. split; [reflexivity|]. split; [apply quiet_nil|].
    intros c' [= <-]. reflexivity.
  - cbn [scan_page].
    destruct (examine_quiet msg) as (_ & Hs & _ & Ho).
    destruct (examine msg) as [[[obj|]|e] evs0]; cbn [snd] in Hs, Ho.
    + right. exists obj, evs0.
      destruct (accept_ obj c sk) as [[r1 sk1] evs1]. cbn [fst snd].
      eexists. split; [reflexivity|]. split; [split; assumption|reflexivity].
    + destruct (scan_ messages c sk) as [[r1 sk1] evs1]. cbn [fst snd] in *.
      destruct IH as [(Hsk & Hq & Hc)|(obj & e0 & e1 & -> & Hq & Hacc)].
      * left. split; [exact Hsk|]. split; [|exact Hc].
        apply quiet_app; [split; assumption|exact Hq].
      * right. exists obj, (evs0 ++ e0), e1. rewrite app_assoc.
        split; [reflexivity|]. split; [|exact Hacc].
        apply quiet_app; [split; assumption|exact Hq].
    + left. cbn [fst snd]. split; [reflexivity|]. split; [split; assumption|].
      intros c' [=].
Qed.

Lemma accept_counts obj c sk r sk' evs c' :
  accept_ obj c sk = (r, sk', evs) -> r = Ret c' -> printed c' = printed c + 1.
Proof.
  intros Hacc ->. destruct (accept_spec _ _ _ _ _ _ _ _ _ Hacc) as [_ Hadd].
  destruct (Hadd c' eq_refl) as (Hp & _). exact Hp.
Qed.

(** The same for the retrieval, from counts that show nothing printed. *)
Lemma fetch_loop_cases job_id message_count bk :
  forall offset c sk,
    printed c = 0 ->
    let f := fetch_ job_id message_count offset c bk sk in
    (sink (rest f) = sk /\ quiet (events f) /\ forall c', value f = Ret c' -> c' = c)
    \/ exists obj evs0 evs1,
         events f = evs0 ++ evs1 /\ quiet evs0
         /\ accept_ obj c sk = (value f, sink (rest f), evs1).
Proof.
  induction bk as [|a bk' IH]; intros offset c sk Hc; cbn zeta.
  - left. cbn [fetch_loop].
    destruct (Py.int_lt offset message_count) as [[|]|e]; cbn [events value rest sink];
      (split; [reflexivity|]); (split; [split; reflexivity|]);
      intros c' [=]; congruence.
  - cbn [fetch_loop].
    assert (Hleaf : forall (v : res counts) bk0 evs,
              quiet evs -> (forall c', v = Ret c' -> c' = c) ->
              (sink (rest (Ran v (World bk0 sk) evs)) = sk
               /\ quiet (events (Ran v (World bk0 sk) evs))
               /\ forall c', value (Ran v (World bk0 sk) evs) = Ret c' -> c' = c)
              \/ exists obj evs0 evs1,
                   events (Ran v (World bk0 sk) evs) = evs0 ++ evs1 /\ quiet evs0
                   /\ accept_ obj c sk =
                        (value (Ran v (World bk0 sk) evs),
                         sink (rest (Ran v (World bk0 sk) evs)), evs1)).
    { intros v bk0 evs Hq Hv. left. cbn. auto. }
    destruct (Py.int_lt offset message_count) as [[|]|e];
      [|apply Hleaf; [apply quiet_nil|intros c' [= <-]; reflexivity]
       |apply Hleaf; [apply quiet_nil|intros c' [=]]].
    destruct (answer a) as [[status text]|e].
    + destruct (negb (status =? 200));
        [apply Hleaf; [split; reflexivity|intros c' [= <-]; reflexivity]|].
      destruct (loads text) as [data|];
        [|apply Hleaf; [split; reflexivity|intros c' [=]]].
      destruct (Py.get data (lit "messages") (JList [])) as [messages|e];
        [|apply Hleaf; [split; reflexivity|intros c' [=]]].
      destruct (negb (Py.truthy messages));
        [apply Hleaf; [split; reflexivity|intros c' [= <-]; reflexivity]|].
      destruct (Py.iter messages) as [items|e];
        [|apply Hleaf; [split; reflexivity|intros c' [=]]].
      pose proof (scan_page_cases items c sk) as Hscan. cbn zeta in Hscan.
      destruct (scan_ items c sk) as [[r sk'] evs]. cbn [fst snd] in Hscan.
      destruct Hscan as [(-> & Hq & Hsame)|(obj & e0 & e1 & -> & Hq & Hacc)].
      * destruct r as [c1|e].
        -- rewrite (Hsame c1 eq_refl), Hc. change (0 <? 0) with false. cbv iota.
           destruct (IH (offset + Z.of_nat (length items)) c sk Hc)
             as [(Hsk & Hq' & Hsame')|(obj & e0 & e1 & Hev & Hq' & Hacc)].
           ++ left. unfold after. cbn [events value rest].
              split; [exact Hsk|]. split; [|exact Hsame'].
              apply (quiet_app (_ :: evs)); [apply quiet_request; exact Hq|exact Hq'].
           ++ right. exists obj.
              exists ((Request (GetMessages job_id offset MESSAGE_PAGE_SIZE) :: evs) ++ e0), e1.
              unfold after. cbn [events value rest]. rewrite Hev, app_assoc.
              split; [reflexivity|]. split; [|exact Hacc].
              apply (quiet_app (_ :: evs)); [apply quiet_request; exact Hq|exact Hq'].
        -- left. cbn [events value rest sink].
           split; [reflexivity|]. split; [apply quiet_request; exact Hq|].
           intros c' [=].
      * right. exists obj.
        exists (Request (GetMessages job_id offset MESSAGE_PAGE_SIZE) :: e0), e1.
        destruct r as [c1|e].
        -- pose proof (accept_counts _ _ _ _ _ _ _ Hacc eq_refl) as Hp.
           assert (Hpos : (0 <? printed c1) = true) by (apply Z.ltb_lt; lia).
           rewrite Hpos. cbn [events value rest sink].
           split; [reflexivity|]. split; [apply quiet_request; exact Hq|exact Hacc].
        -- cbn [events value rest sink].
           split; [reflexivity|]. split; [apply quiet_request; exact Hq|exact Hacc].
    + destruct e; apply Hleaf; try (split; reflexivity); intros c' [=]; congruence.
Qed.

(** The same for a run: it ends with nothing accepted, nothing handed to
    the sink and nothing written on the primary stream, or it has accepted
    one object, and what it handed and wrote is what accepting that object
    did. *)
Lemma run_cases w :
  let r := run_ w in
  (sink (rest r) = sink w /\ quiet (events r)
   /\ forall c, value r = Ret c -> c = no_counts)
  \/ exists obj evs0 evs1 evs2 v,
       events r = evs0 ++ evs1 ++ evs2 /\ quiet evs0 /\ quiet evs2
       /\ accept_ obj no_counts (sink w) = (v, sink (rest r), evs1)
       /\ forall c, value r = Ret c -> v = Ret c.
Proof.
  cbn zeta. unfold _run_one_order.
  destruct (_request (backend w)) as [[[status text]|e] bk1].
  2:{ left. destruct e; cbn [events value rest sink];
        (split; [reflexivity|]); (split; [split; reflexivity|]);
        intros c [=]; congruence. }
  destruct (negb (status =? 202)).
  { left. cbn [events value rest sink]. split; [reflexivity|].
    split; [split; reflexivity|]. intros c [= <-]. reflexivity. }
  destruct (loads text) as [created|].
  2:{ left. cbn [events value rest sink]. split; [reflexivity|].
      split; [split; reflexivity|]. intros c [=]. }
  destruct (Py.subscript created (lit "id")) as [job_id|e].
  2:{ left. cbn [events value rest sink]. split; [reflexivity|].
      split; [split; reflexivity|]. intros c [=]. }
  destruct (poll_loop_trace return_results job_id bk1) as (k & _ & _ & Hps & Hpo).
  destruct (poll_loop return_results job_id bk1) as [[x bk2] evs_poll].
  cbn [snd] in Hps, Hpo.
  set (started := Request _ :: _).
  assert (Hstarted : quiet started).
  { subst started. destruct return_results; split; reflexivity. }
  assert (Hhead : quiet (started ++ evs_poll)).
  { apply quiet_app; [exact Hstarted|split; assumption]. }
  destruct x as [mc| |e].
  - pose proof (fetch_loop_cases job_id mc bk2 0 no_counts (sink w) eq_refl) as Hf.
    cbn zeta in Hf.
    set (fetched := fetch_loop _ _ _ _ _ _ _ _ _) in *.
    destruct (delete_job_trace job_id (backend (rest fetched))) as (_ & _ & Hds & Hdo).
    destruct Hf as [(Hsk & Hq & Hsame)|(obj & e0 & e1 & Hev & Hq & Hacc)].
    + left. destruct (value fetched) as [c1|e] eqn:Hv.
      * destruct (delete_job job_id (backend (rest fetched))) as [[d bk3] evs_del].
        cbn [snd] in Hds, Hdo. cbn [events value rest sink].
        split; [exact Hsk|]. split.
        -- rewrite app_assoc. apply quiet_app; [exact Hhead|].
           apply quiet_app; [exact Hq|split; assumption].
        -- intros c Hc. rewrite <- (Hsame c1 eq_refl). destruct d; congruence.
      * cbn [events value rest]. split; [exact Hsk|]. split.
        -- rewrite app_assoc. apply quiet_app; [exact Hhead|exact Hq].
        -- intros c [=].
    + right. exists obj, ((started ++ evs_poll) ++ e0), e1.
      destruct (value fetched) as [c1|e] eqn:Hv.
      * destruct (delete_job job_id (backend (rest fetched))) as [[d bk3] evs_del].
        cbn [snd] in Hds, Hdo. cbn [events value rest sink].
        exists evs_del, (Ret c1). rewrite Hev.
        split; [rewrite <- !app_assoc; reflexivity|].
        split; [apply quiet_app; assumption|].
        split; [split; assumption|]. split; [exact Hacc|].
        intros c Hc. destruct d; congruence.
      * cbn [events value rest]. exists [], (Raise e). rewrite Hev.
        split; [rewrite <- !app_assoc, app_nil_r; reflexivity|].
        split; [apply quiet_app; assumption|].
        split; [apply quiet_nil|]. split; [exact Hacc|].
        intros c [=].
  - left. cbn [events value rest sink]. split; [reflexivity|].
    split; [exact Hhead|]. intros c [= <-]. reflexivity.
  - left. cbn [events value rest sink]. split; [reflexivity|].
    split; [exact Hhead|]. intros c [=].
Qed.

(** What accepting an object hands to the sink. *)
Lemma accept_delivery obj c sk r sk' evs :
  accept_ obj c sk = (r, sk', evs) ->
  (sends evs = []
   \/ exists u, sqs_queue_url = Some u /\ sends evs = [(u, obj, aws_region)])
  /\ (present sqs_queue_url = false ->
      sends evs = [] /\ sk' = sk
      /\ forall c', r = Ret c' -> sent_to_sqs c' = sent_to_sqs c)
  /\ (forall c', r = Ret c' -> sent_to_sqs c' = sent_to_sqs c + 1 ->
        exists u, sqs_queue_url = Some u /\ sends evs = [(u, obj, aws_region)]
                  /\ sk = SinkSent :: sk').
Proof.
  unfold accept. intros H.
  destruct return_results, (0 <? printed c), sqs_queue_url as [[|u rl]|];
    try (destruct sk as [|a sk1]; [|destruct a as [|e| |e]]);
    cbn [next_delivery _send_to_sqs] in H;
    try (destruct e as [| | | | | | | |code| |];
         try destruct (str_eqb code (lit "AWS.SimpleQueueService.NonExistentQueue")));
    cbn [is_Exception printed sent_to_sqs results_list app] in H;
    injection H as <- <- <-;
    (split; [first [left; reflexivity|right; eexists; split; reflexivity]|]);
    (split; [first [discriminate
                   |intros _; split; [reflexivity|]; split; [reflexivity|];
                    intros c' [= <-]; reflexivity]|]);
    intros c' Hc Hs;
    first [discriminate Hc
          |injection Hc as <-; cbn in Hs;
           first [lia|eexists; split; [reflexivity|]; split; reflexivity]].
Qed.


Lemma status_polls_app rs1 rs2 :
  status_polls (rs1 ++ rs2) = status_polls rs1 ++ status_polls rs2.
Proof. unfold status_polls. apply omap_app. Qed.

Lemma status_polls_repeat job_id n :
  status_polls (repeat (GetStatus job_id) n) = repeat job_id n.
Proof. induction n as [|n IH]; [reflexivity|]. cbn. f_equal. exact IH. Qed.

Lemma status_polls_pages job_id offsets :
  status_polls (page_requests job_id offsets) = [].
Proof. induction offsets as [|o offsets IH]; [reflexivity|exact IH]. Qed.

Lemma posted_app rs1 rs2 : posted (rs1 ++ rs2) = posted rs1 ++ posted rs2.
Proof. unfold posted. apply omap_app. Qed.

Lemma posted_repeat job_id n : posted (repeat (GetStatus job_id) n) = [].
Proof. induction n as [|n IH]; [reflexivity|exact IH]. Qed.

Lemma posted_pages job_id offsets : posted (page_requests job_id offsets) = [].
Proof. induction offsets as [|o offsets IH]; [reflexivity|exact IH]. Qed.

(** A run submits one job. *)
Lemma run_posts_once w :
  posted (requests (events (run_ w))) =
  [SearchJob (QUERY_TEMPLATE order_id) from_time to_time timezone].
Proof.
  destruct (run_trace w) as [(Hr & _)|(job_id & k & offsets & del & Hr & _ & _ & Hdel & _)];
    cbn zeta in Hr; rewrite Hr; [reflexivity|].
  change (PostJob ?j :: ?l) with ([PostJob j] ++ l).
  rewrite !posted_app, posted_repeat, posted_pages.
  destruct Hdel as [->| ->]; reflexivity.
Qed.

(** X1.  The requests of a run of [_run_one_order], whatever the backend
    answers and however the run ends: the submission of the job comes
    first and is the only request when no job identifier is obtained;
    otherwise it is followed by one status request or more for that job,
    then by the requests for pages of that job, each for
    [MESSAGE_PAGE_SIZE] messages, at offsets that start at 0 and grow from
    one page to the next, then by at most one [DELETE] of that job, which
    is the last request. *)
Theorem request_protocol w :
  let r := run_ w in
  let job := SearchJob (QUERY_TEMPLATE order_id) from_time to_time timezone in
  requests (events r) = [PostJob job]
  \/ exists job_id polls offsets del,
       requests (events r) =
         PostJob job :: repeat (GetStatus job_id) (S polls)
         ++ page_requests job_id offsets ++ del
       /\ ascending_from 0 offsets
       /\ (del = [] \/ del = [DeleteJob job_id]).
Proof.
  cbn zeta.
  destruct (run_trace w) as [(Hr & _)|(job_id & k & offsets & del & Hr & _ & Ha & Hd & _)].
  - left. exact Hr.
  - right. exists job_id, k, offsets, del. auto.
Qed.

(** X2.  A run of [_run_one_order] that returns has either stopped before
    the retrieval, with no result and no [DELETE], or has ended with the
    [DELETE] of the job it created; a run that returns a result has asked
    for a page of messages and has deleted its job. *)
Theorem returning_run_cleans_up w c :
  let r := run_ w in
  let job := SearchJob (QUERY_TEMPLATE order_id) from_time to_time timezone in
  value r = Ret c ->
  (c = no_counts
   /\ (requests (events r) = [PostJob job]
       \/ exists job_id polls,
            requests (events r) =
            PostJob job :: repeat (GetStatus job_id) (S polls)))
  \/ exists job_id polls offsets,
       requests (events r) =
         PostJob job :: repeat (GetStatus job_id) (S polls)
         ++ page_requests job_id offsets ++ [DeleteJob job_id]
       /\ (c <> no_counts -> offsets <> []).
Proof.
  cbn zeta. intros Hv.
  destruct (run_trace w)
    as [(Hr & _ & Hc)|(job_id & k & offsets & del & Hr & _ & _ & _ & Hc)];
    cbn zeta in *.
  - left. split; [apply Hc; exact Hv|]. left. exact Hr.
  - destruct (Hc c Hv) as [(-> & -> & ->)|(-> & Hne)].
    + left. split; [reflexivity|]. right. exists job_id, k.
      rewrite Hr. cbn [page_requests map app]. rewrite app_nil_r. reflexivity.
    + right. exists job_id, k, offsets. auto.
Qed.

(** X3.  A run of [_run_one_order] pauses once for every status request
    it makes, for [POLL_INTERVAL_SEC] seconds each time, and at no other
    moment: a run that creates no job does not pause. *)
Theorem one_pause_per_poll w :
  let r := run_ w in
  sleeps (events r) =
  repeat POLL_INTERVAL_SEC (length (status_polls (requests (events r)))).
Proof.
  cbn zeta.
  destruct (run_trace w)
    as [(Hr & Hs & _)|(job_id & k & offsets & del & Hr & Hs & _ & Hd & _)];
    cbn zeta in *; rewrite Hr, Hs; [reflexivity|].
  change (PostJob ?j :: ?l) with ([PostJob j] ++ l).
  rewrite !status_polls_app, status_polls_repeat, status_polls_pages.
  replace (status_polls del) with (@nil json) by (destruct Hd as [->| ->]; reflexivity).
  change (status_polls [PostJob ?j]) with (@nil json).
  rewrite app_nil_l, !app_nil_r, repeat_length. reflexivity.
Qed.

(** X4.  Without a queue address (none given, or an empty one) a run of
    [_run_one_order] hands nothing to the sink, leaves the sink as it was
    and counts no delivery. *)
Theorem no_queue_no_delivery w :
  present sqs_queue_url = false ->
  let r := run_ w in
  sends (events r) = [] /\ sink (rest r) = sink w
  /\ forall c, value r = Ret c -> sent_to_sqs c = 0.
Proof.
  intros Hnone. cbn zeta.
  destruct (run_cases w)
    as [(Hsk & Hq & Hc)|(obj & e0 & e1 & e2 & v & Hev & Hq0 & Hq2 & Hacc & Hv)];
    cbn zeta in *.
  - split; [apply Hq|]. split; [exact Hsk|].
    intros c Hc'. rewrite (Hc c Hc'). reflexivity.
  - destruct (accept_delivery _ _ _ _ _ _ Hacc) as (_ & Hno & _).
    destruct (Hno Hnone) as (Hs & Hsk & Hsent).
    split; [|split; [exact Hsk|]].
    + rewrite Hev, !sends_app, Hs. destruct Hq0 as [-> _], Hq2 as [-> _]. reflexivity.
    + intros c Hc. apply (Hsent c). apply Hv. exact Hc.
Qed.

(** X5.  A run of [_run_one_order] hands at most one object to the sink.
    When it returns with one delivery counted, that delivery is the only
    one, it went to the queue and the region the run was given, it
    carried the very object that the run returns (under [return_results])
    or prints (otherwise), and the sink took it. *)
Theorem delivery_matches_result w :
  let r := run_ w in
  (length (sends (events r)) <= 1)%nat
  /\ forall c, value r = Ret c -> sent_to_sqs c = 1 ->
       exists u obj,
         sqs_queue_url = Some u
         /\ sends (events r) = [(u, obj, aws_region)]
         /\ results_list c = (if return_results then [obj] else [])
         /\ payloads (events r) = (if return_results then [] else [obj])
         /\ sink w = SinkSent :: sink (rest r).
Proof.
  cbn zeta.
  destruct (run_cases w)
    as [(Hsk & Hq & Hc)|(obj & e0 & e1 & e2 & v & Hev & Hq0 & Hq2 & Hacc & Hv)];
    cbn zeta in *.
  - split; [destruct Hq as [-> _]; cbn; lia|].
    intros c Hc' Hone. rewrite (Hc c Hc') in Hone. discriminate.
  - destruct (accept_delivery _ _ _ _ _ _ Hacc) as (Hsends & _ & Hsent).
    assert (Hall : sends (events (run_ w)) = sends e1).
    { rewrite Hev, !sends_app. destruct Hq0 as [-> _], Hq2 as [-> _].
      rewrite app_nil_r. reflexivity. }
    split.
    + rewrite Hall. destruct Hsends as [->|(u & _ & ->)]; cbn; lia.
    + intros c Hc Hone. specialize (Hv c Hc). subst v.
      destruct (Hsent c eq_refl Hone) as (u & Hu & Hs & Hsk).
      destruct (accept_spec _ _ _ _ _ _ _ _ _ Hacc) as [Hshow Hadd].
      destruct (Hadd c eq_refl) as (_ & _ & Hres). cbn in Hres.
      exists u, obj. split; [exact Hu|]. split; [rewrite Hall; exact Hs|].
      split; [rewrite Hres; destruct return_results; reflexivity|].
      split; [|exact Hsk].
      rewrite Hev, !payloads_app, (quiet_payloads _ Hq0), (quiet_payloads _ Hq2).
      rewrite app_nil_r. exact Hshow.
Qed.

End Protocol.

Lemma accept_returns_silently sqs_queue_url aws_region obj c sk :
  stdout_lines (accept sqs_queue_url aws_region true obj c sk).2 = [].
Proof.
  unfold accept.
  destruct sqs_queue_url as [[|u rl]|]; [reflexivity| |reflexivity].
  destruct (next_delivery sk) as [a sk1].
  destruct (send_trace aws_region (u :: rl) obj a) as (_ & _ & Ho).
  destruct (_send_to_sqs (u :: rl) obj aws_region a) as [[b|e] evs]; cbn [snd] in *.
  - cbn [app]. rewrite stdout_lines_app, Ho. reflexivity.
  - destruct (is_Exception e); cbn [snd app];
      rewrite ?stdout_lines_app, Ho; reflexivity.
Qed.

(** A run under [return_results] writes nothing on the primary stream. *)
Lemma run_returns_silently order_id from_time to_time timezone url region w :
  stdout_lines (events (_run_one_order order_id from_time to_time timezone
                          url region true w)) = [].
Proof.
  destruct (run_cases order_id from_time to_time timezone url region true w)
    as [(_ & Hq & _)|(obj & e0 & e1 & e2 & v & Hev & Hq0 & Hq2 & Hacc & _)];
    cbn zeta in *.
  - apply Hq.
  - rewrite Hev, !stdout_lines_app.
    destruct Hq0 as [_ ->], Hq2 as [_ ->].
    pose proof (accept_returns_silently url region obj no_counts (sink w)) as Ha.
    rewrite Hacc in Ha. cbn [snd] in Ha. rewrite Ha. reflexivity.
Qed.

Section TaskRuns.

Variables (order_id from_time to_time timezone : str).
Variables (sqs_queue_url aws_region : option str).

Local Abbreviation task_ :=
  (RunConcurrent._run_one_order_task order_id from_time to_time timezone
     sqs_queue_url aws_region).

(** X6.  A worker's task writes nothing on the primary stream, whatever
    the backend and the sink answer and however the task ends: what the
    concurrent runner prints there, it prints from its main thread. *)
Theorem workers_leave_stdout_alone w :
  stdout_lines (events (task_ w)) = [] /\ payloads (events (task_ w)) = [].
Proof.
  assert (H : stdout_lines (events (task_ w)) = []).
  { unfold RunConcurrent._run_one_order_task.
    pose proof (run_returns_silently order_id from_time to_time timezone
                  sqs_queue_url aws_region w) as H1.
    set (r1 := _run_one_order _ _ _ _ _ _ _ w) in *.
    cbn [events].
    destruct (value r1) as [c|e]; [|exact H1].
    destruct (printed c =? 0); [|exact H1].
    destruct (_next_day_from_time from_time to_time) as [[[nf nt]|]|e];
      [|exact H1|exact H1].
    unfold after. cbn [events]. rewrite stdout_lines_app, H1.
    apply run_returns_silently. }
  split; [exact H|]. apply stdout_payloads. exact H.
Qed.


(** X7.  A task of the concurrent runner runs its order once, or twice
    when the first run returns no result and the day after the start of
    the window can be computed, the second time on the window of that day
    and never a third time.  A task that returns gives back the order
    identifier it was given, with no result or one, as many results in its
    list as it counts, and no more deliveries than results. *)
Theorem task_retries_at_most_once w :
  let t := task_ w in
  let job f t' := SearchJob (QUERY_TEMPLATE order_id) f t' timezone in
  (posted (requests (events t)) = [job from_time to_time]
   \/ exists c next_from next_to,
        value (_run_one_order order_id from_time to_time timezone
                              sqs_queue_url aws_region true w) = Ret c
        /\ printed c = 0
        /\ _next_day_from_time from_time to_time = Ret (Some (next_from, next_to))
        /\ posted (requests (events t)) =
             [job from_time to_time; job next_from next_to])
  /\ forall o c, value t = Ret (o, c) ->
       o = order_id
       /\ (printed c = 0 \/ printed c = 1)
       /\ printed c = Z.of_nat (length (results_list c))
       /\ 0 <= sent_to_sqs c <= printed c.
Proof.
  cbn zeta.
  assert (Hcounts : forall f t' w' c,
            value (_run_one_order order_id f t' timezone sqs_queue_url aws_region
                                  true w') = Ret c ->
            (printed c = 0 \/ printed c = 1)
            /\ printed c = Z.of_nat (length (results_list c))
            /\ 0 <= sent_to_sqs c <= printed c).
  { intros f t' w' c Hv.
    destruct (run_one_order_spec order_id f t' timezone sqs_queue_url aws_region true
                w' c Hv) as [(-> & _)|(obj & Hp & Hs & Hr & _)].
    - cbn. lia.
    - rewrite Hp, Hr. cbn. lia. }
  unfold RunConcurrent._run_one_order_task.
  pose proof (run_posts_once order_id from_time to_time timezone sqs_queue_url
                aws_region true w) as Hp1.
  pose proof (Hcounts from_time to_time w) as Hc1.
  set (r1 := _run_one_order _ _ _ _ _ _ _ w) in *.
  cbn [events value].
  destruct (value r1) as [c1|e] eqn:Hv1.
  2:{ rewrite Hv1. split; [left; exact Hp1|]. intros o c [=]. }
  destruct (Z.eqb_spec (printed c1) 0) as [Hz|Hnz].
  2:{ rewrite Hv1. split; [left; exact Hp1|].
      intros o c [= <- <-]. split; [reflexivity|]. apply Hc1. reflexivity. }
  destruct (_next_day_from_time from_time to_time) as [[[nf nt]|]|e].
  - unfold after. cbn [events value]. split.
    + right. exists c1, nf, nt. split; [reflexivity|]. split; [exact Hz|].
      split; [reflexivity|].
      rewrite requests_app, posted_app, Hp1.
      rewrite (run_posts_once order_id nf nt timezone sqs_queue_url aws_region true).
      reflexivity.
    + intros o c Hv.
      destruct (value (_run_one_order _ nf nt _ _ _ _ _)) as [c2|e] eqn:Hv2;
        [|discriminate].
      injection Hv as <- <-. split; [reflexivity|]. eapply Hcounts. exact Hv2.
  - rewrite Hv1. split; [left; exact Hp1|].
    intros o c [= <- <-]. split; [reflexivity|]. apply Hc1. reflexivity.
  - cbn [events value]. split; [left; exact Hp1|]. intros o c [=].
Qed.

End TaskRuns.

(** A run that finds a result: one status request, one page, the
    deletion. *)
Lemma returning_run_witness :
  (Counts 1 0 [] = no_counts
   /\ (requests (events (Scenario.run Scenario.found_a)) = [PostJob Scenario.job]
       \/ exists job_id polls,
            requests (events (Scenario.run Scenario.found_a)) =
            PostJob Scenario.job :: repeat (GetStatus job_id) (S polls)))
  \/ exists job_id polls offsets,
       requests (events (Scenario.run Scenario.found_a)) =
         PostJob Scenario.job :: repeat (GetStatus job_id) (S polls)
         ++ page_requests job_id offsets ++ [DeleteJob job_id]
       /\ (Counts 1 0 [] <> no_counts -> offsets <> []).
Proof.
  apply (returning_run_cleans_up (lit "ABC123") (lit "2024-01-01T00:00:00")
           (lit "2024-01-01T23:59:59") (lit "UTC") None None false
           Scenario.found_a (Counts 1 0 [])).
  vm_compute. reflexivity.
Defined.

(** No queue is given: the result is printed and the sink is left alone. *)
Lemma no_queue_witness :
  sends (events (Scenario.run Scenario.found_a)) = []
  /\ sink (rest (Scenario.run Scenario.found_a)) = [SinkSent]
  /\ forall c, value (Scenario.run Scenario.found_a) = Ret c -> sent_to_sqs c = 0.
Proof.
  apply (no_queue_no_delivery (lit "ABC123") (lit "2024-01-01T00:00:00")
           (lit "2024-01-01T23:59:59") (lit "UTC") None None false Scenario.found_a).
  reflexivity.
Defined.

(** A queue is given and takes the delivery. *)
Lemma delivery_witness :
  exists u obj,
    Some (lit "https://sqs.example/queue") = Some u
    /\ sends (events (_run_one_order (lit "ABC123") (lit "2024-01-01T00:00:00")
                        (lit "2024-01-01T23:59:59") (lit "UTC")
                        (Some (lit "https://sqs.example/queue")) None false
                        Scenario.found_a)) = [(u, obj, None)]
    /\ results_list (Counts 1 1 []) = []
    /\ payloads (events (_run_one_order (lit "ABC123") (lit "2024-01-01T00:00:00")
                           (lit "2024-01-01T23:59:59") (lit "UTC")
                           (Some (lit "https://sqs.example/queue")) None false
                           Scenario.found_a)) = [obj]
    /\ sink Scenario.found_a =
       SinkSent :: sink (rest (_run_one_order (lit "ABC123") (lit "2024-01-01T00:00:00")
                                 (lit "2024-01-01T23:59:59") (lit "UTC")
                                 (Some (lit "https://sqs.example/queue")) None false
                                 Scenario.found_a)).
Proof.
  apply (delivery_matches_result (lit "ABC123") (lit "2024-01-01T00:00:00")
           (lit "2024-01-01T23:59:59") (lit "UTC")
           (Some (lit "https://sqs.example/queue")) None false
           Scenario.found_a); vm_compute; reflexivity.
Defined.

(** Nothing on the first day, a result on the second. *)
Lemma task_retry_witness :
  lit "ABC123" = lit "ABC123"
  /\ (printed (Counts 1 0 [Scenario.object_a]) = 0
      \/ printed (Counts 1 0 [Scenario.object_a]) = 1)
  /\ printed (Counts 1 0 [Scenario.object_a]) =
     Z.of_nat (length (results_list (Counts 1 0 [Scenario.object_a])))
  /\ 0 <= sent_to_sqs (Counts 1 0 [Scenario.object_a])
       <= printed (Counts 1 0 [Scenario.object_a]).
Proof.
  apply (task_retries_at_most_once (lit "ABC123") (lit "2024-01-01T00:00:00")
           (lit "2024-01-01T23:59:59") (lit "UTC") None None
           (World [Scenario.accepted; Scenario.done_empty; Scenario.removed;
                   Scenario.accepted; Scenario.done_one; Scenario.page_a;
                   Scenario.removed] [])).
  vm_compute. reflexivity.
Defined.

(** ** The rows of a CSV, the sequential loop and the progress of a batch *)

Lemma lstrip_head s :
  match lstrip s with [] => True | c :: _ => isspace c = false end.
Proof.
  induction s as [|c s IH]; [exact I|]. cbn [lstrip].
  destruct (isspace c) eqn:Hc; [exact IH|exact Hc].
Qed.

Lemma lstrip_fix s :
  match s with [] => True | c :: _ => isspace c = false end -> lstrip s = s.
Proof. destruct s as [|c s]; [reflexivity|]. cbn. intros ->. reflexivity. Qed.

Lemma lstrip_suffix s : exists p, s = p ++ lstrip s.
Proof.
  induction s as [|c s [p IH]]; [exists []; reflexivity|]. cbn [lstrip].
  destruct (isspace c).
  - exists (c :: p). cbn. f_equal. exact IH.
  - exists []. reflexivity.
Qed.

(** [strip] leaves a stripped text as it is. *)
Lemma strip_idempotent s : strip (strip s) = strip s.
Proof.
  unfold strip.
  pose proof (lstrip_head s) as Ht. set (t := lstrip s) in *.
  pose proof (lstrip_head (rev t)) as Hu.
  destruct (lstrip_suffix (rev t)) as [p Hp]. set (u := lstrip (rev t)) in *.
  assert (Ht' : t = rev u ++ rev p).
  { rewrite <- (rev_involutive t), Hp, rev_app_distr. reflexivity. }
  assert (H1 : lstrip (rev u) = rev u).
  { apply lstrip_fix. destruct (rev u) as [|c r] eqn:Hr; [exact I|].
    rewrite Ht' in Ht. cbn in Ht. exact Ht. }
  rewrite H1, rev_involutive. rewrite (lstrip_fix u Hu). reflexivity.
Qed.

Lemma lower_length s : (length s <= length (lower s))%nat.
Proof. apply lower_from_length. Qed.

(** A text that [strptime] reads as a date has five characters or more. *)
Lemma strptime_ymd_length s d : strptime_ymd s = Some d -> (5 <= length s)%nat.
Proof.
  destruct s as [|y1 [|y2 [|y3 [|y4 [|dash r]]]]]; try discriminate.
  intros _. cbn [length]. lia.
Qed.

Lemma date_is_no_header s d :
  strptime_ymd s = Some d -> str_eqb (lower s) (lit "date") = false.
Proof.
  intros H. apply strptime_ymd_length in H.
  apply bool_decide_eq_false. intros Heq.
  pose proof (lower_length s) as Hlen. rewrite Heq in Hlen. cbn in Hlen. lia.
Qed.

(** X8.  The rows that [_read_csv_order_dates] returns are clean: the
    identifier is not empty, neither it nor the date begins or ends with a
    blank, and the date is one that [strptime] reads with the format
    [%Y-%m-%d].  They are, in the order of the file, some of the rows of
    the file (their first two columns, stripped), and every row of the
    file is returned or warned about at most once. *)
Theorem kept_rows_are_clean csv :
  Forall (fun r : str * str =>
            r.1 <> [] /\ trimmed r.1 /\ trimmed r.2 /\ is_Some (strptime_ymd r.2))
         (_read_csv_order_dates csv).1
  /\ (_read_csv_order_dates csv).1 `sublist_of` omap columns csv
  /\ (length (_read_csv_order_dates csv).1 + length (_read_csv_order_dates csv).2
      <= length csv)%nat.
Proof.
  unfold _read_csv_order_dates. generalize 0 as i.
  induction csv as [|row csv IH]; intros i.
  - cbn. split; [constructor|]. split; [constructor|lia].
  - cbn [read_rows]. specialize (IH (i + 1)).
    destruct (read_rows (i + 1) csv) as [kept evs]. cbn [fst snd] in IH.
    destruct IH as (IH1 & IH2 & IH3).
    assert (Hskip :
              Forall (fun r : str * str =>
                        r.1 <> [] /\ trimmed r.1 /\ trimmed r.2
                        /\ is_Some (strptime_ymd r.2)) kept
              /\ kept `sublist_of` omap columns (row :: csv)
              /\ (length kept + length evs <= length (row :: csv))%nat).
    { split; [exact IH1|]. split; [|cbn [length]; lia].
      change (omap columns (row :: csv))
        with (match columns row with
              | Some x => x :: omap columns csv
              | None => omap columns csv
              end).
      destruct (columns row); [apply sublist_cons|]; exact IH2. }
    destruct row as [|c0 [|c1 row]]; [exact Hskip|exact Hskip|].
    pose proof (strip_idempotent c0) as H0. pose proof (strip_idempotent c1) as H1.
    change (omap columns ((c0 :: c1 :: row) :: csv))
      with ((strip c0, strip c1) :: omap columns csv) in *.
    destruct (strip c0) as [|a o] eqn:Ho; [exact Hskip|].
    destruct (strip c1) as [|b d] eqn:Hd; [exact Hskip|].
    destruct (_ && _); [exact Hskip|].
    destruct (strptime_ymd (b :: d)) as [day|] eqn:Hp; [|cbn [fst snd length] in *].
    + cbn [fst snd length]. split; [|split].
      * constructor; [|exact IH1]. cbn [fst snd].
        split; [discriminate|]. split; [exact H0|]. split; [exact H1|].
        rewrite Hp. eauto.
      * apply sublist_skip. exact IH2.
      * lia.
    + split; [exact IH1|]. split; [apply Hskip|lia].
Qed.

(** X9.  No well-formed row is lost: a row of two columns or more whose
    identifier is not blank and is not one of the header names, and whose
    date [strptime] reads, is returned wherever it stands in the file. *)
Theorem wellformed_row_is_kept csv c0 c1 more d :
  In (c0 :: c1 :: more) csv ->
  strip c0 <> [] ->
  ~ In (lower (strip c0)) header_names ->
  strptime_ymd (strip c1) = Some d ->
  In (strip c0, strip c1) (_read_csv_order_dates csv).1.
Proof.
  intros Hin Hid Hname Hdate.
  unfold _read_csv_order_dates. generalize 0 as i.
  induction csv as [|row csv IH]; intros i; [destruct Hin|].
  cbn [read_rows]. specialize (fun H => IH H (i + 1)).
  destruct (read_rows (i + 1) csv) as [kept evs]. cbn [fst] in IH.
  destruct Hin as [->|Hin].
  - destruct (strip c0) as [|a o] eqn:Ho; [congruence|].
    pose proof (strptime_ymd_length _ _ Hdate) as Hlen.
    pose proof (date_is_no_header _ _ Hdate) as Hnd.
    destruct (strip c1) as [|b dd] eqn:Hd; [cbn in Hlen; lia|].
    assert (Hno : existsb (str_eqb (lower (a :: o)))
                    [lit "orderid"; lit "order_id"; lit "order id"] = false).
    { apply not_true_is_false. intros Hex. apply existsb_exists in Hex as (n & Hn & He).
      apply bool_decide_eq_true in He. apply Hname. rewrite He. exact Hn. }
    rewrite Hno, Hnd. cbn [orb]. rewrite andb_false_r, Hdate. cbn. auto.
  - specialize (IH Hin).
    destruct row as [|r0 [|r1 row]]; cbn [fst]; try exact IH.
    destruct (strip r0); [exact IH|]. destruct (strip r1); [exact IH|].
    destruct (_ && _); [exact IH|].
    destruct (strptime_ymd (_ :: _)); cbn [fst]; [apply in_cons|]; exact IH.
Qed.

(** The first order of a CSV with a header. *)
Lemma wellformed_row_witness :
  In (strip (lit "A1"), strip (lit "2024-01-01"))
     (_read_csv_order_dates Scenario.two_orders).1.
Proof.
  apply (wellformed_row_is_kept Scenario.two_orders (lit "A1") (lit "2024-01-01") []
           (Date 2024 1 1)).
  - right. left. reflexivity.
  - vm_compute. discriminate.
  - vm_compute. intros [H|[H|[H|[]]]]; discriminate.
  - vm_compute. reflexivity.
Defined.

(** Blanks and digits beyond ASCII: an em space before the identifier is
    stripped, a row whose identifier is an em space is passed over, and a
    date in Arabic-Indic digits is one that [strptime] reads. *)
Example rows_beyond_ascii :
  _read_csv_order_dates
    [[lit "orderID"; lit "date"];
     [0x2003%N :: lit "A"; lit "2024-01-01"];
     [[0x2003%N]; lit "2024-01-01"];
     [lit "B"; [0x662; 0x660; 0x662; 0x664]%N ++ lit "-01-01"];
     [lit "C"; lit "2024-01-1" ++ [0x665%N]]] =
  ([(lit "A", lit "2024-01-01");
    (lit "B", [0x662; 0x660; 0x662; 0x664]%N ++ lit "-01-01");
    (lit "C", lit "2024-01-1" ++ [0x665%N])],
   [])
  /\ strptime_ymd ([0x662; 0x660; 0x662; 0x664]%N ++ lit "-01-01") =
     Some (Date 2024 1 1)
  /\ strptime_ymd (lit "2024-01-1" ++ [0x665%N]) = Some (Date 2024 1 15).
Proof. repeat split; vm_compute; reflexivity. Qed.

Lemma after_nil {A} (r : ran A) : after [] r = r.
Proof. destruct r. reflexivity. Qed.

Lemma after_after {A} evs1 evs2 (r : ran A) :
  after evs1 (after evs2 r) = after (evs1 ++ evs2) r.
Proof. unfold after. cbn. rewrite app_assoc. reflexivity. Qed.

Section Sequential.

Variables (timezone : str) (sqs_queue_url aws_region : option str).

Local Abbreviation loop_ := (csv_loop timezone sqs_queue_url aws_region).

(** X10.  The sequential loop over the rows of a CSV goes from left to
    right and composes: running it over two lists of rows put end to end
    is running it over the first, and then, from the totals and the state
    of the backend and of the sink that this leaves, over the second.  An
    exception in the first part is the outcome of the whole, and the rows
    after it are not run. *)
Theorem csv_loop_app pre post i tp ts nf w :
  loop_ i (pre ++ post) tp ts nf w =
  match value (loop_ i pre tp ts nf w) with
  | Raise e => loop_ i pre tp ts nf w
  | Ret (tp', ts', nf') =>
      after (events (loop_ i pre tp ts nf w))
        (loop_ (i + Z.of_nat (length pre)) post tp' ts' nf'
               (rest (loop_ i pre tp ts nf w)))
  end.
Proof.
  revert i tp ts nf w.
  induction pre as [|[order_id date_str] pre IH]; intros i tp ts nf w.
  - cbn [app csv_loop value events rest length]. rewrite Z.add_0_r, after_nil.
    reflexivity.
  - cbn [app csv_loop].
    destruct (strptime_ymd date_str) as [d|]; [|reflexivity].
    destruct (day_window d) as [from_time to_time].
    set (this := match value (_run_one_order _ _ _ _ _ _ _ w) with
                 | Ret _ => _
                 | Raise _ => _
                 end).
    clearbody this.
    destruct (value this) as [c|e]; [|reflexivity].
    rewrite IH.
    set (tp1 := tp + printed c). set (ts1 := ts + sent_to_sqs c).
    set (nf1 := if printed c =? 0 then nf ++ [order_id] else nf).
    set (first := loop_ (i + 1) pre tp1 ts1 nf1 (rest this)).
    replace (i + 1 + Z.of_nat (length pre))
      with (i + Z.of_nat (length ((order_id, date_str) :: pre)))
      by (cbn [length]; lia).
    unfold after. cbn [value events rest].
    destruct (value first) as [[[tp' ts'] nf']|e] eqn:Hv;
      [|rewrite Hv; reflexivity].
    cbn [value events rest]. rewrite app_assoc. reflexivity.
Qed.


(** The counts of a run that prints its results. *)
Lemma run_counts order_id from_time to_time w c :
  value (_run_one_order order_id from_time to_time timezone
                        sqs_queue_url aws_region false w) = Ret c ->
  (printed c = 0 \/ printed c = 1) /\ 0 <= sent_to_sqs c <= printed c.
Proof.
  intros Hv.
  destruct (run_one_order_spec order_id from_time to_time timezone sqs_queue_url
              aws_region false w c Hv) as [(-> & _)|(obj & Hp & Hs & _)];
    cbn; lia.
Qed.

Lemma csv_loop_tally rows :
  forall i tp0 ts0 nf0 w tp ts nf,
    value (loop_ i rows tp0 ts0 nf0 w) = Ret (tp, ts, nf) ->
    exists nf1,
      nf = nf0 ++ nf1
      /\ nf1 `sublist_of` map fst rows
      /\ (tp - tp0) + Z.of_nat (length nf1) = Z.of_nat (length rows)
      /\ 0 <= ts - ts0 <= tp - tp0.
Proof.
  induction rows as [|[order_id date_str] rows IH]; intros i tp0 ts0 nf0 w tp ts nf.
  - cbn. intros [= <- <- <-]. exists []. rewrite app_nil_r.
    split; [reflexivity|]. split; [constructor|]. cbn. lia.
  - cbn [csv_loop].
    destruct (strptime_ymd date_str) as [d|]; [|discriminate].
    destruct (day_window d) as [from_time to_time].
    set (r1 := _run_one_order order_id from_time to_time _ _ _ _ w).
    set (this := match value r1 with Ret _ => _ | Raise _ => _ end).
    assert (Hthis : forall c, value this = Ret c ->
                      (printed c = 0 \/ printed c = 1)
                      /\ 0 <= sent_to_sqs c <= printed c).
    { subst this. destruct (value r1) as [c1|e] eqn:Hv1.
      - destruct (printed c1 =? 0).
        + destruct (_next_day_from_time from_time to_time) as [[[nf' nt']|]|e].
          * unfold after. cbn [value]. intros c Hc. eapply run_counts. exact Hc.
          * intros c Hc. rewrite Hv1 in Hc. injection Hc as <-.
            eapply run_counts. exact Hv1.
          * discriminate.
        + intros c Hc. rewrite Hv1 in Hc. injection Hc as <-.
          eapply run_counts. exact Hv1.
      - intros c Hc. rewrite Hv1 in Hc. discriminate. }
    clearbody this. clear r1.
    destruct (value this) as [c|e] eqn:Hv; [|discriminate].
    unfold after. cbn [value]. intros Hl.
    destruct (IH _ _ _ _ _ _ _ _ Hl) as (nf1 & -> & Hsub & Htp & Hts).
    destruct (Hthis c eq_refl) as [Hp Hs].
    destruct (Z.eqb_spec (printed c) 0) as [Hz|Hnz].
    + exists (order_id :: nf1). rewrite <- app_assoc.
      split; [reflexivity|]. split; [apply sublist_skip; exact Hsub|].
      cbn [length map]. lia.
    + exists nf1. split; [reflexivity|]. split; [apply sublist_cons; exact Hsub|].
      cbn [length]. lia.
Qed.

(** X11.  When the sequential loop over the rows of a CSV comes to its
    end, every row is counted once, as found or as not found: the number
    of results and the number of identifiers not found add up to the
    number of rows; the identifiers not found are identifiers of the file,
    in the order of the file; the deliveries are not more than the
    results; and the number of results is the number of payloads
    printed. *)
Theorem csv_totals_add_up rows w tp ts nf :
  value (loop_ 0 rows 0 0 [] w) = Ret (tp, ts, nf) ->
  tp + Z.of_nat (length nf) = Z.of_nat (length rows)
  /\ nf `sublist_of` map fst rows
  /\ 0 <= ts <= tp
  /\ tp = Z.of_nat (length (payloads (events (loop_ 0 rows 0 0 [] w)))).
Proof.
  intros Hv.
  destruct (csv_loop_tally rows 0 0 0 [] w tp ts nf Hv) as (nf1 & -> & Hsub & Htp & Hts).
  cbn [app]. split; [lia|]. split; [exact Hsub|]. split; [lia|].
  pose proof (csv_loop_total timezone sqs_queue_url aws_region rows 0 0 0 [] w
                tp ts nf1 Hv) as H.
  cbn zeta in H. lia.
Qed.

End Sequential.

(** Two orders, the first found on its day, the second not found on its
    day nor on the day after. *)
Lemma csv_totals_witness :
  1 + Z.of_nat (length [lit "B2"]) =
    Z.of_nat (length [(lit "A1", lit "2024-01-01"); (lit "B2", lit "2024-01-01")])
  /\ [lit "B2"]
     `sublist_of` map fst [(lit "A1", lit "2024-01-01"); (lit "B2", lit "2024-01-01")]
  /\ 0 <= 0 <= 1
  /\ 1 = Z.of_nat (length (payloads (events
            (csv_loop (lit "UTC") None None 0
               [(lit "A1", lit "2024-01-01"); (lit "B2", lit "2024-01-01")] 0 0 []
               (World (backend Scenario.found_a ++ backend Scenario.nothing_found)
                      []))))).
Proof.
  apply (csv_totals_add_up (lit "UTC") None None
           [(lit "A1", lit "2024-01-01"); (lit "B2", lit "2024-01-01")]
           (World (backend Scenario.found_a ++ backend Scenario.nothing_found) [])).
  vm_compute. reflexivity.
Defined.

(** The reading of a CSV writes warnings about rows and nothing else. *)
Lemma read_rows_warnings i csv :
  Forall (fun e => exists date_str row, e = Stderr (CsvSkipRow date_str row))
         (read_rows i csv).2.
Proof.
  revert i. induction csv as [|row csv IH]; intros i; [constructor|].
  cbn [read_rows]. specialize (IH (i + 1)).
  destruct (read_rows (i + 1) csv) as [kept evs]. cbn [snd] in IH.
  destruct row as [|c0 [|c1 row]]; [exact IH|exact IH|].
  destruct (strip c0); [exact IH|]. destruct (strip c1) as [|b d]; [exact IH|].
  destruct (_ && _); [exact IH|].
  destruct (strptime_ymd (b :: d)); cbn [snd]; [exact IH|].
  constructor; [eauto|exact IH].
Qed.

Lemma warnings_requests i csv : requests (read_rows i csv).2 = [].
Proof.
  pose proof (read_rows_warnings i csv) as H.
  induction H as [|e evs (date_str & row & ->) _ IH]; [reflexivity|exact IH].
Qed.

(** The first request of the events that begin with a run and go on. *)
Lemma head_requests_run order_id from_time to_time timezone sqs region w evs :
  head (requests (events (_run_one_order order_id from_time to_time timezone
                            sqs region false w) ++ evs)) =
  Some (PostJob (SearchJob (QUERY_TEMPLATE order_id) from_time to_time timezone)).
Proof.
  destruct (run_starts_with_post order_id from_time to_time timezone sqs region
              false w) as [evs0 ->].
  reflexivity.
Qed.

(** The first request of [main] for a single order, once the window is
    known: the submission of the job that a dry run shows. *)
Ltac single_run_head w :=
  let Hin := fresh "Hin" in
  intros [Hin|[]]; injection Hin as <-;
  match goal with
  | |- context [value (_run_one_order ?o ?f ?t ?tz ?s ?r false w)] =>
      let r1 := fresh "r1" in
      let Hhead := fresh "Hhead" in
      set (r1 := _run_one_order o f t tz s r false w);
      pose proof (head_requests_run o f t tz s r w) as Hhead; fold r1 in Hhead;
      destruct (value r1) as [?c|?e];
        [|cbn [events]; rewrite <- (app_nil_r (events r1)); apply Hhead];
      destruct (_next_day_from_time f t) as [[[?nf ?nt]|]|?e];
        [| |cbn [events]; rewrite <- (app_nil_r (events r1)); apply Hhead];
      try match goal with
          | |- context [if ?b then _ else _] => destruct b
          end;
      unfold after; cbn [value events rest];
      repeat match goal with
             | |- context [match value ?x with _ => _ end] => destruct (value x)
             | |- context [if ?b then _ else _] => destruct b
             end;
      cbn [events]; rewrite <- ?app_assoc;
      first [apply Hhead|rewrite <- (app_nil_r (events r1)); apply Hhead]
  end.

(** X12.  The dry run is faithful: the search job that [--debug] shows is
    the job that the same command line without [--debug] submits in its
    first request, whatever the backend then answers (for a CSV, the job
    of the first row). *)
Theorem dry_run_shows_first_job a w job :
  debug a = true ->
  In (Stderr (DebugQuery job)) (events (main a w)) ->
  forall w',
    head (requests (events (main (with_debug false a) w'))) = Some (PostJob job).
Proof.
  intros Hdbg Hin w'. revert Hin. unfold main. rewrite Hdbg.
  cbn [with_debug access_id access_key file debug timezone_arg sqs_arg
       aws_region_env input day_arg from_arg to_arg now_utc].
  destruct (negb (present (access_id a)) || negb (present (access_key a))).
  { cbn. intros [H|[]]. discriminate. }
  destruct (file a) as [csv|].
  - unfold _read_csv_order_dates.
    pose proof (read_rows_warnings 0 csv) as Hwarn.
    pose proof (warnings_requests 0 csv) as Hreq.
    destruct (read_rows 0 csv) as [rows warnings]. cbn [snd] in Hwarn, Hreq.
    assert (Hnot : forall j, ~ In (Stderr (DebugQuery j)) warnings).
    { intros j Hj. apply (proj1 (List.Forall_forall _ _) Hwarn) in Hj
        as (date_str & row & [=]). }
    destruct rows as [|[order_id date_str] rows'].
    { cbn [events]. intros Hin. apply in_app_or in Hin as [Hin|[Hin|[]]].
      - destruct (Hnot _ Hin).
      - discriminate. }
    destruct (strptime_ymd date_str) as [d|] eqn:Hd.
    2:{ cbn [events]. intros Hin. destruct (Hnot _ Hin). }
    destruct (day_window d) as [from_time to_time] eqn:Hwin.
    cbn [events]. intros Hin.
    apply in_app_or in Hin as [Hin|[Hin|[Hin|[]]]];
      [destruct (Hnot _ Hin)| |discriminate].
    injection Hin as <-.
    cbn [csv_loop]. rewrite Hd, Hwin. change (0 <? 0) with false. cbv iota.
    set (r1 := _run_one_order order_id from_time to_time _ _ _ _ w').
    set (this := match value r1 with Ret _ => _ | Raise _ => _ end).
    assert (Hthis : exists evs, events this = events r1 ++ evs).
    { subst this. destruct (value r1) as [c|e]; [|exists []; rewrite app_nil_r; reflexivity].
      destruct (printed c =? 0); [|exists []; rewrite app_nil_r; reflexivity].
      destruct (_next_day_from_time from_time to_time) as [[[nf nt]|]|e];
        [|exists []; rewrite app_nil_r; reflexivity
         |exists []; rewrite app_nil_r; reflexivity].
      unfold after. cbn [events]. rewrite <- app_assoc. eauto. }
    destruct Hthis as [evs Hevs]. clearbody this.
    assert (Hgoal : forall tail,
              head (requests (warnings ++ ([] ++ events this) ++ tail)) =
              Some (PostJob (SearchJob (QUERY_TEMPLATE order_id) from_time to_time
                                       (timezone_arg a)))).
    { intros tail. rewrite requests_app, Hreq, Hevs. cbn [app].
      rewrite <- app_assoc. apply head_requests_run. }
    destruct (value this) as [c|e].
    + unfold after. cbn [value events rest].
      destruct (value (csv_loop _ _ _ _ rows' _ _ _ _)) as [[[tp ts] nf]|e];
        cbn [events]; rewrite ?app_assoc; rewrite <- ?app_assoc; apply Hgoal.
    + cbn [value events]. specialize (Hgoal []). rewrite app_nil_r in Hgoal.
      exact Hgoal.
  - destruct (present (day_arg a)).
    + destruct (strptime_ymd (default [] (day_arg a))) as [d|].
      * destruct (day_window d) as [from_time to_time]. single_run_head w'.
      * cbn. intros [H|[]]. discriminate.
    + destruct (_resolve_relative_time _ _ _) as [[[from_time to_time] tz]|e].
      * single_run_head w'.
      * cbn. intros [].
Qed.

Lemma dry_run_witness :
  head (requests (events (main (with_debug false Scenario.dry_run)
                            Scenario.found_a))) =
  Some (PostJob Scenario.job).
Proof.
  apply (dry_run_shows_first_job Scenario.dry_run (World [] []) Scenario.job).
  - reflexivity.
  - vm_compute. left. reflexivity.
Defined.

Section Progress.

Variables (a : RunConcurrent.args) (rows : list (str * str)).
Variable task_world : nat -> world.

(** When no task is fatal, the loop over the futures writes one progress
    line for each, in the order in which they are handed to it. *)
Lemma collect_events completion :
  (forall i, i ∈ completion -> fatal a rows task_world i = false) ->
  forall m,
    (RunConcurrent.collect a rows task_world completion m).2 =
    omap (progress_line a rows task_world) completion.
Proof.
  induction completion as [|i completion IH]; intros Hok m; [reflexivity|].
  assert (Hok' : forall k, k ∈ completion -> fatal a rows task_world k = false).
  { intros k Hk. apply Hok. right. exact Hk. }
  pose proof (Hok i ltac:(left)) as Hi. unfold fatal in Hi.
  cbn [RunConcurrent.collect].
  change (omap (progress_line a rows task_world) (i :: completion))
    with (match progress_line a rows task_world i with
          | Some e => e :: omap (progress_line a rows task_world) completion
          | None => omap (progress_line a rows task_world) completion
          end).
  unfold progress_line at 1.
  destruct (rows !! i) as [[order_id date_str]|]; [|apply IH; exact Hok'].
  destruct (RunConcurrent.task a rows task_world i) as [t|]; [|apply IH; exact Hok'].
  destruct (value t) as [[o c]|e].
  - rewrite <- (IH Hok' (<[i:=(order_id, printed c, sent_to_sqs c, results_list c)]> m)).
    destruct (RunConcurrent.collect _ _ _ completion _) as [r evs]. reflexivity.
  - apply negb_false_iff in Hi. rewrite Hi.
    rewrite <- (IH Hok' (<[i:=(order_id, 0, 0, [])]> m)).
    destruct (RunConcurrent.collect _ _ _ completion _) as [r evs]. reflexivity.
Qed.

(** The table that the loop fills does not depend on the order of
    completion. *)
Lemma collect_table completion1 completion2 :
  completion1 ≡ₚ completion2 ->
  (forall i, i ∈ completion1 -> fatal a rows task_world i = false) ->
  (RunConcurrent.collect a rows task_world completion1 ∅).1 =
  (RunConcurrent.collect a rows task_world completion2 ∅).1.
Proof.
  intros Hperm Hok1.
  assert (Hok2 : forall i, i ∈ completion2 -> fatal a rows task_world i = false).
  { intros i Hi. apply Hok1. rewrite Hperm. exact Hi. }
  destruct (collect_ok a rows task_world completion1 Hok1 ∅) as (m1 & -> & H1).
  destruct (collect_ok a rows task_world completion2 Hok2 ∅) as (m2 & -> & H2).
  f_equal. apply map_eq. intros j. rewrite H1, H2.
  destruct (decide (j ∈ completion1)) as [Hin|Hnin],
           (decide (j ∈ completion2)) as [Hin'|Hnin']; try reflexivity.
  - exfalso. apply Hnin'. rewrite <- Hperm. exact Hin.
  - exfalso. apply Hnin. rewrite Hperm. exact Hin'.
Qed.

End Progress.

(** X13.  In a batch of the concurrent runner in which no task ends in an
    exception that is not an [Exception], the order in which the tasks
    complete shows in the progress lines and nowhere else: the runner
    writes one progress line for each task, in the order of completion,
    and the rest of what it writes (the payloads, the identifiers not
    found, the number of deliveries) and its exit status are the same for
    every order of completion. *)
Theorem completion_order_shows_in_progress_only a task_world csv :
  configured a csv ->
  let rows := (_read_csv_order_dates csv).1 in
  (forall i, (i < length rows)%nat -> fatal a rows task_world i = false) ->
  (forall i, (i < length rows)%nat -> is_Some (progress_line a rows task_world i))
  /\ exists status before after_,
       forall completion,
         completion ≡ₚ seq 0 (length rows) ->
         RunConcurrent.main a task_world completion =
         (status,
          before ++ omap (progress_line a rows task_world) completion ++ after_).
Proof.
  intros (Hid & Hkey & Hfile & Hworkers) rows Hnone.
  pose proof (read_rows_spec 0 csv) as [Hvalid _].
  fold (_read_csv_order_dates csv) in Hvalid. fold rows in Hvalid.
  split.
  { intros i Hi. unfold progress_line.
    destruct (lookup_lt_is_Some_2 rows i Hi) as [[order_id date_str] Hrow].
    destruct (task_is_Some a rows task_world Hvalid i Hi) as [t Ht].
    rewrite Hrow, Ht. eauto. }
  assert (Hok : forall completion, completion ≡ₚ seq 0 (length rows) ->
                  forall i, i ∈ completion -> fatal a rows task_world i = false).
  { intros completion Hperm i Hi. rewrite Hperm in Hi.
    apply list_elem_of_In, in_seq in Hi. apply Hnone. lia. }
  unfold RunConcurrent.main. rewrite Hid, Hkey, Hfile. cbn [negb orb].
  subst rows. unfold _read_csv_order_dates in *.
  destruct (read_rows 0 csv) as [rows warnings]. cbn [fst snd] in *.
  destruct rows as [|row0 rows'].
  { exists (Ret 1), (warnings ++ [Stderr CsvNoRows]), [].
    intros completion Hperm. cbn in Hperm. apply Permutation_nil_r in Hperm.
    subst completion. cbn. rewrite app_nil_r. reflexivity. }
  cbv iota. set (rows := row0 :: rows') in *. clearbody rows.
  destruct (Z.leb_spec (RunConcurrent.workers a) 0) as [|_]; [lia|].
  assert (Hcheck : forallb (fun r : str * str =>
                              bool_decide (is_Some (strptime_ymd r.2))) rows = true).
  { apply forallb_forall. intros r Hr. apply bool_decide_eq_true.
    apply (proj1 (Forall_forall _ _) Hvalid). apply list_elem_of_In. exact Hr. }
  rewrite Hcheck. cbn [negb].
  set (n := length rows) in *.
  set (running := warnings ++ [Stderr (Running (Z.of_nat n) (RunConcurrent.workers a))]).
  destruct (collect_ok a rows task_world (seq 0 n) (Hok _ (reflexivity _)) ∅)
    as (m & Hm & _).
  exists (match RunConcurrent.emit (seq 0 n) m 0 0 [] with
          | (Raise e, _) => Raise e
          | (Ret (total_printed, _, _), _) => Ret (if total_printed =? 0 then 1 else 0)
          end).
  exists running.
  exists (match RunConcurrent.emit (seq 0 n) m 0 0 [] with
          | (Raise e, evs') => evs'
          | (Ret (_, total_sent, not_found), evs') =>
              evs'
              ++ (match not_found with
                  | [] => []
                  | _ => [Stderr EmptyLine; Stderr (NotFoundIds not_found)]
                  end)
              ++ [Stderr EmptyLine; Stderr (Published total_sent); Stderr Elapsed]
          end).
  intros completion Hperm.
  pose proof (collect_table a rows task_world completion (seq 0 n) Hperm
                (Hok _ Hperm)) as Htable.
  pose proof (collect_events a rows task_world completion (Hok _ Hperm) ∅) as Hevs.
  rewrite Hm in Htable.
  destruct (RunConcurrent.collect a rows task_world completion ∅) as [r evs].
  cbn [fst snd] in Htable, Hevs. subst r evs.
  destruct (RunConcurrent.emit (seq 0 n) m 0 0 []) as [[[[tp ts] nf]|e] evs'];
    rewrite <- ?app_assoc; reflexivity.
Qed.

Lemma completion_order_witness :
  exists status before after_,
    forall completion,
      completion ≡ₚ seq 0 2 ->
      RunConcurrent.main Scenario.batch Scenario.first_unreachable completion =
      (status,
       before
       ++ omap (progress_line Scenario.batch
                  (_read_csv_order_dates Scenario.two_orders).1
                  Scenario.first_unreachable) completion
       ++ after_).
Proof.
  apply (completion_order_shows_in_progress_only Scenario.batch
           Scenario.first_unreachable Scenario.two_orders).
  - repeat split; vm_compute; congruence.
  - intros i Hi. apply benign_not_fatal.
    destruct i as [|[|i]]; vm_compute; reflexivity.
Defined.

(** ** Runs that do nothing, and runs that find nothing *)

Lemma warnings_quiet i csv : quiet (read_rows i csv).2.
Proof.
  pose proof (read_rows_warnings i csv) as H.
  induction H as [|e evs (date_str & row & ->) _ IH]; [apply quiet_nil|exact IH].
Qed.

(** X14.  Without both credentials, and in a dry run, [charge_request.main]
    touches nothing: it sends no request to the backend, hands nothing to
    the sink, writes nothing on the primary stream, and leaves the backend
    and the sink as they were. *)
Theorem nothing_happens_without_a_run a w :
  present (access_id a) = false \/ present (access_key a) = false \/ debug a = true ->
  requests (events (main a w)) = []
  /\ sends (events (main a w)) = []
  /\ stdout_lines (events (main a w)) = []
  /\ rest (main a w) = w.
Proof.
  intros Hwhy. unfold main.
  destruct (negb (present (access_id a)) || negb (present (access_key a))) eqn:Hcred.
  { repeat split. }
  assert (Hdbg : debug a = true).
  { destruct Hwhy as [H|[H|H]]; [| |exact H]; rewrite H in Hcred;
      cbn in Hcred; try discriminate.
    rewrite orb_true_r in Hcred. discriminate. }
  rewrite Hdbg.
  destruct (file a) as [csv|].
  - unfold _read_csv_order_dates.
    pose proof (warnings_quiet 0 csv) as [Hs Ho].
    pose proof (warnings_requests 0 csv) as Hr.
    destruct (read_rows 0 csv) as [rows warnings]. cbn [snd] in *.
    destruct rows as [|[order_id date_str] rows'].
    { cbn [events rest]. rewrite requests_app, sends_app, stdout_lines_app, Hr, Hs, Ho.
      repeat split. }
    destruct (strptime_ymd date_str) as [d|]; [|cbn [events rest]; auto].
    destruct (day_window d) as [from_time to_time]. cbn [events rest].
    rewrite requests_app, sends_app, stdout_lines_app, Hr, Hs, Ho. repeat split.
  - destruct (present (day_arg a)).
    + destruct (strptime_ymd (default [] (day_arg a))) as [d|]; [|repeat split].
      destruct (day_window d) as [from_time to_time]. repeat split.
    + destruct (_resolve_relative_time _ _ _) as [[[from_time to_time] tz]|e];
        repeat split.
Qed.

Lemma dry_run_touches_nothing_witness :
  requests (events (main Scenario.dry_run Scenario.found_a)) = []
  /\ sends (events (main Scenario.dry_run Scenario.found_a)) = []
  /\ stdout_lines (events (main Scenario.dry_run Scenario.found_a)) = []
  /\ rest (main Scenario.dry_run Scenario.found_a) = Scenario.found_a.
Proof.
  apply (nothing_happens_without_a_run Scenario.dry_run Scenario.found_a).
  right. right. reflexivity.
Defined.

Section NotFound.

Variables (order_id from_time to_time timezone : str).
Variables (sqs_queue_url aws_region : option str).
Variable return_results : bool.

(** X15.  The run of an order that matches nothing: the job is accepted,
    the status reports give reasons to go on until one shows the state
    "DONE GATHERING RESULTS" with no message.  The run then asks for no
    page, deletes the job, whatever the answer to the deletion (a status
    of any kind, an [HTTPError], an [OSError]), and returns no result.  It
    has made one status request for each report and has read nothing of
    the backend past the answer to the deletion. *)
Theorem empty_search_is_cleaned_up
    created_text created job_id pre text resp n gone post sk :
  loads created_text = Some created ->
  Py.subscript created (lit "id") = Ret job_id ->
  Forall (continuing return_results) pre ->
  loads text = Some resp ->
  Py.get resp (lit "state") (JStr []) = Ret (JStr DONE) ->
  Py.get resp (lit "messageCount") (JInt 0) = Ret (JInt n) ->
  n <= 0 ->
  match gone with Answer _ _ => True | Fails e => is_OSError e = true end ->
  let r := _run_one_order order_id from_time to_time timezone sqs_queue_url aws_region
             return_results
             (World (Answer 202 created_text :: pre ++ Answer 200 text :: gone :: post)
                    sk) in
  value r = Ret no_counts
  /\ rest r = World post sk
  /\ requests (events r) =
       PostJob (SearchJob (QUERY_TEMPLATE order_id) from_time to_time timezone)
       :: repeat (GetStatus job_id) (S (length pre)) ++ [DeleteJob job_id].
Proof.
  intros Hcreated Hid Hpre Htext Hstate Hcount Hn Hgone. cbn zeta.
  assert (Hexit : (poll_report return_results (answer (Answer 200 text))).1 =
                  PollExit (PollBreak (JInt n))).
  { cbn [answer]. unfold poll_report. change (negb (200 =? 200)) with false. cbv iota.
    rewrite Htext, Hstate, Hcount. fold DONE.
    unfold Py.eq_str, str_eqb. rewrite (bool_decide_eq_true_2 _ eq_refl). reflexivity. }
  destruct (poll_loop_first_exit return_results job_id pre _ _ (gone :: post) Hpre Hexit)
    as (evs_poll & Hloop & Hreq).
  unfold _run_one_order. cbn [backend sink _request answer].
  change (negb (202 =? 202)) with false. cbv iota.
  rewrite Hcreated, Hid, Hloop.
  assert (Hfetch : fetch_loop sqs_queue_url aws_region return_results job_id (JInt n) 0
                     no_counts (gone :: post) sk =
                   Ran (Ret no_counts) (World (gone :: post) sk) []).
  { cbn [fetch_loop Py.int_lt]. destruct (Z.ltb_spec 0 n); [lia|reflexivity]. }
  rewrite Hfetch. cbn [value rest backend sink events].
  unfold delete_job. cbn [_request].
  assert (Hstarted : forall evs,
            requests ((Request (PostJob (SearchJob (QUERY_TEMPLATE order_id) from_time
                                           to_time timezone))
                       :: (if return_results then []
                           else [Stderr (JobCreated order_id job_id)])) ++ evs) =
            PostJob (SearchJob (QUERY_TEMPLATE order_id) from_time to_time timezone)
            :: requests evs).
  { intros evs. destruct return_results; reflexivity. }
  destruct gone as [status body|e]; cbn [answer].
  - cbn [value rest events]. split; [reflexivity|]. split; [reflexivity|].
    rewrite Hstarted, requests_app, Hreq. reflexivity.
  - rewrite Hgone. cbn [value rest events]. split; [reflexivity|].
    split; [reflexivity|].
    rewrite Hstarted, requests_app, Hreq. reflexivity.
Qed.

End NotFound.

Lemma empty_search_witness :
  let r := _run_one_order (lit "ABC123") (lit "2024-01-01T00:00:00")
             (lit "2024-01-01T23:59:59") (lit "UTC") None None false
             (World (Answer 202 (q "{'id':'J1'}")
                     :: [Scenario.gathering]
                     ++ Answer 200 (q "{'state':'DONE GATHERING RESULTS','messageCount':0}")
                     :: Fails OSError :: [Scenario.accepted])
                    []) in
  value r = Ret no_counts
  /\ rest r = World [Scenario.accepted] []
  /\ requests (events r) =
       PostJob (SearchJob (QUERY_TEMPLATE (lit "ABC123")) (lit "2024-01-01T00:00:00")
                          (lit "2024-01-01T23:59:59") (lit "UTC"))
       :: repeat (GetStatus (JStr (lit "J1"))) (S (length [Scenario.gathering]))
       ++ [DeleteJob (JStr (lit "J1"))].
Proof.
  apply (empty_search_is_cleaned_up (lit "ABC123") (lit "2024-01-01T00:00:00")
           (lit "2024-01-01T23:59:59") (lit "UTC") None None false
           (q "{'id':'J1'}") (JDict [(lit "id", JStr (lit "J1"))]) (JStr (lit "J1"))
           [Scenario.gathering]
           (q "{'state':'DONE GATHERING RESULTS','messageCount':0}")
           (JDict [(lit "state", JStr DONE); (lit "messageCount", JInt 0)])
           0 (Fails OSError) [Scenario.accepted] []).
  - vm_compute; reflexivity.
  - vm_compute; reflexivity.
  - repeat constructor.
  - vm_compute; reflexivity.
  - vm_compute; reflexivity.
  - vm_compute; reflexivity.
  - lia.
  - reflexivity.
Defined.

(** ** The fallback of the decoding and the relative start *)




(** A string that parses to a string that does not parse: the string is
    the result. *)
Example string_of_no_json :
  decode_field (q "'hello'") = Some (JStr (lit "hello")).
Proof. vm_compute. reflexivity. Qed.

(** X17.  A start given as a minus sign, decimal digits of whatever
    script and one of the letters d, h, m, s in either case is an offset
    from the UTC clock: the digits count days, hours, minutes or seconds;
    the start returned is the clock's instant less that many seconds, the
    timezone returned is UTC, and the end is the instant of the clock when
    [to_time] is [now] and [to_time] as it is otherwise.  With more digits
    than [int] converts, the call raises [ValueError]; when the amount is
    more than a [timedelta] holds, or reaches before the year 1, it raises
    [OverflowError]. *)
Theorem relative_start_is_an_offset now digits u k to_time :
  digits <> [] ->
  forallb isdecimal digits = true ->
  unit_seconds u = Some k ->
  _resolve_relative_time now (45%N :: digits ++ [u]) to_time =
    (if (4300 <? length digits)%nat then Raise ValueError
     else
       match minus_seconds now (int_of_digits digits * k) with
       | Raise e => Raise e
       | Ret t =>
           Ret (strftime t,
                if str_eqb (lower (strip (Py.or_str (Some to_time) (lit "now"))))
                           (lit "now")
                then strftime now else to_time,
                Some (lit "UTC"))
       end)
  /\ ((length digits <= 4300)%nat ->
      999999999 < int_of_digits digits * k / 86400
      \/ (toordinal (on now) * 86400 + hour now * 3600 + minute now * 60
          + second now - int_of_digits digits * k) / 86400 < 1 ->
      _resolve_relative_time now (45%N :: digits ++ [u]) to_time =
      Raise OverflowError).
Proof.
  intros Hne Hdigits Hunit.
  pose proof (relative_start_resolves now digits u k to_time Hne Hdigits Hunit) as H.
  unfold int in H.
  split.
  - rewrite H. change max_str_digits with 4300%nat.
    destruct (4300 <? length digits)%nat; reflexivity.
  - intros Hlen Hbig. rewrite H. change max_str_digits with 4300%nat.
    apply Nat.ltb_ge in Hlen. rewrite Hlen.
    unfold minus_seconds.
    destruct (Z.ltb_spec 999999999 (int_of_digits digits * k / 86400));
      [reflexivity|].
    destruct Hbig as [Hbig|Hbig]; [lia|].
    apply Z.ltb_lt in Hbig. rewrite Hbig. reflexivity.
Qed.

(** Twelve hours before noon, asked for in capitals. *)
Lemma relative_start_witness :
  _resolve_relative_time Scenario.noon (45%N :: lit "12" ++ [72%N]) (lit "now") =
    (if (4300 <? length (lit "12"))%nat then Raise ValueError
     else
       match minus_seconds Scenario.noon (int_of_digits (lit "12") * 3600) with
       | Raise e => Raise e
       | Ret t =>
           Ret (strftime t,
                if str_eqb (lower (strip (Py.or_str (Some (lit "now")) (lit "now"))))
                           (lit "now")
                then strftime Scenario.noon else lit "now",
                Some (lit "UTC"))
       end)
  /\ ((length (lit "12") <= 4300)%nat ->
      999999999 < int_of_digits (lit "12") * 3600 / 86400
      \/ (toordinal (on Scenario.noon) * 86400 + hour Scenario.noon * 3600
          + minute Scenario.noon * 60 + second Scenario.noon
          - int_of_digits (lit "12") * 3600) / 86400 < 1 ->
      _resolve_relative_time Scenario.noon (45%N :: lit "12" ++ [72%N]) (lit "now") =
      Raise OverflowError).
Proof.
  apply (relative_start_is_an_offset Scenario.noon (lit "12") 72%N 3600 (lit "now"));
    [discriminate|reflexivity|reflexivity].
Defined.

(** Twelve hours before noon of 2024-03-01; seven days before it, the
    seven an Arabic-Indic digit and a wide blank in front; more days than a
    [timedelta] holds; a start before the year 1; a start in a year
    before 1000; as many digits as [int] converts, and one more. *)
Example relative_start_examples :
  _resolve_relative_time Scenario.noon (lit "-12H") (lit "now") =
    Ret (lit "2024-03-01T00:00:00", lit "2024-03-01T12:00:00", Some (lit "UTC"))
  /\ _resolve_relative_time Scenario.noon [0x2003; 45; 0x667; 100]%N (lit "now") =
     Ret (lit "2024-02-23T12:00:00", lit "2024-03-01T12:00:00", Some (lit "UTC"))
  /\ _resolve_relative_time Scenario.noon (lit "-1000000000d") (lit "now") =
     Raise OverflowError
  /\ _resolve_relative_time Scenario.noon (lit "-739000d") (lit "now") =
     Raise OverflowError
  /\ _resolve_relative_time Scenario.noon (lit "-400000d") (lit "now") =
     Ret (lit "929-01-01T12:00:00", lit "2024-03-01T12:00:00", Some (lit "UTC"))
  /\ _resolve_relative_time Scenario.noon (45%N :: repeat 57%N 4300 ++ [100%N])
                            (lit "now") = Raise OverflowError
  /\ _resolve_relative_time Scenario.noon (45%N :: repeat 57%N 4301 ++ [100%N])
                            (lit "now") = Raise ValueError.
Proof.
  repeat match goal with |- _ /\ _ => split end; vm_compute; reflexivity.
Qed.

(** ** The calendar *)

Lemma fromordinal_month_day n :
  fromordinal n =
  let n0 := n - 1 in
  let n400 := n0 / 146097 in
  let na := n0 mod 146097 in
  let n100 := na / 36524 in
  let nb := na mod 36524 in
  let n4 := nb / 1461 in
  let nc := nb mod 1461 in
  let n1 := nc / 365 in
  let nd := nc mod 365 in
  let y := n400 * 400 + 1 + n100 * 100 + n4 * 4 + n1 in
  if (n1 =? 4) || (n100 =? 4) then Date (y - 1) 12 31
  else
    let md := month_day ((n1 =? 3) && (negb (n4 =? 24) || (n100 =? 3))) nd in
    Date y md.1 md.2.
Proof.
  unfold fromordinal, month_day. cbv zeta.
  destruct (_ || _); [reflexivity|].
  destruct (_ <? _); reflexivity.
Qed.

Lemma div_mod_eq a b q r : 0 <= r < b -> a = b * q + r -> a / b = q /\ a mod b = r.
Proof.
  intros Hr ->. split.
  - symmetry. apply (Z.div_unique_pos _ _ q r); [exact Hr|reflexivity].
  - symmetry. apply (Z.mod_unique_pos _ _ q r); [exact Hr|reflexivity].
Qed.

(** A year less one, split into cycles of 400, 100 and 4 years. *)
Lemma year_split y' :
  0 <= y' ->
  exists q400 q100 q4 r,
    y' = 400 * q400 + 100 * q100 + 4 * q4 + r
    /\ 0 <= q400 /\ 0 <= q100 <= 3 /\ 0 <= q4 <= 24 /\ 0 <= r <= 3.
Proof.
  intros Hy. exists (y' / 400), (y' mod 400 / 100), (y' mod 100 / 4), (y' mod 4).
  Z.div_mod_to_equations. lia.
Qed.

Lemma days_before_year_split q400 q100 q4 r :
  0 <= q400 -> 0 <= q100 <= 3 -> 0 <= q4 <= 24 -> 0 <= r <= 3 ->
  days_before_year (400 * q400 + 100 * q100 + 4 * q4 + r + 1) =
  146097 * q400 + 36524 * q100 + 1461 * q4 + 365 * r.
Proof.
  intros H400 H100 H4 Hr. unfold days_before_year.
  replace (400 * q400 + 100 * q100 + 4 * q4 + r + 1 - 1)
    with (400 * q400 + 100 * q100 + 4 * q4 + r) by lia.
  set (y' := 400 * q400 + 100 * q100 + 4 * q4 + r).
  assert (E4 : y' / 4 = 100 * q400 + 25 * q100 + q4).
  { apply (div_mod_eq y' 4 _ r); [lia|subst y'; lia]. }
  assert (E100 : y' / 100 = 4 * q400 + q100).
  { apply (div_mod_eq y' 100 _ (4 * q4 + r)); [lia|subst y'; lia]. }
  assert (E400 : y' / 400 = q400).
  { apply (div_mod_eq y' 400 _ (100 * q100 + 4 * q4 + r)); [lia|subst y'; lia]. }
  rewrite E4, E100, E400. subst y'. lia.
Qed.

Lemma is_leap_split q400 q100 q4 r :
  0 <= q400 -> 0 <= q100 <= 3 -> 0 <= q4 <= 24 -> 0 <= r <= 3 ->
  is_leap (400 * q400 + 100 * q100 + 4 * q4 + r + 1) =
  (r =? 3) && (negb (q4 =? 24) || (q100 =? 3)).
Proof.
  intros H400 H100 H4 Hr. unfold is_leap.
  set (y := 400 * q400 + 100 * q100 + 4 * q4 + r + 1).
  destruct (Z.eqb_spec r 3) as [->|Hr3].
  - assert (E4 : y mod 4 = 0).
    { apply (div_mod_eq y 4 (100 * q400 + 25 * q100 + q4 + 1) 0); [lia|subst y; lia]. }
    rewrite E4. cbn [Z.eqb andb].
    destruct (Z.eqb_spec q4 24) as [->|Hq4].
    + assert (E100 : y mod 100 = 0).
      { apply (div_mod_eq y 100 (4 * q400 + q100 + 1) 0); [lia|subst y; lia]. }
      rewrite E100. cbn [Z.eqb negb orb].
      destruct (Z.eqb_spec q100 3) as [->|Hq100].
      * assert (E400 : y mod 400 = 0).
        { apply (div_mod_eq y 400 (q400 + 1) 0); [lia|subst y; lia]. }
        rewrite E400. reflexivity.
      * assert (E400 : y mod 400 = 100 * q100 + 100).
        { apply (div_mod_eq y 400 q400 _); [lia|subst y; lia]. }
        rewrite E400. destruct (Z.eqb_spec (100 * q100 + 100) 0); [lia|reflexivity].
    + assert (E100 : y mod 100 = 4 * q4 + 4).
      { apply (div_mod_eq y 100 (4 * q400 + q100) _); [lia|subst y; lia]. }
      rewrite E100. destruct (Z.eqb_spec (4 * q4 + 4) 0); [lia|reflexivity].
  - assert (E4 : y mod 4 = r + 1).
    { apply (div_mod_eq y 4 (100 * q400 + 25 * q100 + q4) _); [lia|subst y; lia]. }
    rewrite E4. destruct (Z.eqb_spec (r + 1) 0); [lia|reflexivity].
Qed.

(** [_ord2ymd] on the ordinal of the day [doy] (from 0) of a year given by
    its cycles. *)
Lemma fromordinal_split q400 q100 q4 r doy :
  0 <= q400 -> 0 <= q100 <= 3 -> 0 <= q4 <= 24 -> 0 <= r <= 3 ->
  let leap := (r =? 3) && (negb (q4 =? 24) || (q100 =? 3)) in
  0 <= doy <= 364 + (if leap then 1 else 0) ->
  fromordinal (146097 * q400 + 36524 * q100 + 1461 * q4 + 365 * r + doy + 1) =
  let y := 400 * q400 + 100 * q100 + 4 * q4 + r + 1 in
  if doy =? 365 then Date y 12 31
  else Date y (month_day leap doy).1 (month_day leap doy).2.
Proof.
  intros H400 H100 H4 Hr leap Hdoy.
  rewrite fromordinal_month_day. cbv zeta.
  replace (146097 * q400 + 36524 * q100 + 1461 * q4 + 365 * r + doy + 1 - 1)
    with (146097 * q400 + 36524 * q100 + 1461 * q4 + 365 * r + doy) by lia.
  destruct (Z.eqb_spec doy 365) as [->|Hne].
  - (* the last day of a leap year *)
    assert (Hleap : leap = true).
    { destruct leap; [reflexivity|lia]. }
    subst leap. apply andb_true_iff in Hleap as [Hr3 Hq].
    apply Z.eqb_eq in Hr3. subst r.
    destruct (Z.eqb_spec q4 24) as [->|Hq4].
    + cbn [negb orb] in Hq. apply Z.eqb_eq in Hq. subst q100.
      destruct (div_mod_eq (146097 * q400 + 36524 * 3 + 1461 * 24 + 365 * 3 + 365)
                  146097 q400 146096 ltac:(lia) ltac:(lia)) as [-> ->].
      change (146096 / 36524) with 4. change (146096 mod 36524) with 0.
      change (0 / 1461) with 0. change (0 mod 1461) with 0.
      change (0 / 365) with 0. cbn [Z.eqb orb]. f_equal. lia.
    + destruct (div_mod_eq (146097 * q400 + 36524 * q100 + 1461 * q4 + 365 * 3 + 365)
                  146097 q400 (36524 * q100 + 1461 * q4 + 1460)
                  ltac:(lia) ltac:(lia)) as [-> ->].
      destruct (div_mod_eq (36524 * q100 + 1461 * q4 + 1460) 36524 q100
                  (1461 * q4 + 1460) ltac:(lia) ltac:(lia)) as [-> ->].
      destruct (div_mod_eq (1461 * q4 + 1460) 1461 q4 1460 ltac:(lia) ltac:(lia))
        as [-> ->].
      change (1460 / 365) with 4. cbn [Z.eqb orb]. f_equal. lia.
  - destruct (div_mod_eq (146097 * q400 + 36524 * q100 + 1461 * q4 + 365 * r + doy)
                146097 q400 (36524 * q100 + 1461 * q4 + 365 * r + doy)
                ltac:(destruct leap; lia) ltac:(lia)) as [-> ->].
    destruct (div_mod_eq (36524 * q100 + 1461 * q4 + 365 * r + doy) 36524 q100
                (1461 * q4 + 365 * r + doy) ltac:(destruct leap; lia) ltac:(lia))
      as [-> ->].
    destruct (div_mod_eq (1461 * q4 + 365 * r + doy) 1461 q4 (365 * r + doy)
                ltac:(destruct leap; lia) ltac:(lia)) as [-> ->].
    destruct (div_mod_eq (365 * r + doy) 365 r doy ltac:(destruct leap; lia)
                ltac:(lia)) as [-> ->].
    destruct (Z.eqb_spec r 4) as [|_]; [lia|].
    destruct (Z.eqb_spec q100 4) as [|_]; [lia|].
    cbn [orb]. fold leap. f_equal. lia.
Qed.

(** The days of a month, and the days before it, from those of a common
    year. *)
Lemma days_in_month_leap y m :
  days_in_month y m =
  days_in_month 1 m + (if (m =? 2) && is_leap y then 1 else 0).
Proof.
  unfold days_in_month. change (is_leap 1) with false.
  destruct (m =? 2); [destruct (is_leap y); reflexivity|].
  cbn [andb]. rewrite Z.add_0_r. reflexivity.
Qed.

(** Every integer between two bounds is one of the integers between
    them. *)
Lemma in_range lo hi x :
  lo <= x <= hi -> In x (map (fun k => lo + Z.of_nat k) (seq 0 (Z.to_nat (hi - lo + 1)))).
Proof.
  intros Hx. apply in_map_iff. exists (Z.to_nat (x - lo)). split; [lia|].
  apply in_seq. lia.
Qed.

(** The month and the day of the year are found again from the day of the
    year. *)
Lemma month_day_of_date leap m d :
  1 <= m <= 12 ->
  1 <= d <= days_in_month 1 m + (if (m =? 2) && leap then 1 else 0) ->
  let doy :=
    days_before_month_common m + (if (2 <? m) && leap then 1 else 0) + d - 1 in
  month_day leap doy = (m, d)
  /\ 0 <= doy <= 364 + (if leap then 1 else 0).
Proof.
  intros Hm Hd. cbv zeta.
  assert (Hd31 : 1 <= d <= 31).
  { split; [lia|]. destruct Hd as [_ Hd]. revert Hd. unfold days_in_month.
    destruct (m =? 2), leap; cbn [andb];
      repeat match goal with |- context [if ?b then _ else _] => destruct b end;
      lia. }
  pose proof (in_range 1 12 m Hm) as Hmin.
  pose proof (in_range 1 31 d Hd31) as Hdin.
  revert Hd.
  vm_compute in Hmin.
  repeat (destruct Hmin as [<-|Hmin]); [..|destruct Hmin];
    destruct leap; vm_compute in Hdin;
    repeat (destruct Hdin as [<-|Hdin]); try (destruct Hdin);
    intros Hd; first [split; [reflexivity|split; discriminate]
                     |exfalso; vm_compute in Hd; destruct Hd as [_ Hd]; apply Hd; reflexivity].
Qed.

(** The ordinal of a day gives the day back. *)
Lemma fromordinal_toordinal y m d :
  1 <= y -> 1 <= m <= 12 -> 1 <= d <= days_in_month y m ->
  fromordinal (toordinal (Date y m d)) = Date y m d.
Proof.
  intros Hy Hm Hd.
  destruct (year_split (y - 1) ltac:(lia)) as (q400 & q100 & q4 & r & Hsplit & H400 & H100 & H4 & Hr).
  assert (Ey : y = 400 * q400 + 100 * q100 + 4 * q4 + r + 1) by lia.
  rewrite days_in_month_leap in Hd.
  unfold toordinal, days_before_month. cbn [year month day].
  rewrite Ey at 1 2. rewrite Ey in Hd.
  rewrite days_before_year_split, is_leap_split in * by assumption.
  set (leap := (r =? 3) && (negb (q4 =? 24) || (q100 =? 3))) in *.
  destruct (month_day_of_date leap m d Hm Hd) as [Hmd Hdoy]. cbv zeta in Hmd, Hdoy.
  set (doy := days_before_month_common m + (if (2 <? m) && leap then 1 else 0) + d - 1)
    in *.
  replace (146097 * q400 + 36524 * q100 + 1461 * q4 + 365 * r
           + (days_before_month_common m + (if (2 <? m) && leap then 1 else 0)) + d)
    with (146097 * q400 + 36524 * q100 + 1461 * q4 + 365 * r + doy + 1)
    by (subst doy; lia).
  rewrite (fromordinal_split q400 q100 q4 r doy H400 H100 H4 Hr Hdoy).
  cbv zeta. fold leap. rewrite <- Ey, Hmd. cbn [fst snd].
  destruct (Z.eqb_spec doy 365) as [H365|_]; [|reflexivity].
  (* the day 365 of a year is its 31st of December *)
  assert (Hlast : month_day leap 365 = (12, 31)).
  { destruct leap; [reflexivity|exfalso; lia]. }
  rewrite H365 in Hmd. rewrite Hlast in Hmd. injection Hmd as <- <-. reflexivity.
Qed.

Lemma days_before_next_year y :
  1 <= y ->
  days_before_year (y + 1) = days_before_year y + 365 + (if is_leap y then 1 else 0).
Proof.
  intros Hy.
  destruct (year_split (y - 1) ltac:(lia)) as (q400 & q100 & q4 & r & Hsplit & H400 & H100 & H4 & Hr).
  assert (Ey : y = 400 * q400 + 100 * q100 + 4 * q4 + r + 1) by lia.
  rewrite Ey at 2 3. rewrite days_before_year_split, is_leap_split by assumption.
  unfold days_before_year. replace (y + 1 - 1) with y by lia.
  destruct (Z.eqb_spec r 3) as [->|Hr3]; cbn [andb].
  - destruct (Z.eqb_spec q4 24) as [->|Hq4]; cbn [negb orb].
    + destruct (Z.eqb_spec q100 3) as [->|Hq100].
      * destruct (div_mod_eq y 4 (100 * q400 + 100) 0 ltac:(lia) ltac:(lia)) as [-> _].
        destruct (div_mod_eq y 100 (4 * q400 + 4) 0 ltac:(lia) ltac:(lia)) as [-> _].
        destruct (div_mod_eq y 400 (q400 + 1) 0 ltac:(lia) ltac:(lia)) as [-> _].
        lia.
      * destruct (div_mod_eq y 4 (100 * q400 + 25 * q100 + 25) 0 ltac:(lia) ltac:(lia))
          as [-> _].
        destruct (div_mod_eq y 100 (4 * q400 + q100 + 1) 0 ltac:(lia) ltac:(lia))
          as [-> _].
        destruct (div_mod_eq y 400 q400 (100 * q100 + 100) ltac:(lia) ltac:(lia))
          as [-> _].
        lia.
    + destruct (div_mod_eq y 4 (100 * q400 + 25 * q100 + q4 + 1) 0 ltac:(lia) ltac:(lia))
        as [-> _].
      destruct (div_mod_eq y 100 (4 * q400 + q100) (4 * q4 + 4) ltac:(lia) ltac:(lia))
        as [-> _].
      destruct (div_mod_eq y 400 q400 (100 * q100 + 4 * q4 + 4) ltac:(lia) ltac:(lia))
        as [-> _].
      lia.
  - destruct (div_mod_eq y 4 (100 * q400 + 25 * q100 + q4) (r + 1) ltac:(lia) ltac:(lia))
      as [-> _].
    destruct (div_mod_eq y 100 (4 * q400 + q100) (4 * q4 + r + 1) ltac:(lia) ltac:(lia))
      as [-> _].
    destruct (div_mod_eq y 400 q400 (100 * q100 + 4 * q4 + r + 1) ltac:(lia) ltac:(lia))
      as [-> _].
    lia.
Qed.

(** The day after a day of the calendar is a day of the calendar, and its
    ordinal is the next. *)
Lemma toordinal_tomorrow y m d :
  1 <= y -> 1 <= m <= 12 -> 1 <= d <= days_in_month y m ->
  let t := tomorrow (Date y m d) in
  toordinal t = toordinal (Date y m d) + 1
  /\ 1 <= year t /\ 1 <= month t <= 12
  /\ 1 <= day t <= days_in_month (year t) (month t).
Proof.
  intros Hy Hm Hd. cbv zeta. unfold tomorrow. cbn [year month day].
  destruct (Z.ltb_spec d (days_in_month y m)) as [Hlt|Hge].
  - cbn [year month day]. unfold toordinal. cbn [year month day].
    split; [lia|]. split; [lia|]. split; lia.
  - assert (Hlast : d = days_in_month y m) by lia.
    destruct (Z.ltb_spec m 12) as [Hm12|Hm12].
    + cbn [year month day]. unfold toordinal, days_before_month. cbn [year month day].
      assert (Hdim : 28 <= days_in_month y (m + 1)).
      { unfold days_in_month.
        repeat match goal with |- context [if ?b then _ else _] => destruct b end; lia. }
      split; [|lia].
      rewrite Hlast, days_in_month_leap.
      pose proof (in_range 1 11 m ltac:(lia)) as Hmin. vm_compute in Hmin.
      generalize (days_before_year y). intros D.
      repeat (destruct Hmin as [<-|Hmin]); [..|destruct Hmin];
        destruct (is_leap y);
        match goal with
        | |- D + ?a + 1 = D + ?b + ?c + 1 =>
            let a' := eval vm_compute in a in
            let b' := eval vm_compute in b in
            let c' := eval vm_compute in c in
            change (D + a' + 1 = D + b' + c' + 1)
        end; lia.
    + assert (m = 12) by lia. subst m.
      cbn [year month day]. unfold toordinal, days_before_month. cbn [year month day].
      split; [|cbn; lia].
      rewrite days_before_next_year by lia. rewrite Hlast.
      generalize (days_before_year y). intros D.
      destruct (is_leap y);
        match goal with
        | |- ?l + ?a + 1 = D + ?b + ?c + 1 =>
            let a' := eval vm_compute in a in
            let b' := eval vm_compute in b in
            let c' := eval vm_compute in c in
            change (l + a' + 1 = D + b' + c' + 1)
        end; lia.
Qed.

(** [d + timedelta(days=1)] is the day after, up to the last day that a
    [date] holds. *)
Lemma next_day_tomorrow d :
  valid_date d ->
  next_day d =
  if (year d =? 9999) && (month d =? 12) && (day d =? 31) then Raise OverflowError
  else Ret (tomorrow d).
Proof.
  destruct d as [y m dd]. unfold valid_date. cbn [year month day].
  intros (Hy & Hm & Hd).
  destruct (toordinal_tomorrow y m dd ltac:(lia) Hm Hd) as (Hord & Hty & Htm & Htd).
  cbv zeta in *. unfold next_day.
  destruct ((y =? 9999) && (m =? 12) && (dd =? 31)) eqn:Hlast.
  - apply andb_true_iff in Hlast as [Hlast H31].
    apply andb_true_iff in Hlast as [H9999 H12].
    apply Z.eqb_eq in H31, H9999, H12. subst. reflexivity.
  - assert (Hyear : year (tomorrow (Date y m dd)) <= 9999).
    { unfold tomorrow in *. cbn [year month day] in *.
      destruct (Z.ltb_spec dd (days_in_month y m)); [cbn; lia|].
      destruct (Z.ltb_spec m 12); [cbn; lia|]. cbn [year].
      assert (m = 12) by lia. subst m.
      change (days_in_month y 12) with 31 in *.
      destruct (Z.eqb_spec y 9999), (Z.eqb_spec 12 12), (Z.eqb_spec dd 31);
        cbn in Hlast; try discriminate; lia. }
    destruct (tomorrow (Date y m dd)) as [ty tm td] eqn:Ht. cbn [year month day] in *.
    assert (Hle : toordinal (Date ty tm td) <= max_ordinal).
    { unfold toordinal, days_before_month. cbn [year month day].
      rewrite days_in_month_leap in Htd.
      destruct (month_day_of_date (is_leap ty) tm td Htm Htd) as [_ Hdoy].
      cbv zeta in Hdoy.
      pose proof (days_before_next_year ty Hty) as Hnext.
      assert (Hdby : days_before_year (ty + 1) <= 3652059).
      { unfold days_before_year. Z.div_mod_to_equations. lia. }
      unfold max_ordinal. destruct (is_leap ty); lia. }
    rewrite <- Hord.
    destruct (Z.ltb_spec max_ordinal (toordinal (Date ty tm td))); [lia|].
    rewrite fromordinal_toordinal by assumption. reflexivity.
Qed.

(** ** The text of a date and the window of the next day *)

Lemma int_of_digits_snoc s c :
  int_of_digits (s ++ [c]) = 10 * int_of_digits s + decimal_value c.
Proof. unfold int_of_digits. rewrite fold_left_app. reflexivity. Qed.

Lemma int_of_digits_zeros k s :
  int_of_digits (repeat 48%N k ++ s) = int_of_digits s.
Proof.
  unfold int_of_digits. rewrite fold_left_app.
  replace (fold_left (fun acc c => 10 * acc + decimal_value c) (repeat 48%N k) 0)
    with 0; [reflexivity|].
  induction k as [|k IH]; [reflexivity|]. cbn [repeat fold_left].
  change (10 * 0 + decimal_value 48) with 0. exact IH.
Qed.

Lemma forallb_app_true {A} (f : A -> bool) l1 l2 :
  forallb f l1 = true -> forallb f l2 = true -> forallb f (l1 ++ l2) = true.
Proof. intros H1 H2. rewrite forallb_app, H1, H2. reflexivity. Qed.

Lemma digits_of_fuel_S f n acc :
  digits_of_fuel (S f) n acc =
  if n / 10 =? 0 then Z.to_N (48 + n mod 10) :: acc
  else digits_of_fuel f (n / 10) (Z.to_N (48 + n mod 10) :: acc).
Proof. reflexivity. Qed.

Lemma ascii_digits_decimal s :
  forallb ascii_digit s = true -> forallb isdecimal s = true.
Proof.
  intros H. apply List.forallb_forall. intros c Hc.
  rewrite List.forallb_forall in H. apply ascii_digit_decimal, H, Hc.
Qed.

(** The digits of a natural number: digits [0-9], as many as the number
    needs, that read as the number. *)
Lemma digits_of_fuel_spec f :
  forall n acc,
    0 <= n < 2 ^ Z.of_nat (S f) ->
    exists ds,
      digits_of_fuel (S f) n acc = ds ++ acc
      /\ forallb ascii_digit ds = true
      /\ int_of_digits ds = n
      /\ (length ds = 1%nat \/ 10 ^ (Z.of_nat (length ds) - 1) <= n).
Proof.
  induction f as [|f IH]; intros n acc Hn.
  - assert (Hn' : n = 0 \/ n = 1) by (change (2 ^ Z.of_nat 1) with 2 in Hn; lia).
    exists [Z.to_N (48 + n mod 10)].
    destruct Hn' as [-> | ->]; vm_compute; auto.
  - rewrite digits_of_fuel_S.
    assert (Hd0 : ascii_digit (Z.to_N (48 + n mod 10)) = true
                  /\ decimal_value (Z.to_N (48 + n mod 10)) = n mod 10).
    { pose proof (Z.mod_pos_bound n 10 ltac:(lia)) as Hm.
      assert (Ha : ascii_digit (Z.to_N (48 + n mod 10)) = true).
      { unfold ascii_digit. apply andb_true_iff. split; apply N.leb_le; lia. }
      split; [exact Ha|]. destruct (ascii_digit_decimal _ Ha) as [_ ->]. lia. }
    destruct Hd0 as [Hdec Hval].
    destruct (Z.eqb_spec (n / 10) 0) as [Hz|Hnz].
    + exists [Z.to_N (48 + n mod 10)]. split; [reflexivity|].
      split; [cbn [forallb]; rewrite Hdec; reflexivity|].
      split; [|left; reflexivity].
      unfold int_of_digits. cbn [fold_left]. rewrite Hval.
      pose proof (Z.div_mod n 10 ltac:(lia)). lia.
    + assert (Hn10 : 0 <= n / 10 < 2 ^ Z.of_nat (S f)).
      { split; [apply Z.div_pos; lia|].
        apply Z.div_lt_upper_bound; [lia|].
        replace (Z.of_nat (S (S f))) with (Z.succ (Z.of_nat (S f))) in Hn by lia.
        rewrite Z.pow_succ_r in Hn by lia. lia. }
      destruct (IH (n / 10) (Z.to_N (48 + n mod 10) :: acc) Hn10)
        as (ds & Hds & Hall & Hint & Hlen).
      exists (ds ++ [Z.to_N (48 + n mod 10)]).
      split; [rewrite Hds, <- app_assoc; reflexivity|].
      split; [apply forallb_app_true; [exact Hall|cbn; rewrite Hdec; reflexivity]|].
      split.
      * rewrite int_of_digits_snoc, Hint, Hval.
        pose proof (Z.div_mod n 10 ltac:(lia)). lia.
      * right. rewrite length_app. cbn [length].
        replace (Z.of_nat (length ds + 1) - 1) with (Z.succ (Z.of_nat (length ds) - 1))
          by lia.
        assert (Hpos : 0 < n / 10) by lia.
        pose proof (Z.div_mod n 10 ltac:(lia)) as Hdm.
        pose proof (Z.mod_pos_bound n 10 ltac:(lia)) as Hm.
        destruct Hlen as [Hone|Hpow].
        -- rewrite Hone. cbn. lia.
        -- rewrite Z.pow_succ_r by (destruct ds; [cbn in *; lia|cbn [length]; lia]).
           lia.
Qed.

Lemma digits_of_spec n :
  0 <= n ->
  forallb ascii_digit (digits_of n) = true
  /\ int_of_digits (digits_of n) = n
  /\ (length (digits_of n) = 1%nat \/ 10 ^ (Z.of_nat (length (digits_of n)) - 1) <= n).
Proof.
  intros Hn. unfold digits_of.
  assert (Hfuel : 0 <= n < 2 ^ Z.of_nat (S (Z.to_nat (Z.log2 n)))).
  { split; [exact Hn|].
    pose proof (Z.log2_nonneg n) as Hl.
    replace (Z.of_nat (S (Z.to_nat (Z.log2 n)))) with (Z.succ (Z.log2 n)) by lia.
    destruct (Z.eq_dec n 0) as [->|Hnz]; [reflexivity|].
    apply Z.log2_spec. lia. }
  destruct (digits_of_fuel_spec _ n [] Hfuel) as (ds & Hds & H1 & H2 & H3).
  rewrite Hds, app_nil_r. auto.
Qed.

(** A number written on [width] digits or more: the digits read as the
    number, and they are [width] when the number is less than
    [10 ^ width]. *)
Lemma zero_pad_spec width n :
  0 <= n ->
  forallb ascii_digit (zero_pad width n) = true
  /\ int_of_digits (zero_pad width n) = n
  /\ (n < 10 ^ Z.of_nat width -> (0 < width)%nat ->
      length (zero_pad width n) = width).
Proof.
  intros Hn. unfold zero_pad. cbv zeta.
  destruct (digits_of_spec n Hn) as (Hall & Hint & Hlen).
  split; [|split].
  - apply forallb_app_true; [|exact Hall].
    induction (width - length (digits_of n))%nat as [|k IH]; [reflexivity|exact IH].
  - rewrite int_of_digits_zeros. exact Hint.
  - intros Hlt Hw. rewrite length_app, repeat_length.
    assert (Hle : (length (digits_of n) <= width)%nat); [|lia].
    destruct Hlen as [->|Hpow]; [lia|].
    destruct (le_lt_dec (length (digits_of n)) width) as [|Hgt]; [assumption|].
    exfalso.
    assert (10 ^ Z.of_nat width <= 10 ^ (Z.of_nat (length (digits_of n)) - 1)).
    { apply Z.pow_le_mono_r; lia. }
    lia.
Qed.

(** The texts of the months and of the days, as [strptime] reads them. *)
Lemma month_text m r :
  1 <= m <= 12 ->
  exists tl, month_readings (zero_pad 2 m ++ r) = (m, r) :: tl.
Proof.
  intros Hm. pose proof (in_range 1 12 m Hm) as Hin. vm_compute in Hin.
  repeat (destruct Hin as [<-|Hin]); [..|destruct Hin]; eexists; reflexivity.
Qed.

Lemma day_text d :
  1 <= d <= 31 ->
  exists tl, day_readings (zero_pad 2 d) = (d, []) :: tl.
Proof.
  intros Hd. pose proof (in_range 1 31 d Hd) as Hin. vm_compute in Hin.
  repeat (destruct Hin as [<-|Hin]); [..|destruct Hin]; eexists; reflexivity.
Qed.

Lemma zero_pad_two n : 1 <= n <= 31 -> length (zero_pad 2 n) = 2%nat.
Proof.
  intros Hn. apply zero_pad_spec; [lia| |lia]. change (10 ^ Z.of_nat 2) with 100. lia.
Qed.

Lemma days_in_month_bound y m : 28 <= days_in_month y m <= 31.
Proof.
  unfold days_in_month.
  repeat match goal with |- context [if ?b then _ else _] => destruct b end; lia.
Qed.

(** [isoformat] writes ten characters, the first four decimal digits, and
    [strptime] reads the day back from them. *)
Lemma isoformat_spec d :
  valid_date d ->
  length (isoformat d) = 10%nat
  /\ isdigit (take 4 (isoformat d)) = true
  /\ strptime_ymd (isoformat d) = Some d.
Proof.
  destruct d as [y m dd]. unfold valid_date. cbn [year month day].
  intros (Hy & Hm & Hd).
  pose proof (days_in_month_bound y m) as Hdim.
  destruct (zero_pad_spec 4 y ltac:(lia)) as (Hall & Hint & Hlen).
  apply ascii_digits_decimal in Hall.
  specialize (Hlen ltac:(change (10 ^ Z.of_nat 4) with 10000; lia) ltac:(lia)).
  pose proof (zero_pad_two m ltac:(lia)) as Hlm.
  pose proof (zero_pad_two dd ltac:(lia)) as Hld.
  destruct (month_text m (45%N :: zero_pad 2 dd) Hm) as [tlm Hmonth].
  destruct (day_text dd ltac:(lia)) as [tld Hday].
  unfold isoformat. cbn [year month day].
  destruct (zero_pad 4 y) as [|y1 [|y2 [|y3 [|y4 [|? ?]]]]]; try discriminate.
  change (lit "-") with [45%N].
  split; [|split].
  - cbn [app length]. rewrite length_app. cbn [length]. rewrite Hlm, Hld. reflexivity.
  - cbn [app take]. unfold isdigit.
    cbn [forallb] in *. unfold isdigit_char.
    repeat match type of Hall with
           | (?a && ?b) = true => apply andb_true_iff in Hall as [?H Hall]
           end.
    repeat match goal with H : isdecimal _ = true |- _ => rewrite H; clear H end.
    reflexivity.
  - cbn [app strptime_ymd]. rewrite Hall. change (45 =? 45)%N with true. cbn [andb].
    rewrite Hmonth. cbn [first_match snd fst].
    change (45 =? 45)%N with true. cbv iota. rewrite Hday.
    cbn [mbind option_bind snd fst]. rewrite Hint.
    destruct (Z.leb_spec 1 y); [|lia].
    destruct (Z.leb_spec dd (days_in_month y m)); [|lia]. reflexivity.
Qed.

(** X18.  For a start that begins with a day of the calendar written by
    [isoformat], whatever follows it and whatever the end of the window is,
    [_next_day_from_time] gives the window of the day after, from
    00:00:00 to 23:59:59: the next day of the month, the first day of the
    next month after the last day of a month (the 29th of February being
    the last in a leap year, the 28th otherwise), the first of January of
    the next year after the 31st of December.  After the last day that a
    [date] holds, 9999-12-31, the call raises [OverflowError]. *)
Theorem next_day_is_the_day_after d suffix to_time :
  valid_date d ->
  _next_day_from_time (isoformat d ++ suffix) to_time =
  if (year d =? 9999) && (month d =? 12) && (day d =? 31) then Raise OverflowError
  else Ret (Some (day_window (tomorrow d))).
Proof.
  intros Hvalid.
  destruct (isoformat_spec d Hvalid) as (Hlen & Hdigit & Hparse).
  unfold _next_day_from_time.
  assert (Htake10 : take 10 (isoformat d ++ suffix) = isoformat d).
  { rewrite take_app_le by lia. apply take_ge. lia. }
  assert (Htake4 : take 4 (isoformat d ++ suffix) = take 4 (isoformat d)).
  { apply take_app_le. lia. }
  rewrite Htake10, Htake4, Hdigit, Hparse.
  destruct (Nat.ltb_spec (length (isoformat d ++ suffix)) 10) as [Hshort|_].
  { rewrite length_app in Hshort. lia. }
  cbn [negb orb]. rewrite (next_day_tomorrow d Hvalid).
  destruct (_ && _); reflexivity.
Qed.

(** The last day of February of a leap year, and the last day there is. *)
Lemma next_day_witness :
  _next_day_from_time (isoformat (Date 2024 2 29) ++ lit "T00:00:00")
                      (lit "2024-02-29T23:59:59") =
  Ret (Some (lit "2024-03-01T00:00:00", lit "2024-03-01T23:59:59")).
Proof.
  rewrite (next_day_is_the_day_after (Date 2024 2 29) (lit "T00:00:00")
             (lit "2024-02-29T23:59:59")).
  - vm_compute. reflexivity.
  - unfold valid_date. cbn [year month day].
    change (days_in_month 2024 2) with 29. lia.
Defined.

Example last_day_has_no_next :
  _next_day_from_time (lit "9999-12-31T00:00:00") (lit "9999-12-31T23:59:59") =
  Raise OverflowError.
Proof. vm_compute. reflexivity. Qed.

Lemma strptime_ymd_digits s d : strptime_ymd s = Some d -> isdigit (take 4 s) = true.
Proof.
  destruct s as [|y1 [|y2 [|y3 [|y4 [|dash r]]]]]; try discriminate.
  cbn [strptime_ymd take].
  destruct (forallb isdecimal [y1; y2; y3; y4]) eqn:Hall; [|discriminate].
  intros _. unfold isdigit. cbn [forallb] in *. unfold isdigit_char.
  repeat match type of Hall with
         | (?a && ?b) = true => apply andb_true_iff in Hall as [?H Hall]
         end.
  repeat match goal with H : isdecimal _ = true |- _ => rewrite H; clear H end.
  reflexivity.
Qed.

(** X19.  [_next_day_from_time] gives no window exactly when the start has
    fewer than ten characters or its first ten characters are not a date
    that [strptime] reads with the format [%Y-%m-%d]: its test of the
    first four characters never decides.  Otherwise it gives the window
    of the day after that date, or raises [OverflowError] when there is no
    such day. *)
Theorem no_retry_without_a_date from_time to_time :
  (_next_day_from_time from_time to_time = Ret None
   <-> (length from_time < 10)%nat \/ strptime_ymd (take 10 from_time) = None)
  /\ forall d, (10 <= length from_time)%nat ->
       strptime_ymd (take 10 from_time) = Some d ->
       _next_day_from_time from_time to_time =
       match next_day d with
       | Raise e => Raise e
       | Ret d' => Ret (Some (day_window d'))
       end.
Proof.
  assert (Hsome : forall d, (10 <= length from_time)%nat ->
            strptime_ymd (take 10 from_time) = Some d ->
            _next_day_from_time from_time to_time =
            match next_day d with
            | Raise e => Raise e
            | Ret d' => Ret (Some (day_window d'))
            end).
  { intros d Hlen Hd. unfold _next_day_from_time.
    destruct (Nat.ltb_spec (length from_time) 10) as [|_]; [lia|].
    pose proof (strptime_ymd_digits _ _ Hd) as Hdig.
    rewrite take_take in Hdig. change (4 `min` 10)%nat with 4%nat in Hdig.
    rewrite Hdig, Hd. cbn [negb orb]. destruct (next_day d); reflexivity. }
  split; [|exact Hsome]. split.
  - intros Hnone.
    destruct (le_lt_dec 10 (length from_time)) as [Hlen|Hlen]; [|left; exact Hlen].
    right. destruct (strptime_ymd (take 10 from_time)) as [d|] eqn:Hd; [|reflexivity].
    rewrite (Hsome d Hlen eq_refl) in Hnone.
    destruct (next_day d); discriminate.
  - intros [Hlen|Hno]; unfold _next_day_from_time.
    + destruct (Nat.ltb_spec (length from_time) 10) as [_|]; [reflexivity|lia].
    + rewrite Hno. destruct (_ || _); reflexivity.
Qed.

(** A relative start is no date, and a day written without leading zeros
    is one only when ten characters are there. *)
Lemma no_retry_witness :
  _next_day_from_time (lit "-7d") (lit "now") = Ret None
  /\ _next_day_from_time (lit "2024-01-31T00:00:00") (lit "now") =
     match next_day (Date 2024 1 31) with
     | Raise e => Raise e
     | Ret d' => Ret (Some (day_window d'))
     end.
Proof.
  split.
  - apply (no_retry_without_a_date (lit "-7d") (lit "now")). left. vm_compute. lia.
  - apply (no_retry_without_a_date (lit "2024-01-31T00:00:00") (lit "now"));
      vm_compute; [lia|reflexivity].
Defined.

(** A start whose year is in Arabic-Indic digits is a date, and has a next
    day; one whose year is in superscripts passes the test of the digits
    and is no date. *)
Example next_day_beyond_ascii :
  _next_day_from_time ([0x662; 0x660; 0x662; 0x664]%N ++ lit "-01-01T00:00:00")
                      (lit "now") =
    Ret (Some (lit "2024-01-02T00:00:00", lit "2024-01-02T23:59:59"))
  /\ isdigit [0xB2; 0xB2; 0xB2; 0xB2]%N = true
  /\ _next_day_from_time ([0xB2; 0xB2; 0xB2; 0xB2]%N ++ lit "-01-01T00:00:00")
                         (lit "now") = Ret None.
Proof. repeat split; vm_compute; reflexivity. Qed.
